(** * Enterprise catalog: resolver, projector, sync and existence check

    A shallow embedding of
      - [enterprise_catalog/apps/catalog/models.py]
      - [enterprise_catalog/apps/api/v1/serializers.py]
      - [enterprise_catalog/apps/api/v1/views/enterprise_catalog_contains_content_items.py]
    The Django ORM is modelled as explicit tables (lists of rows) threaded
    through every call; Python dictionaries and lists that are shared and
    mutated live in an explicit heap of objects. *)

From Stdlib Require Import ZArith List String Bool Lia.
From stdpp Require Import base option list strings pretty.
Import ListNotations.
Local Open Scope string_scope.
Local Open Scope list_scope.

(** ** JSON values, as stored by the JSONField columns

    Objects are loaded with [object_pairs_hook=OrderedDict], hence the
    association list: the order of the pairs is part of the value.  Numbers
    are integers; nothing below reads a fractional one. *)
Local Unset Elimination Schemes.
Inductive json : Type :=
| JNull
| JBool (b : bool)
| JNum (n : Z)
| JStr (s : string)
| JArr (xs : list json)
| JObj (kvs : list (string * json)).
Local Set Elimination Schemes.

(** Structural equality on payloads, the comparison behind an exact lookup on
    a JSONField column. *)
Fixpoint json_eqb (a b : json) {struct a} : bool :=
  match a, b with
  | JNull, JNull => true
  | JBool x, JBool y => Bool.eqb x y
  | JNum x, JNum y => Z.eqb x y
  | JStr x, JStr y => String.eqb x y
  | JArr xs, JArr ys =>
      (fix go (l1 l2 : list json) {struct l1} : bool :=
         match l1, l2 with
         | [], [] => true
         | x :: l1', y :: l2' => json_eqb x y && go l1' l2'
         | _, _ => false
         end) xs ys
  | JObj xs, JObj ys =>
      (fix go (l1 l2 : list (string * json)) {struct l1} : bool :=
         match l1, l2 with
         | [], [] => true
         | (k1, x) :: l1', (k2, y) :: l2' =>
             String.eqb k1 k2 && json_eqb x y && go l1' l2'
         | _, _ => false
         end) xs ys
  | _, _ => false
  end.

(** [d[k]] on a JSON object: [None] stands for the KeyError. *)
Fixpoint json_lookup (k : string) (kvs : list (string * json)) : option json :=
  match kvs with
  | [] => None
  | (k', v) :: rest => if String.eqb k k' then Some v else json_lookup k rest
  end.

(** ** Exceptions and the result of a call *)
Inductive exn : Type :=
| DoesNotExist
| MultipleObjectsReturned
| IntegrityError (column : string)
| ValidationError (field detail : string) (code : nat)
| KeyError (key : string)
| TypeError
| AttributeError.

Definition result (A : Type) : Type := exn + A.

Definition HTTP_400_BAD_REQUEST : nat := 400.
Definition HTTP_422_UNPROCESSABLE_ENTITY : nat := 422.

(** ** Collaborators that live outside the reviewed files *)

(** [enterprise_catalog.apps.catalog.utils.get_content_filter_hash], the
    digest of a content filter, and the two library calls the resolver
    leans on: [uuid4], seeded here by the primary key the new row receives,
    and the rendering [f'{column}'] of the regular-expression search for the
    key name in [str(exc)], for the integrity error raised on a given unique
    column. *)
Class Digest : Type := {
  get_content_filter_hash : json -> string;
  uuid4 : nat -> string;
  searched_column : string -> string
}.

(** ** models.py: CatalogQuery *)
Module CatalogQuery.

(** Modelled from the spec: the [uuid] and [title] columns, which the
    serializer reads and writes but this revision of models.py does not
    declare ("CatalogQuery: identifier (opaque, stable), content_filter,
    content_filter_hash (derived, unique), title (nullable)").  [id] is
    the automatic primary key; [None] on an instance not yet inserted. *)
Record t : Type := Build {
  id : option nat;
  uuid : string;
  title : option string;
  content_filter : json;
  content_filter_hash : option string
}.

(** The table together with its auto-increment counter. *)
Record table : Type := Table {
  rows : list t;
  next_id : nat
}.

Definition set_id (pk : nat) (q : t) : t :=
  Build (Some pk) (uuid q) (title q) (content_filter q) (content_filter_hash q).
Definition set_uuid (u : string) (q : t) : t :=
  Build (id q) u (title q) (content_filter q) (content_filter_hash q).
Definition set_title (x : option string) (q : t) : t :=
  Build (id q) (uuid q) x (content_filter q) (content_filter_hash q).
Definition set_content_filter (f : json) (q : t) : t :=
  Build (id q) (uuid q) (title q) f (content_filter_hash q).
Definition set_content_filter_hash (x : option string) (q : t) : t :=
  Build (id q) (uuid q) (title q) (content_filter q) x.

Definition has_pk (pk : nat) (q : t) : bool := bool_decide (id q = Some pk).
Definition has_hash (x : string) (q : t) : bool :=
  bool_decide (content_filter_hash q = Some x).
Definition has_uuid (u : string) (q : t) : bool := bool_decide (uuid q = u).

(** [unique=True] on [content_filter_hash]: the write of [q] is refused
    when another row (another primary key) already holds the same non-null
    hash. *)
Definition hash_taken (q : t) (rs : list t) : bool :=
  match content_filter_hash q with
  | None => false
  | Some x => existsb (fun r => has_hash x r && negb (bool_decide (id r = id q))) rs
  end.

Definition replace_row (pk : nat) (q : t) (rs : list t) : list t :=
  map (fun r => if has_pk pk r then q else r) rs.

(** [models.Model.save]: UPDATE the row with the instance's primary key
    when there is one, INSERT otherwise ([force_insert] skips the UPDATE
    attempt).  A write that breaks the unique index raises
    [IntegrityError] and leaves the table as it was. *)
Definition Model_save (force_insert : bool) (self : t) (db : table)
  : result t * table :=
  match id self with
  | Some pk =>
      if negb force_insert && existsb (has_pk pk) (rows db) then
        if hash_taken self (rows db)
        then (inl (IntegrityError "content_filter_hash"), db)
        else (inr self, Table (replace_row pk self (rows db)) (next_id db))
      else if existsb (has_pk pk) (rows db)
        then (inl (IntegrityError "PRIMARY"), db)
      else if hash_taken self (rows db)
        then (inl (IntegrityError "content_filter_hash"), db)
        else (inr self, Table (rows db ++ [self]) (Nat.max (next_id db) (S pk)))
  | None =>
      let self' := set_id (next_id db) self in
      if hash_taken self' (rows db)
      then (inl (IntegrityError "content_filter_hash"), db)
      else (inr self', Table (rows db ++ [self']) (S (next_id db)))
  end.

Section WithDigest.
Context `{Digest}.

(** [CatalogQuery.save] (models.py, lines 47-49). *)
Definition save (force_insert : bool) (self : t) (db : table)
  : result t * table :=
  let self := set_content_filter_hash
                (Some (get_content_filter_hash (content_filter self))) self in
  Model_save force_insert self db.

(** [QuerySet.get(content_filter_hash=x)]. *)
Definition get_by_hash (x : string) (db : table) : result t :=
  match List.filter (has_hash x) (rows db) with
  | [] => inl DoesNotExist
  | [r] => inr r
  | _ => inl MultipleObjectsReturned
  end.

(** Modelled from the spec: the classmethod [CatalogQuery.get_by_uuid],
    absent from this revision of models.py ("a row with that identifier
    exists"): the row carrying the identifier, or [None]. *)
Definition get_by_uuid (u : string) (db : table) : option t :=
  List.find (has_uuid u) (rows db).

(** [QuerySet.create] on the merged lookup and defaults: build the instance, then
    [obj.save(force_insert=True)]. *)
Definition create (u : option string) (x : option string) (f : json)
    (ttl : option string) (db : table) : result t * table :=
  let u' := match u with Some u => u | None => uuid4 (next_id db) end in
  save true (Build None u' ttl f x) db.

(** [QuerySet._create_object_from_params]: on an integrity error the
    lookup is tried once more before the error is raised again. *)
Definition create_object_from_params (x : string) (u : option string)
    (f : json) (ttl : option string) (db : table)
  : result (t * bool) * table :=
  match create u (Some x) f ttl db with
  | (inr obj, db') => (inr (obj, true), db')
  | (inl e, db') =>
      match get_by_hash x db' with
      | inr obj => (inr (obj, false), db')
      | inl DoesNotExist => (inl e, db')
      | inl e' => (inl e', db')
      end
  end.

(** [CatalogQuery.objects.get_or_create(content_filter_hash=x,
    defaults={'content_filter': f, 'title': ttl})]. *)
Definition get_or_create (x : string) (f : json) (ttl : option string)
    (db : table) : result (t * bool) * table :=
  match get_by_hash x db with
  | inr obj => (inr (obj, false), db)
  | inl DoesNotExist => create_object_from_params x None f ttl db
  | inl e => (inl e, db)
  end.

(** [CatalogQuery.objects.update_or_create(content_filter_hash=x,
    defaults={'content_filter': f, 'uuid': u, 'title': ttl})]: the row
    found by the lookup receives every default and is saved; only when
    the lookup finds nothing is a row created. *)
Definition update_or_create (x : string) (f : json) (u : string)
    (ttl : option string) (db : table) : result (t * bool) * table :=
  match get_by_hash x db with
  | inr obj =>
      let obj := set_title ttl (set_uuid u (set_content_filter f obj)) in
      match save false obj db with
      | (inr obj', db') => (inr (obj', false), db')
      | (inl e, db') => (inl e, db')
      end
  | inl DoesNotExist => create_object_from_params x (Some u) f ttl db
  | inl e => (inl e, db)
  end.

End WithDigest.
End CatalogQuery.

(** ** serializers.py: the catalog-query resolver *)
Section Resolver.
Context `{Digest}.
Import CatalogQuery.

(** Truth value of the [catalog_query_uuid] argument: [None] and the empty
    string are false. *)
Definition uuid_given (catalog_query_uuid : option string) : option string :=
  match catalog_query_uuid with
  | Some u => if String.eqb u "" then None else Some u
  | None => None
  end.

(** [find_and_modify_catalog_query] (serializers.py, lines 31-74). *)
Definition find_and_modify_catalog_query (content_filter : json)
    (catalog_query_uuid : option string) (query_title : option string)
    (db : table) : result CatalogQuery.t * table :=
  match uuid_given catalog_query_uuid with
  | Some u =>
      match get_by_uuid u db with
      | Some catalog_query_from_uuid =>
          let q := set_content_filter content_filter catalog_query_from_uuid in
          let q := set_title query_title q in
          let q := set_content_filter_hash
                     (Some (get_content_filter_hash content_filter)) q in
          match save false q db with
          | (inr q', db') => (inr q', db')
          | (inl (IntegrityError column), db') =>
              (inl (ValidationError "catalog_query"
                      (searched_column column ++ " is not unique")%string
                      HTTP_422_UNPROCESSABLE_ENTITY), db')
          | (inl e, db') => (inl e, db')
          end
      | None =>
          match update_or_create (get_content_filter_hash content_filter)
                  content_filter u query_title db with
          | (inr (content_filter_from_hash, _), db') =>
              (inr content_filter_from_hash, db')
          | (inl e, db') => (inl e, db')
          end
      end
  | None =>
      match get_or_create (get_content_filter_hash content_filter)
              content_filter query_title db with
      | (inr (content_filter_from_hash, _), db') =>
          (inr content_filter_from_hash, db')
      | (inl e, db') => (inl e, db')
      end
  end.
End Resolver.

(** ** models.py: EnterpriseCatalog *)
Module EnterpriseCatalog.

(** Modelled from the spec: [enterprise_name] and the customer's
    [last_modified_date], which the serializer reads from the catalog but
    this revision of models.py does not declare ("Enterprise-context
    provider: read-only access to an enterprise's display name, identifier,
    and last-modified timestamp").  [catalog_query] is the foreign key, the
    primary key of a CatalogQuery row or NULL; timestamps are seconds. *)
Record t : Type := Build {
  uuid : string;
  title : string;
  enterprise_uuid : string;
  catalog_query : option nat;
  enabled_course_modes : json;
  publish_audit_enrollment_urls : bool;
  modified : Z;
  enterprise_name : string;
  enterprise_customer_last_modified_date : Z
}.

(** [EnterpriseCatalog.objects.get(uuid=u)]; [uuid] is the primary key. *)
Definition get (u : string) (catalogs : list t) : result t :=
  match List.find (fun c => bool_decide (uuid c = u)) catalogs with
  | Some c => inr c
  | None => inl DoesNotExist
  end.
End EnterpriseCatalog.

(** ** models.py: ContentMetadata and the discovery sync *)

(** [DiscoveryApiClient.get_metadata_by_query] and Python's [str], which a
    CharField applies to a value that is not a string. *)
Class Discovery : Type := {
  get_metadata_by_query : json -> result json;
  py_str : json -> string
}.

Module ContentMetadata.

(** A row of the table.  The [created]/[modified] stamps of
    TimeStampedModel and the history rows are kept by the base classes and
    are not read by the sync; the projector reads [modified] from the
    instance it is handed. *)
Record t : Type := Build {
  id : option nat;
  content_key : string;
  content_type : string;
  parent_content_key : option string;
  json_metadata : json
}.

Record table : Type := Table {
  rows : list t;
  next_id : nat
}.

Definition set_id (pk : nat) (m : t) : t :=
  Build (Some pk) (content_key m) (content_type m) (parent_content_key m)
        (json_metadata m).
Definition set_content_key (k : string) (m : t) : t :=
  Build (id m) k (content_type m) (parent_content_key m) (json_metadata m).

Definition has_pk (pk : nat) (m : t) : bool := bool_decide (id m = Some pk).
Definition has_payload (entry : json) (m : t) : bool :=
  json_eqb (json_metadata m) entry.

(** [unique=True] on [content_key]. *)
Definition key_taken (m : t) (rs : list t) : bool :=
  existsb (fun r => String.eqb (content_key r) (content_key m)
                    && negb (bool_decide (id r = id m))) rs.

Definition replace_row (pk : nat) (m : t) (rs : list t) : list t :=
  map (fun r => if has_pk pk r then m else r) rs.

(** [models.Model.save], as for CatalogQuery; this model does not
    override it. *)
Definition save (force_insert : bool) (self : t) (db : table)
  : result t * table :=
  match id self with
  | Some pk =>
      if negb force_insert && existsb (has_pk pk) (rows db) then
        if key_taken self (rows db)
        then (inl (IntegrityError "content_key"), db)
        else (inr self, Table (replace_row pk self (rows db)) (next_id db))
      else if existsb (has_pk pk) (rows db)
        then (inl (IntegrityError "PRIMARY"), db)
      else if key_taken self (rows db)
        then (inl (IntegrityError "content_key"), db)
        else (inr self, Table (rows db ++ [self]) (Nat.max (next_id db) (S pk)))
  | None =>
      let self' := set_id (next_id db) self in
      if key_taken self' (rows db)
      then (inl (IntegrityError "content_key"), db)
      else (inr self', Table (rows db ++ [self']) (S (next_id db)))
  end.

(** [QuerySet.get(json_metadata=entry)]. *)
Definition get_by_payload (entry : json) (db : table) : result t :=
  match List.filter (has_payload entry) (rows db) with
  | [] => inl DoesNotExist
  | [r] => inr r
  | _ => inl MultipleObjectsReturned
  end.

(** [null=False] on [content_key]: a write whose key is NULL is refused by
    the database; otherwise the instance built with the key is saved. *)
Definition save_with_key (force_insert : bool) (key : option string)
    (obj : string -> t) (db : table) : result t * table :=
  match key with
  | None => (inl (IntegrityError "content_key"), db)
  | Some k => save force_insert (obj k) db
  end.

(** [ContentMetadata.objects.update_or_create(json_metadata=entry,
    defaults={'content_key': key})].  A created row takes the column
    defaults: the empty string for [content_type], NULL for
    [parent_content_key]. *)
Definition update_or_create (entry : json) (key : option string) (db : table)
  : result (t * bool) * table :=
  match get_by_payload entry db with
  | inr obj =>
      match save_with_key false key (fun k => set_content_key k obj) db with
      | (inr obj', db') => (inr (obj', false), db')
      | (inl e, db') => (inl e, db')
      end
  | inl DoesNotExist =>
      match save_with_key true key (fun k => Build None k "" None entry) db with
      | (inr obj, db') => (inr (obj, true), db')
      | (inl e, db') =>
          match get_by_payload entry db' with
          | inr obj => (inr (obj, false), db')
          | inl DoesNotExist => (inl e, db')
          | inl e' => (inl e', db')
          end
      end
  | inl e => (inl e, db)
  end.
End ContentMetadata.

Section DiscoverySync.
Context `{Discovery}.

(** [entry['key']], as the value the [content_key] column receives: a
    string as it is, [None] for a JSON null, the [str] of anything else. *)
Definition entry_key (entry : json) : result (option string) :=
  match entry with
  | JObj kvs =>
      match json_lookup "key" kvs with
      | Some (JStr s) => inr (Some s)
      | Some JNull => inr None
      | Some v => inr (Some (py_str v))
      | None => inl (KeyError "key")
      end
  | _ => inl TypeError
  end.

(** The body of the loop (models.py, lines 196-200). *)
Definition sync_entry (entry : json) (db : ContentMetadata.table)
  : result unit * ContentMetadata.table :=
  match entry_key entry with
  | inl e => (inl e, db)
  | inr key =>
      match ContentMetadata.update_or_create entry key db with
      | (inr _, db') => (inr tt, db')
      | (inl e, db') => (inl e, db')
      end
  end.

(** [for entry in ...]: the first exception ends the loop; what earlier
    iterations wrote stays written. *)
Fixpoint sync_entries (entries : list json) (db : ContentMetadata.table)
  : result unit * ContentMetadata.table :=
  match entries with
  | [] => (inr tt, db)
  | entry :: rest =>
      match sync_entry entry db with
      | (inr _, db') => sync_entries rest db'
      | (inl e, db') => (inl e, db')
      end
  end.

(** [metadata.get('results', [])], as the sequence the loop walks. *)
Definition results_of (metadata : json) : result (list json) :=
  match metadata with
  | JObj kvs =>
      match json_lookup "results" kvs with
      | None => inr []
      | Some (JArr entries) => inr entries
      | Some (JObj kvs') => inr (map (fun kv => JStr (fst kv)) kvs')
      | Some (JStr s) =>
          inr (map (fun c => JStr (String c EmptyString)) (list_ascii_of_string s))
      | Some _ => inl TypeError
      end
  | _ => inl AttributeError
  end.

(** [update_contentmetadata_from_discovery] (models.py, lines 183-200). *)
Definition update_contentmetadata_from_discovery (catalog_uuid : string)
    (catalogs : list EnterpriseCatalog.t) (queries : CatalogQuery.table)
    (db : ContentMetadata.table) : result unit * ContentMetadata.table :=
  match EnterpriseCatalog.get catalog_uuid catalogs with
  | inl e => (inl e, db)
  | inr catalog =>
      match EnterpriseCatalog.catalog_query catalog with
      | None => (inl AttributeError, db)
      | Some fk =>
          match List.find (CatalogQuery.has_pk fk) (CatalogQuery.rows queries) with
          | None => (inl DoesNotExist, db)
          | Some query =>
              match get_metadata_by_query (CatalogQuery.content_filter query) with
              | inl e => (inl e, db)
              | inr metadata =>
                  match results_of metadata with
                  | inl e => (inl e, db)
                  | inr entries => sync_entries entries db
                  end
              end
          end
      end
  end.
End DiscoverySync.

(** ** Python objects: the heap the projector works on

    A dictionary or a list is an object at a location; a value that is not a
    scalar is a reference, so two references to one location see each
    other's writes. *)
Abbreviation loc := nat (only parsing).

Inductive val : Type :=
| VNone
| VBool (b : bool)
| VNum (n : Z)
| VStr (s : string)
| VTime (t : Z)
| VRef (l : loc).

Inductive obj : Type :=
| ODict (items : list (string * val))
| OList (elems : list val).

Abbreviation heap := (list obj) (only parsing).

Definition alloc (o : obj) (h : heap) : loc * heap := (List.length h, (h ++ [o])%list).

(** [d.get(k)], on the items of a dictionary. *)
Fixpoint dict_get (k : string) (items : list (string * val)) : option val :=
  match items with
  | [] => None
  | (k', v) :: rest => if String.eqb k k' then Some v else dict_get k rest
  end.

(** [d[k] = v]: an existing key keeps its place, a new one goes last. *)
Fixpoint dict_set (k : string) (v : val) (items : list (string * val))
  : list (string * val) :=
  match items with
  | [] => [(k, v)]
  | (k', v') :: rest =>
      if String.eqb k k' then (k, v) :: rest else (k', v') :: dict_set k v rest
  end.

(** [target[k] = v] on whatever [target] refers to. *)
Definition setitem (target : val) (k : string) (v : val) (h : heap)
  : result unit * heap :=
  match target with
  | VRef l =>
      match h !! l with
      | Some (ODict items) => (inr tt, <[l := ODict (dict_set k v items)]> h)
      | _ => (inl TypeError, h)
      end
  | _ => (inl TypeError, h)
  end.

(** [target.get(k, dflt)]: only a dictionary has the method. *)
Definition getattr_get (target : val) (k : string) (dflt : val) (h : heap)
  : result val :=
  match target with
  | VRef l =>
      match h !! l with
      | Some (ODict items) => inr (default dflt (dict_get k items))
      | _ => inl AttributeError
      end
  | _ => inl AttributeError
  end.

(** Truth value of [if v:]. *)
Definition truthy (h : heap) (v : val) : bool :=
  match v with
  | VNone => false
  | VBool b => b
  | VNum n => negb (Z.eqb n 0)
  | VStr s => negb (String.eqb s "")
  | VTime _ => true
  | VRef l =>
      match h !! l with
      | Some (ODict []) | Some (OList []) => false
      | _ => true
      end
  end.

(** The sequence [for x in v] walks; [None] when [v] is not iterable. *)
Definition iter_val (h : heap) (v : val) : option (list val) :=
  match v with
  | VRef l =>
      match h !! l with
      | Some (OList elems) => Some elems
      | Some (ODict items) => Some (map (fun kv => VStr (fst kv)) items)
      | None => None
      end
  | VStr s => Some (map (fun c => VStr (String c EmptyString)) (list_ascii_of_string s))
  | _ => None
  end.

(** Loading a JSON column value builds a fresh tree of objects. *)
Fixpoint load (j : json) (h : heap) {struct j} : val * heap :=
  match j with
  | JNull => (VNone, h)
  | JBool b => (VBool b, h)
  | JNum n => (VNum n, h)
  | JStr s => (VStr s, h)
  | JArr xs =>
      let '(vs, h') :=
        (fix go (l : list json) (h : heap) {struct l} : list val * heap :=
           match l with
           | [] => ([], h)
           | x :: l' =>
               let '(v, h1) := load x h in
               let '(vs, h2) := go l' h1 in (v :: vs, h2)
           end) xs h in
      let '(l, h'') := alloc (OList vs) h' in (VRef l, h'')
  | JObj kvs =>
      let '(items, h') :=
        (fix go (l : list (string * json)) (h : heap) {struct l}
           : list (string * val) * heap :=
           match l with
           | [] => ([], h)
           | (k, x) :: l' =>
               let '(v, h1) := load x h in
               let '(items, h2) := go l' h1 in ((k, v) :: items, h2)
           end) kvs h in
      let '(l, h'') := alloc (ODict items) h' in (VRef l, h'')
  end.

(** Reading a value back as the JSON it would be written as; [None] on a
    dangling reference, on a timestamp, or when the walk is deeper than
    [fuel]. *)
Fixpoint dump (fuel : nat) (h : heap) (v : val) : option json :=
  match fuel with
  | O => None
  | S fuel' =>
      match v with
      | VNone => Some JNull
      | VBool b => Some (JBool b)
      | VNum n => Some (JNum n)
      | VStr s => Some (JStr s)
      | VTime _ => None
      | VRef l =>
          match h !! l with
          | Some (OList elems) =>
              xs ← mapM (dump fuel' h) elems; Some (JArr xs)
          | Some (ODict items) =>
              kvs ← mapM (fun kv => x ← dump fuel' h (snd kv); Some (fst kv, x)) items;
              Some (JObj kvs)
          | None => None
          end
      end
  end.

(** ** serializers.py: the content-metadata projector *)

(** Modelled from the spec: the constants [COURSE], [COURSE_RUN] and
    [PROGRAM] of [enterprise_catalog.apps.catalog.constants]
    ("content_type in course, course_run, program"). *)
Definition COURSE : string := "course".
Definition COURSE_RUN : string := "course_run".
Definition PROGRAM : string := "program".

(** Helpers the projector calls that live in [api/v1/utils.py],
    [catalog/utils.py] and on a later revision of the EnterpriseCatalog
    model.  [is_course_run_active] is the test one nested run passes when it
    is currently enrollable. *)
Class ProjectorEnv : Type := {
  get_parent_content_key : heap -> val -> val;
  get_enterprise_utm_context : string -> list (string * string);
  update_query_parameters : val -> list (string * string) -> val;
  is_course_run_active : heap -> val -> bool;
  get_content_enrollment_url : EnterpriseCatalog.t -> string -> val -> val -> val;
  get_xapi_activity_id : EnterpriseCatalog.t -> string -> val -> val
}.

(** Modelled from the spec: [get_most_recent_modified_time] of
    [api/v1/utils.py] ("the latest of: record.modified, owningCatalog.modified,
    enterpriseContext.last_modified_date"). *)
Definition get_most_recent_modified_time (content_modified catalog_modified
    customer_modified : Z) : Z :=
  Z.max content_modified (Z.max catalog_modified customer_modified).

Section Projector.
Context `{ProjectorEnv}.

(** Modelled from the spec: [is_any_course_run_active] of
    [api/v1/utils.py] ("true iff ANY nested run is currently enrollable -
    boolean OR, empty run list gives false"). *)
Definition is_any_course_run_active (h : heap) (course_runs : list val) : bool :=
  existsb (is_course_run_active h) course_runs.

(** The ContentMetadata instance handed to the serializer: the fields it
    reads, [json_metadata] being a reference into the heap. *)
Record instance : Type := Instance {
  content_type : string;
  json_metadata : val;
  modified : Z
}.

(** [instance.json_metadata.copy()]: a new object holding the same items,
    the nested objects shared with the original. *)
Definition copy (v : val) (h : heap) : result val * heap :=
  match v with
  | VRef l =>
      match h !! l with
      | Some o => let '(l', h') := alloc o h in (inr (VRef l'), h')
      | None => (inl AttributeError, h)
      end
  | _ => (inl AttributeError, h)
  end.

(** The loop over the nested runs (serializers.py, lines 226-231). *)
Fixpoint enroll_course_runs (enterprise_catalog : EnterpriseCatalog.t)
    (content_key : val) (course_runs : list val) (h : heap)
  : result unit * heap :=
  match course_runs with
  | [] => (inr tt, h)
  | course_run :: rest =>
      match getattr_get course_run "key" VNone h with
      | inl e => (inl e, h)
      | inr run_key =>
          match setitem course_run "enrollment_url"
                  (get_content_enrollment_url enterprise_catalog COURSE
                     run_key content_key) h with
          | (inl e, h') => (inl e, h')
          | (inr _, h') => enroll_course_runs enterprise_catalog content_key rest h'
          end
      end
  end.

(** [ContentMetadataSerializer.to_representation] (serializers.py, lines
    178-240); [enterprise_catalog] is [self.context['enterprise_catalog']]. *)
Definition to_representation (enterprise_catalog : EnterpriseCatalog.t)
    (inst : instance) (h : heap) : result val * heap :=
  match copy (json_metadata inst) h with
  | (inl e, h) => (inl e, h)
  | (inr md, h) =>
  match getattr_get md "marketing_url" VNone h with
  | inl e => (inl e, h)
  | inr marketing_url =>
  match getattr_get md "key" VNone h with
  | inl e => (inl e, h)
  | inr content_key =>
  let parent_content_key := get_parent_content_key h md in
  let modified_time :=
    get_most_recent_modified_time (modified inst)
      (EnterpriseCatalog.modified enterprise_catalog)
      (EnterpriseCatalog.enterprise_customer_last_modified_date enterprise_catalog) in
  match setitem md "content_last_modified" (VTime modified_time) h with
  | (inl e, h) => (inl e, h)
  | (inr _, h) =>
  match (if truthy h marketing_url
         then setitem md "marketing_url"
                (update_query_parameters marketing_url
                   (get_enterprise_utm_context
                      (EnterpriseCatalog.enterprise_name enterprise_catalog))) h
         else (inr tt, h)) with
  | (inl e, h) => (inl e, h)
  | (inr _, h) =>
  if String.eqb (content_type inst) COURSE || String.eqb (content_type inst) COURSE_RUN
  then
    match setitem md "enrollment_url"
            (get_content_enrollment_url enterprise_catalog COURSE
               content_key parent_content_key) h with
    | (inl e, h) => (inl e, h)
    | (inr _, h) =>
    match setitem md "xapi_activity_id"
            (get_xapi_activity_id enterprise_catalog (content_type inst)
               content_key) h with
    | (inl e, h) => (inl e, h)
    | (inr _, h) =>
    if String.eqb (content_type inst) COURSE then
      let '(empty, h) := alloc (OList []) h in
      match getattr_get md "course_runs" (VRef empty) h with
      | inl e => (inl e, h)
      | inr course_runs =>
      match iter_val h course_runs with
      | None => (inl TypeError, h)
      | Some runs =>
      match setitem md "active" (VBool (is_any_course_run_active h runs)) h with
      | (inl e, h) => (inl e, h)
      | (inr _, h) =>
      match enroll_course_runs enterprise_catalog content_key runs h with
      | (inl e, h) => (inl e, h)
      | (inr _, h) => (inr md, h)
      end
      end
      end
      end
    else (inr md, h)
    end
    end
  else if String.eqb (content_type inst) PROGRAM then
    match setitem md "enrollment_url"
            (get_content_enrollment_url enterprise_catalog PROGRAM
               content_key parent_content_key) h with
    | (inl e, h) => (inl e, h)
    | (inr _, h) => (inr md, h)
    end
  else (inr md, h)
  end
  end
  end
  end
  end.
End Projector.

(** ** views/enterprise_catalog_contains_content_items.py *)

(** [unquote_course_keys] of [api/v1/utils.py] and the model method
    [EnterpriseCatalog.contains_content_keys] of a later revision. *)
Class ViewEnv : Type := {
  unquote_course_keys : list string -> list string;
  contains_content_keys : EnterpriseCatalog.t -> list string -> bool
}.

(** What a request does that can be observed from outside: the calls it
    makes to the existence checker. *)
Inductive event : Type :=
| ContainsContentKeys (catalog_uuid : string) (content_keys : list string).

Inductive response : Type :=
| Response (status : nat) (body : list (string * bool))
| ErrorResponse (status : nat) (detail : string).

Definition is_client_error (r : response) : bool :=
  match r with
  | Response status _ | ErrorResponse status _ =>
      Nat.leb 400 status && Nat.ltb status 500
  end.

(** [request.query_params.getlist(name)]. *)
Definition getlist (name : string) (query_params : list (string * string))
  : list string :=
  map snd (List.filter (fun kv => String.eqb (fst kv) name) query_params).

Section ContainsContentItems.
Context `{ViewEnv}.

(** The body of the action (lines 42-53); [get_object] answers 404 when no
    catalog carries the identifier. *)
Definition contains_content_items_view (catalogs : list EnterpriseCatalog.t)
    (uuid : string) (course_run_ids program_uuids : list string)
  : response * list event :=
  let course_run_ids := unquote_course_keys course_run_ids in
  match EnterpriseCatalog.get uuid catalogs with
  | inl _ => (ErrorResponse 404 "Not found.", [])
  | inr enterprise_catalog =>
      let content_keys := (course_run_ids ++ program_uuids)%list in
      (Response 200
         [("contains_content_items",
           contains_content_keys enterprise_catalog content_keys)],
       [ContainsContentKeys uuid content_keys])
  end.

(** Modelled from the spec: the decorator
    [require_at_least_one_query_parameter] of [api/v1/decorators.py] ("the
    existence-check surface requires at least one of two identifier-set
    parameters; absence of both is rejected before the Existence Checker
    runs, with a client-error response"): the named parameters are read
    from the query string and handed to the view, unless every one of them
    is absent. *)
Definition require_at_least_one_query_parameter (first second : string)
    (view : list string -> list string -> response * list event)
    (query_params : list (string * string)) : response * list event :=
  let first_values := getlist first query_params in
  let second_values := getlist second query_params in
  match first_values, second_values with
  | [], [] =>
      (ErrorResponse HTTP_400_BAD_REQUEST
         ("You must provide at least one of the following query parameters: "
          ++ first ++ ", " ++ second ++ "."), [])
  | _, _ => view first_values second_values
  end.

(** [EnterpriseCatalogContainsContentItems.contains_content_items], as
    decorated (lines 40-53). *)
Definition contains_content_items (catalogs : list EnterpriseCatalog.t)
    (uuid : string) (query_params : list (string * string))
  : response * list event :=
  require_at_least_one_query_parameter "course_run_ids" "program_uuids"
    (contains_content_items_view catalogs uuid) query_params.
End ContainsContentItems.

(** ** Reading a projection *)

(** [v[k]] when [v] refers to a dictionary. *)
Definition field (h : heap) (v : val) (k : string) : option val :=
  match v with
  | VRef l =>
      match h !! l with
      | Some (ODict items) => dict_get k items
      | _ => None
      end
  | _ => None
  end.

Definition is_dict_ref (h : heap) (v : val) : bool :=
  match v with
  | VRef l => match h !! l with Some (ODict _) => true | _ => false end
  | _ => false
  end.

(** The nested runs of a record: what is under [course_runs], nothing when
    the key is absent. *)
Definition nested_course_runs (h : heap) (items : list (string * val))
  : option (list val) :=
  match dict_get "course_runs" items with
  | None => Some []
  | Some v => iter_val h v
  end.

Section ProjectorShape.
Context `{ProjectorEnv}.

(** A record the projector accepts: its metadata is a dictionary and, for a
    course, what is under [course_runs] is a sequence of dictionaries. *)
Definition projectable (h : heap) (inst : instance) : bool :=
  match json_metadata inst with
  | VRef l =>
      match h !! l with
      | Some (ODict items) =>
          if String.eqb (content_type inst) COURSE then
            match nested_course_runs h items with
            | Some runs => forallb (is_dict_ref h) runs
            | None => false
            end
          else true
      | _ => false
      end
  | _ => false
  end.

(** The items of the projected dictionary, branch by branch. *)
Definition dated_items (enterprise_catalog : EnterpriseCatalog.t)
    (inst : instance) (items : list (string * val)) : list (string * val) :=
  dict_set "content_last_modified"
    (VTime (get_most_recent_modified_time (modified inst)
              (EnterpriseCatalog.modified enterprise_catalog)
              (EnterpriseCatalog.enterprise_customer_last_modified_date
                 enterprise_catalog)))
    items.

Definition marketed_items (enterprise_catalog : EnterpriseCatalog.t)
    (inst : instance) (h : heap) (items : list (string * val))
  : list (string * val) :=
  let marketing_url := default VNone (dict_get "marketing_url" items) in
  let dated := dated_items enterprise_catalog inst items in
  if truthy (h ++ [ODict dated])%list marketing_url
  then dict_set "marketing_url"
         (update_query_parameters marketing_url
            (get_enterprise_utm_context
               (EnterpriseCatalog.enterprise_name enterprise_catalog))) dated
  else dated.

Definition enrolled_items (enterprise_catalog : EnterpriseCatalog.t)
    (inst : instance) (h : heap) (items : list (string * val))
  : list (string * val) :=
  let content_key := default VNone (dict_get "key" items) in
  let parent_content_key :=
    get_parent_content_key (h ++ [ODict items])%list (VRef (List.length h)) in
  dict_set "xapi_activity_id"
    (get_xapi_activity_id enterprise_catalog (content_type inst) content_key)
    (dict_set "enrollment_url"
       (get_content_enrollment_url enterprise_catalog COURSE content_key
          parent_content_key)
       (marketed_items enterprise_catalog inst h items)).
End ProjectorShape.

(** ** Concrete collaborators, for running the definitions on examples *)

(** The text [json.dumps] writes; the example digest is this text itself, so
    two filters share a digest exactly when they are written alike. *)
Fixpoint json_dumps (j : json) : string :=
  match j with
  | JNull => "null"
  | JBool true => "true"
  | JBool false => "false"
  | JNum n => pretty n
  | JStr s => ("'" ++ s ++ "'")%string
  | JArr xs =>
      ("[" ++ (fix go (l : list json) : string :=
                 match l with
                 | [] => ""
                 | x :: l' => json_dumps x ++ "," ++ go l'
                 end) xs ++ "]")%string
  | JObj kvs =>
      ("{" ++ (fix go (l : list (string * json)) : string :=
                 match l with
                 | [] => ""
                 | (k, x) :: l' => "'" ++ k ++ "':" ++ json_dumps x ++ "," ++ go l'
                 end) kvs ++ "}")%string
  end.

Definition example_digest : Digest := {|
  get_content_filter_hash := json_dumps;
  uuid4 := fun n => ("uuid-" ++ pretty n)%string;
  searched_column := fun column => column
|}.

(** A table of two queries. *)
Definition course_filter : json := JObj [("content_type", JStr "course")].
Definition program_filter : json := JObj [("content_type", JStr "program")].

Definition row_b : CatalogQuery.t :=
  CatalogQuery.Build (Some 1) "uuid-b" (Some "courses") course_filter
    (Some (json_dumps course_filter)).
Definition row_a : CatalogQuery.t :=
  CatalogQuery.Build (Some 2) "uuid-a" (Some "programs") program_filter
    (Some (json_dumps program_filter)).
Definition two_rows : CatalogQuery.table := CatalogQuery.Table [row_b; row_a] 3.

(** A catalog whose query is [row_b], one stored course, and a discovery
    service that answers with the same course under a new title. *)
Definition stored_course : json :=
  JObj [("key", JStr "edX+DemoX"); ("title", JStr "Demo")].
Definition fresh_course : json :=
  JObj [("key", JStr "edX+DemoX"); ("title", JStr "Demo, revised")].
Definition other_course : json :=
  JObj [("key", JStr "edX+Other"); ("title", JStr "Other")].

Definition one_course : ContentMetadata.table :=
  ContentMetadata.Table
    [ContentMetadata.Build (Some 1) "edX+DemoX" "course" None stored_course] 2.

Definition demo_catalog : EnterpriseCatalog.t :=
  EnterpriseCatalog.Build "catalog-1" "Demo catalog" "enterprise-1" (Some 1)
    (JArr [JStr "verified"; JStr "audit"]) false 100 "Acme" 90.

Definition example_discovery : Discovery := {|
  get_metadata_by_query := fun _ => inr (JObj [("results", JArr [fresh_course])]);
  py_str := json_dumps
|}.

Definition val_text (v : val) : string :=
  match v with
  | VStr s => s
  | _ => ""
  end.

(** Concrete helpers for the examples: URLs are templates that spell out
    every argument they were built from. *)
Definition example_projector_env : ProjectorEnv := {|
  get_parent_content_key := fun h md => default VNone (field h md "course");
  get_enterprise_utm_context := fun name =>
    [("utm_medium", "enterprise"); ("utm_source", name)];
  update_query_parameters := fun url params =>
    VStr (fold_left (fun acc kv => acc ++ "&" ++ fst kv ++ "=" ++ snd kv)%string
            params (val_text url));
  is_course_run_active := fun h run =>
    match field h run "status" with
    | Some (VStr "published") => true
    | _ => false
    end;
  get_content_enrollment_url := fun catalog resource content_key parent =>
    VStr ("/enterprise/" ++ EnterpriseCatalog.enterprise_uuid catalog ++ "/"
          ++ resource ++ "/" ++ val_text content_key ++ "/enroll/?catalog="
          ++ EnterpriseCatalog.uuid catalog ++ "&parent=" ++ val_text parent)%string;
  get_xapi_activity_id := fun catalog resource content_key =>
    VStr ("/xapi/activities/" ++ resource ++ "/" ++ val_text content_key)%string
|}.

(** A stored course with one published run and one archived run. *)
Definition demo_course : json :=
  JObj [("key", JStr "edX+DemoX");
        ("marketing_url", JStr "https://example.com/course?ref=1");
        ("course_runs",
         JArr [JObj [("key", JStr "course-v1:edX+DemoX+1T"); ("status", JStr "archived")];
               JObj [("key", JStr "course-v1:edX+DemoX+2T"); ("status", JStr "published")]])].

Definition demo_course_run : json :=
  JObj [("key", JStr "course-v1:edX+DemoX+2T"); ("course", JStr "edX+DemoX")].

Definition demo_course_instance : instance :=
  Instance COURSE (load demo_course []).1 120.
Definition demo_course_heap : heap := (load demo_course []).2.

Definition demo_run_instance : instance :=
  Instance COURSE_RUN (load demo_course_run []).1 80.
Definition demo_run_heap : heap := (load demo_course_run []).2.

Definition example_view_env : ViewEnv := {|
  unquote_course_keys := fun keys => keys;
  contains_content_keys := fun catalog keys =>
    forallb (fun k => existsb (String.eqb k) ["course-v1:edX+DemoX+2T"]) keys
|}.

(** ** Invariants of the CatalogQuery table *)
Section CatalogQueryInvariants.
Context `{Digest}.
Import CatalogQuery.

(** Every row carries the digest of its own filter. *)
Definition hash_derived (rs : list t) : Prop :=
  Forall (fun r => content_filter_hash r
                   = Some (get_content_filter_hash (content_filter r))) rs.

(** The unique index on [content_filter_hash]. *)
Definition unique_hashes (rs : list t) : Prop :=
  NoDup (omap content_filter_hash rs).
End CatalogQueryInvariants.

(** The integrity of the CatalogQuery table as the database keeps it: the
    unique index on the digest, primary keys that are set, distinct and
    below the auto-increment counter. *)
Definition catalog_query_table_ok (db : CatalogQuery.table) : Prop :=
  unique_hashes (CatalogQuery.rows db)
  /\ NoDup (map CatalogQuery.id (CatalogQuery.rows db))
  /\ Forall (fun r => exists pk : nat,
                 CatalogQuery.id r = Some pk /\ pk < CatalogQuery.next_id db)
       (CatalogQuery.rows db).

Definition level_filter : json := JObj [("level", JNum 3)].

(** ** What the loop over the nested runs leaves in the heap *)
Definition refers_to (l : loc) (v : val) : bool :=
  match v with
  | VRef l' => Nat.eqb l l'
  | _ => false
  end.

Section NestedRuns.
Context `{ProjectorEnv}.

(** The object at a stored location once every run of [runs] has received
    its enrollment URL: a dictionary listed among the runs has the URL set,
    anything else is what it was. *)
Definition enrolled_object (enterprise_catalog : EnterpriseCatalog.t)
    (course_key : val) (runs : list val) (h : heap) (l : loc) : option obj :=
  match h !! l with
  | Some (ODict its) =>
      if existsb (refers_to l) runs
      then Some (ODict
                   (dict_set "enrollment_url"
                      (get_content_enrollment_url enterprise_catalog COURSE
                         (default VNone (dict_get "key" its)) course_key)
                      its))
      else Some (ODict its)
  | o => o
  end.
End NestedRuns.

(** ** Invariants of the ContentMetadata table *)

(** The integrity of the table as the database keeps it: the unique index
    on [content_key], primary keys that are set, distinct and below the
    auto-increment counter. *)
Definition content_metadata_table_ok (db : ContentMetadata.table) : Prop :=
  NoDup (map ContentMetadata.content_key (ContentMetadata.rows db))
  /\ NoDup (map ContentMetadata.id (ContentMetadata.rows db))
  /\ Forall (fun r => exists pk : nat,
                 ContentMetadata.id r = Some pk
                 /\ pk < ContentMetadata.next_id db)
       (ContentMetadata.rows db).

(** Two states of one row that differ at most in [content_key]. *)
Definition same_but_key (r r' : ContentMetadata.t) : Prop :=
  ContentMetadata.id r' = ContentMetadata.id r
  /\ ContentMetadata.content_type r' = ContentMetadata.content_type r
  /\ ContentMetadata.parent_content_key r' = ContentMetadata.parent_content_key r
  /\ ContentMetadata.json_metadata r' = ContentMetadata.json_metadata r.

(** A table that was only appended to, apart from content keys. *)
Definition grown_from (db db' : ContentMetadata.table) : Prop :=
  exists updated added : list ContentMetadata.t,
    ContentMetadata.rows db' = updated ++ added
    /\ Forall2 same_but_key (ContentMetadata.rows db) updated.

Section SyncedEntries.
Context `{Discovery}.

End SyncedEntries.

Definition no_content : ContentMetadata.table := ContentMetadata.Table [] 1.

(** ** forms.py: the admin form of a catalog query *)

(** The Python classes a content filter and its declared field types can
    involve. *)
Inductive pytype : Type :=
| TyNoneType
| TyBool
| TyInt
| TyFloat
| TyStr
| TyList
| TyDict
| TyOrderedDict.

Definition pytype_eqb (a b : pytype) : bool :=
  match a, b with
  | TyNoneType, TyNoneType | TyBool, TyBool | TyInt, TyInt | TyFloat, TyFloat
  | TyStr, TyStr | TyList, TyList | TyDict, TyDict
  | TyOrderedDict, TyOrderedDict => true
  | _, _ => false
  end.

(** [type(x)] of a loaded JSON value; an object is an OrderedDict, as the
    [object_pairs_hook] of the column says. *)
Definition type_of (x : json) : pytype :=
  match x with
  | JNull => TyNoneType
  | JBool _ => TyBool
  | JNum _ => TyInt
  | JStr _ => TyStr
  | JArr _ => TyList
  | JObj _ => TyOrderedDict
  end.

(** [isinstance(x, ty)]: the class of [x] or one of its bases; [bool]
    derives from [int] and [OrderedDict] from [dict]. *)
Definition isinstance (x : json) (ty : pytype) : bool :=
  pytype_eqb (type_of x) ty
  || match type_of x, ty with
     | TyBool, TyInt | TyOrderedDict, TyDict => true
     | _, _ => false
     end.

(** [repr] of a class, as [str.format] writes it. *)
Definition pytype_repr (ty : pytype) : string :=
  match ty with
  | TyNoneType => "<class 'NoneType'>"
  | TyBool => "<class 'bool'>"
  | TyInt => "<class 'int'>"
  | TyFloat => "<class 'float'>"
  | TyStr => "<class 'str'>"
  | TyList => "<class 'list'>"
  | TyDict => "<class 'dict'>"
  | TyOrderedDict => "<class 'collections.OrderedDict'>"
  end.

(** One entry of [CONTENT_FILTER_FIELD_TYPES] (catalog/constants.py, not
    among the reviewed files): the dictionary under a field name, with its
    ['type'] and, when present, its ['subtype']. *)
Record field_type : Type := FieldType {
  declared_type : pytype;
  declared_subtype : option pytype
}.

Inductive form_error : Type :=
| FormValidationError (message : string)
| FormAttributeError
| FormKeyError (key : string).

(** The checks made for one declared field (forms.py, lines 28-39). *)
Definition validate_field (kvs : list (string * json)) (key : string)
    (value : field_type) : form_error + unit :=
  match json_lookup key kvs with
  | None => inr tt
  | Some x =>
      if negb (isinstance x (declared_type value)) then
        inl (FormValidationError
               ("Content filter '" ++ key ++ "' must be of type "
                ++ pytype_repr (declared_type value))%string)
      else if pytype_eqb (declared_type value) TyList then
        match x with
        | JArr elems =>
            match declared_subtype value with
            | None => match elems with
                      | [] => inr tt
                      | _ :: _ => inl (FormKeyError "subtype")
                      end
            | Some sub =>
                if forallb (fun e => pytype_eqb sub (type_of e)) elems
                then inr tt
                else inl (FormValidationError
                            ("Content filter '" ++ key
                             ++ "' must contain values of type "
                             ++ pytype_repr sub)%string)
            end
        | _ => inr tt
        end
      else inr tt
  end.

(** [CatalogQueryForm.validate_content_filter_fields] (forms.py, lines
    27-39): the declared fields are walked in the order of the constant;
    [content_filter.keys()] needs a dictionary. *)
Fixpoint validate_fields (cftypes : list (string * field_type))
    (kvs : list (string * json)) : form_error + unit :=
  match cftypes with
  | [] => inr tt
  | (key, value) :: rest =>
      match validate_field kvs key value with
      | inl e => inl e
      | inr _ => validate_fields rest kvs
      end
  end.

Definition validate_content_filter_fields (cftypes : list (string * field_type))
    (content_filter : json) : form_error + unit :=
  match cftypes with
  | [] => inr tt
  | _ :: _ =>
      match content_filter with
      | JObj kvs => validate_fields cftypes kvs
      | _ => inl FormAttributeError
      end
  end.

Section CatalogQueryForm.
Context `{Digest}.

(** [CatalogQueryForm.clean_content_filter] (forms.py, lines 41-48). *)
Definition clean_content_filter (cftypes : list (string * field_type))
    (content_filter : json) (db : CatalogQuery.table) : form_error + json :=
  match validate_content_filter_fields cftypes content_filter with
  | inl e => inl e
  | inr _ =>
      let content_filter_hash := get_content_filter_hash content_filter in
      if existsb (CatalogQuery.has_hash content_filter_hash)
           (CatalogQuery.rows db)
      then inl (FormValidationError
                  "Catalog Query with this Content filter already exists.")
      else inr content_filter
  end.
End CatalogQueryForm.

(** A field is acceptable when it is absent, or of the declared class with,
    for a list, every element of exactly the declared subtype. *)
Definition field_ok (kvs : list (string * json)) (decl : string * field_type)
  : bool :=
  match json_lookup (fst decl) kvs with
  | None => true
  | Some x =>
      isinstance x (declared_type (snd decl))
      && (negb (pytype_eqb (declared_type (snd decl)) TyList)
          || match x, declared_subtype (snd decl) with
             | JArr elems, Some sub =>
                 forallb (fun e => pytype_eqb sub (type_of e)) elems
             | JArr [], None => true
             | JArr _, None => false
             | _, _ => true
             end)
  end.

(** Declarations for the examples: a list of strings under [key], a string
    under the price bound. *)
Definition example_cftypes : list (string * field_type) :=
  [("key", FieldType TyList (Some TyStr));
   ("first_enrollable_paid_seat_price__lte", FieldType TyStr None)].

(** ** serializers.py: creating a catalog *)

(** What the creation of an EnterpriseCatalog row takes from outside the
    reviewed files: the [uuid4] default of its primary key (seeded by the
    number of catalogs stored), the [modified] stamp TimeStampedModel gives a
    new row from the value assigned to it, if any, and the customer's
    [last_modified_date] as the enterprise-context provider reports it. *)
Class CatalogEnv : Type := {
  catalog_uuid4 : nat -> string;
  auto_modified : option Z -> Z;
  customer_last_modified_date : string -> Z
}.

(** The validated data of [EnterpriseCatalogSerializer]: one entry per
    writable field, under the name of its [source]; [None] for an optional
    field the request left out. *)
Record validated_data : Type := ValidatedData {
  vd_uuid : option string;
  vd_title : string;
  vd_enterprise_uuid : string;
  vd_enterprise_name : string;
  vd_enabled_course_modes : json;
  vd_publish_audit_enrollment_urls : bool;
  vd_content_filter : json;
  vd_catalog_query_uuid : option string;
  vd_modified : option Z;
  vd_query_title : option string
}.

(** [unique_together = (("enterprise_uuid", "catalog_query"),)]; rows
    whose query is NULL never collide. *)
Definition unique_together_taken (c : EnterpriseCatalog.t)
    (catalogs : list EnterpriseCatalog.t) : bool :=
  match EnterpriseCatalog.catalog_query c with
  | None => false
  | Some fk =>
      existsb (fun c' =>
                 String.eqb (EnterpriseCatalog.enterprise_uuid c')
                   (EnterpriseCatalog.enterprise_uuid c)
                 && bool_decide (EnterpriseCatalog.catalog_query c' = Some fk))
        catalogs
  end.

(** The INSERT behind [EnterpriseCatalog.objects.create]: refused when the
    primary key [uuid] or the unique pair is already stored. *)
Definition insert_catalog (c : EnterpriseCatalog.t)
    (catalogs : list EnterpriseCatalog.t)
  : result EnterpriseCatalog.t * list EnterpriseCatalog.t :=
  if existsb (fun c' => String.eqb (EnterpriseCatalog.uuid c')
                          (EnterpriseCatalog.uuid c)) catalogs
  then (inl (IntegrityError "PRIMARY"), catalogs)
  else if unique_together_taken c catalogs
  then (inl (IntegrityError "enterprise_uuid_catalog_query"), catalogs)
  else (inr c, catalogs ++ [c]).

Section SerializerCreate.
Context `{Digest} `{CatalogEnv}.

(** [EnterpriseCatalogSerializer.create] (serializers.py, lines 110-130):
    the query is resolved first; an IntegrityError of the INSERT is logged
    and raised again as it is. *)
Definition create (vd : validated_data) (queries : CatalogQuery.table)
    (catalogs : list EnterpriseCatalog.t)
  : result EnterpriseCatalog.t
    * (CatalogQuery.table * list EnterpriseCatalog.t) :=
  match find_and_modify_catalog_query (vd_content_filter vd)
          (vd_catalog_query_uuid vd) (vd_query_title vd) queries with
  | (inl e, queries') => (inl e, (queries', catalogs))
  | (inr catalog_query, queries') =>
      let row :=
        EnterpriseCatalog.Build
          (default (catalog_uuid4 (List.length catalogs)) (vd_uuid vd))
          (vd_title vd) (vd_enterprise_uuid vd)
          (CatalogQuery.id catalog_query)
          (vd_enabled_course_modes vd)
          (vd_publish_audit_enrollment_urls vd)
          (auto_modified (vd_modified vd))
          (vd_enterprise_name vd)
          (customer_last_modified_date (vd_enterprise_uuid vd)) in
      match insert_catalog row catalogs with
      | (inl e, catalogs') => (inl e, (queries', catalogs'))
      | (inr catalog, catalogs') => (inr catalog, (queries', catalogs'))
      end
  end.
End SerializerCreate.

Definition example_catalog_env : CatalogEnv := {|
  catalog_uuid4 := fun n => ("catalog-uuid-" ++ pretty n)%string;
  auto_modified := fun assigned => default 200%Z assigned;
  customer_last_modified_date := fun _ => 150%Z
|}.

Definition acme_request : validated_data :=
  ValidatedData None "Acme courses" "enterprise-1" "Acme"
    (JArr [JStr "verified"]) false course_filter None None (Some "courses").

Definition globex_request : validated_data :=
  ValidatedData None "Globex courses" "enterprise-2" "Globex"
    (JArr [JStr "audit"]) true course_filter None None None.

(** ** serializers.py: updating a catalog *)

(** The validated data of an update, which may be partial: [None] for a
    key the request left out; under a key that allows null, [Some None] for
    an explicit null. *)
Record update_data : Type := UpdateData {
  ud_content_filter : option json;
  ud_query_title : option (option string);
  ud_catalog_query_uuid : option (option string);
  ud_title : option string;
  ud_enterprise_uuid : option string;
  ud_enterprise_name : option string;
  ud_enabled_course_modes : option json;
  ud_publish_audit_enrollment_urls : option bool;
  ud_modified : option Z
}.

(** [ModelSerializer.update], the [super().update] of the serializer: it
    receives the instance, whose query has just been set, and what is left
    of the validated data. *)
Class ModelSerializer : Type := {
  model_serializer_update :
    EnterpriseCatalog.t -> update_data -> list EnterpriseCatalog.t ->
    result EnterpriseCatalog.t * list EnterpriseCatalog.t
}.

(** The validated data once [catalog_query_uuid] has been popped. *)
Definition pop_catalog_query_uuid (vd : update_data) : update_data :=
  UpdateData (ud_content_filter vd) (ud_query_title vd) None (ud_title vd)
    (ud_enterprise_uuid vd) (ud_enterprise_name vd)
    (ud_enabled_course_modes vd) (ud_publish_audit_enrollment_urls vd)
    (ud_modified vd).

Definition set_catalog_query (fk : option nat) (c : EnterpriseCatalog.t)
  : EnterpriseCatalog.t :=
  EnterpriseCatalog.Build (EnterpriseCatalog.uuid c) (EnterpriseCatalog.title c)
    (EnterpriseCatalog.enterprise_uuid c) fk
    (EnterpriseCatalog.enabled_course_modes c)
    (EnterpriseCatalog.publish_audit_enrollment_urls c)
    (EnterpriseCatalog.modified c) (EnterpriseCatalog.enterprise_name c)
    (EnterpriseCatalog.enterprise_customer_last_modified_date c).

Section SerializerUpdate.
Context `{Digest} `{ModelSerializer}.

(** [instance.catalog_query]: the row the foreign key points at. *)
Definition catalog_query_of (instance : EnterpriseCatalog.t)
    (queries : CatalogQuery.table) : option CatalogQuery.t :=
  match EnterpriseCatalog.catalog_query instance with
  | None => None
  | Some fk => List.find (CatalogQuery.has_pk fk) (CatalogQuery.rows queries)
  end.

(** The arguments the update resolves the query with (serializers.py, lines
    133-143): what the request brings, else what the catalog's current
    query holds, else [None]. *)
Definition update_arguments (instance : EnterpriseCatalog.t)
    (vd : update_data) (queries : CatalogQuery.table)
  : json * option string * option string :=
  let current := catalog_query_of instance queries in
  let default_content_filter :=
    match current with Some q => CatalogQuery.content_filter q | None => JNull end in
  let default_query_title :=
    match current with Some q => CatalogQuery.title q | None => None end in
  let default_query_uuid :=
    match current with Some q => Some (CatalogQuery.uuid q) | None => None end in
  (default default_content_filter (ud_content_filter vd),
   default default_query_uuid (ud_catalog_query_uuid vd),
   default default_query_title (ud_query_title vd)).

(** [EnterpriseCatalogSerializer.update] (serializers.py, lines 132-145). *)
Definition update (instance : EnterpriseCatalog.t) (vd : update_data)
    (queries : CatalogQuery.table) (catalogs : list EnterpriseCatalog.t)
  : result EnterpriseCatalog.t
    * (CatalogQuery.table * list EnterpriseCatalog.t) :=
  let '(content_filter, catalog_query_uuid, query_title) :=
    update_arguments instance vd queries in
  match find_and_modify_catalog_query content_filter catalog_query_uuid
          query_title queries with
  | (inl e, queries') => (inl e, (queries', catalogs))
  | (inr catalog_query, queries') =>
      let instance := set_catalog_query (CatalogQuery.id catalog_query) instance in
      match model_serializer_update instance (pop_catalog_query_uuid vd)
              catalogs with
      | (r, catalogs') => (r, (queries', catalogs'))
      end
  end.
End SerializerUpdate.

(** An update that only saves the instance in place, for the examples. *)
Definition example_model_serializer : ModelSerializer := {|
  model_serializer_update := fun instance vd catalogs =>
    (inr instance,
     map (fun c => if String.eqb (EnterpriseCatalog.uuid c)
                        (EnterpriseCatalog.uuid instance)
                   then instance else c) catalogs)
|}.

Definition no_changes : update_data :=
  UpdateData None None None None None None None None None.

(** * Facts about the CatalogQuery table *)
Section CatalogQueryFacts.
Context `{Digest}.
Import CatalogQuery.

Lemma has_hash_true (x : string) (r : t) : has_hash x r = true <-> content_filter_hash r = Some x.
Proof. unfold has_hash. apply bool_decide_eq_true. Qed.

Lemma has_hash_false (x : string) (r : t) : has_hash x r = false <-> content_filter_hash r <> Some x.
Proof. unfold has_hash. apply bool_decide_eq_false. Qed.

Lemma filter_has_hash_absent (x : string) (rs : list t) :
  x ∉ omap content_filter_hash rs -> List.filter (has_hash x) rs = [].
Proof.
  induction rs as [|a rs IH]; intros Hx; [reflexivity|].
  simpl in *. destruct (content_filter_hash a) as [y|] eqn:Ha.
  - apply not_elem_of_cons in Hx as [Hxy Hx].
    replace (has_hash x a) with false; [auto|].
    symmetry. apply has_hash_false. congruence.
  - replace (has_hash x a) with false; [auto|].
    symmetry. apply has_hash_false. congruence.
Qed.

Lemma hash_elem_of_omap (x : string) (r : t) (rs : list t) :
  r ∈ rs -> content_filter_hash r = Some x -> x ∈ omap content_filter_hash rs.
Proof. intros Hr Hx. apply list_elem_of_omap. eauto. Qed.

Lemma filter_has_hash_unique (x : string) (r : t) (rs : list t) :
  unique_hashes rs -> r ∈ rs -> content_filter_hash r = Some x ->
  List.filter (has_hash x) rs = [r].
Proof.
  unfold unique_hashes. induction rs as [|a rs IH]; intros Hnd Hr Hx.
  - inversion Hr.
  - simpl in *. apply elem_of_cons in Hr as [->|Hr].
    + rewrite Hx in Hnd. apply NoDup_cons in Hnd as [Hnot _].
      replace (has_hash x a) with true by (symmetry; by apply has_hash_true).
      by rewrite filter_has_hash_absent.
    + destruct (content_filter_hash a) as [y|] eqn:Ha.
      * apply NoDup_cons in Hnd as [Hnot Hnd].
        replace (has_hash x a) with false; [auto|].
        symmetry. apply has_hash_false. intros Hax.
        rewrite Ha in Hax. injection Hax as ->.
        apply Hnot. eapply hash_elem_of_omap; eauto.
      * replace (has_hash x a) with false; [auto|].
        symmetry. apply has_hash_false. congruence.
Qed.

Lemma get_by_hash_found (x : string) (r : t) (db : table) :
  unique_hashes (rows db) -> r ∈ rows db -> content_filter_hash r = Some x ->
  get_by_hash x db = inr r.
Proof.
  intros Hu Hr Hx. unfold get_by_hash.
  by rewrite (filter_has_hash_unique x r).
Qed.

Lemma get_by_hash_cases (x : string) (db : table) :
  unique_hashes (rows db) ->
  (exists r, r ∈ rows db /\ content_filter_hash r = Some x /\ get_by_hash x db = inr r)
  \/ (List.filter (has_hash x) (rows db) = [] /\ get_by_hash x db = inl DoesNotExist).
Proof.
  intros Hu. unfold get_by_hash.
  destruct (List.filter (has_hash x) (rows db)) as [|r l] eqn:Hf; [by right|].
  left. exists r.
  assert (Hin : In r (List.filter (has_hash x) (rows db))) by (rewrite Hf; by left).
  apply filter_In in Hin as [Hin Hh].
  apply has_hash_true in Hh. apply list_elem_of_In in Hin.
  rewrite (filter_has_hash_unique x r) in Hf by done.
  injection Hf as <-. done.
Qed.

Lemma hash_taken_absent (q : t) (x : string) (rs : list t) :
  content_filter_hash q = Some x -> List.filter (has_hash x) rs = [] ->
  hash_taken q rs = false.
Proof.
  intros Hq Hf. unfold hash_taken. rewrite Hq.
  induction rs as [|a rs IH]; [reflexivity|].
  simpl in *. destruct (has_hash x a) eqn:Ha; [discriminate|]. simpl. auto.
Qed.
End CatalogQueryFacts.

(** * The resolver and [save] *)
Section ResolverFacts.
Context `{Digest}.
Import CatalogQuery.

Lemma existsb_has_pk (pk : nat) (r : t) (rs : list t) :
  r ∈ rs -> id r = Some pk -> existsb (has_pk pk) rs = true.
Proof.
  intros Hr Hid. apply existsb_exists. exists r. split.
  - by apply list_elem_of_In.
  - unfold has_pk. by apply bool_decide_eq_true.
Qed.

Lemma replace_row_elem (pk : nat) (q : t) (rs : list t) :
  existsb (has_pk pk) rs = true -> q ∈ replace_row pk q rs.
Proof.
  intros Hex. apply existsb_exists in Hex as (r & Hr & Hpk).
  apply list_elem_of_In, in_map_iff. exists r. by rewrite Hpk.
Qed.

Lemma replace_row_hash_derived (pk : nat) (q : t) (rs : list t) :
  content_filter_hash q = Some (get_content_filter_hash (content_filter q)) ->
  hash_derived rs -> hash_derived (replace_row pk q rs).
Proof.
  intros Hq Hrs. unfold hash_derived, replace_row in *.
  induction Hrs as [|r rs Hr _ IH]; simpl; constructor; auto.
  by destruct (has_pk pk r).
Qed.

Lemma append_hash_derived (q : t) (rs : list t) :
  content_filter_hash q = Some (get_content_filter_hash (content_filter q)) ->
  hash_derived rs -> hash_derived (rs ++ [q])%list.
Proof.
  intros Hq Hrs. unfold hash_derived in *. apply Forall_app. split; auto.
Qed.

Lemma save_ok (force_insert : bool) (self : t) (db : table) (q : t) (db' : table) :
  save force_insert self db = (inr q, db') ->
  content_filter q = content_filter self
  /\ content_filter_hash q = Some (get_content_filter_hash (content_filter self))
  /\ uuid q = uuid self /\ title q = title self
  /\ q ∈ rows db'
  /\ (hash_derived (rows db) -> hash_derived (rows db')).
Proof.
  unfold save, Model_save. simpl.
  destruct (id self) as [pk|] eqn:Hid.
  - destruct (negb force_insert && existsb (has_pk pk) (rows db)) eqn:Hupd.
    + destruct (hash_taken _ _); intros [= <- <-]; simpl.
      apply andb_prop in Hupd as [_ Hex].
      repeat split; auto using replace_row_elem, replace_row_hash_derived.
    + destruct (existsb (has_pk pk) (rows db)); [discriminate|].
      destruct (hash_taken _ _); intros [= <- <-]; simpl.
      repeat split; auto using append_hash_derived.
      apply elem_of_app. right. by apply list_elem_of_singleton.
  - destruct (hash_taken _ _); intros [= <- <-]; simpl.
    repeat split; auto using append_hash_derived.
    apply elem_of_app. right. by apply list_elem_of_singleton.
Qed.

Lemma save_err (force_insert : bool) (self : t) (db : table) (e : exn) (db' : table) :
  save force_insert self db = (inl e, db') -> db' = db.
Proof.
  unfold save, Model_save. simpl.
  destruct (id self) as [pk|].
  - destruct (negb force_insert && existsb (has_pk pk) (rows db)).
    + destruct (hash_taken _ _); by intros [= <- <-].
    + destruct (existsb (has_pk pk) (rows db)); [by intros [= <- <-]|].
      destruct (hash_taken _ _); by intros [= <- <-].
  - destruct (hash_taken _ _); by intros [= <- <-].
Qed.

Lemma save_hash_derived (force_insert : bool) (self : t) (db : table) :
  hash_derived (rows db) -> hash_derived (rows (save force_insert self db).2).
Proof.
  intros Hdb. destruct (save force_insert self db) as [[e|q] db'] eqn:Hs; simpl.
  - apply save_err in Hs. by subst.
  - apply save_ok in Hs. by apply Hs.
Qed.

Lemma create_object_from_params_hash_derived (x : string) (u : option string)
    (f : json) (ttl : option string) (db : table) :
  hash_derived (rows db) ->
  hash_derived (rows (create_object_from_params x u f ttl db).2).
Proof.
  intros Hdb. unfold create_object_from_params, create.
  match goal with |- context [save true ?q db] =>
    pose proof (save_hash_derived true q db Hdb) as Hs;
    destruct (save true q db) as [[e|obj] db'] end; simpl in *; auto.
  destruct (get_by_hash x db') as [[]|]; simpl; auto.
Qed.

Lemma get_or_create_hash_derived (x : string) (f : json) (ttl : option string)
    (db : table) :
  hash_derived (rows db) -> hash_derived (rows (get_or_create x f ttl db).2).
Proof.
  intros Hdb. unfold get_or_create.
  destruct (get_by_hash x db) as [[]|]; simpl; auto.
  by apply create_object_from_params_hash_derived.
Qed.

Lemma update_or_create_hash_derived (x : string) (f : json) (u : string)
    (ttl : option string) (db : table) :
  hash_derived (rows db) -> hash_derived (rows (update_or_create x f u ttl db).2).
Proof.
  intros Hdb. unfold update_or_create.
  destruct (get_by_hash x db) as [[]|obj]; simpl; auto.
  - by apply create_object_from_params_hash_derived.
  - match goal with |- context [save false ?q db] =>
      pose proof (save_hash_derived false q db Hdb) as Hs;
      destruct (save false q db) as [[e|obj'] db'] end; simpl in *; auto.
Qed.

Lemma find_and_modify_catalog_query_hash_derived (content_filter : json)
    (catalog_query_uuid query_title : option string) (db : table) :
  hash_derived (rows db) ->
  hash_derived
    (rows (find_and_modify_catalog_query content_filter catalog_query_uuid
             query_title db).2).
Proof.
  intros Hdb. unfold find_and_modify_catalog_query.
  destruct (uuid_given catalog_query_uuid) as [u|].
  - destruct (get_by_uuid u db) as [a|].
    + match goal with |- context [save false ?q db] =>
        pose proof (save_hash_derived false q db Hdb) as Hs;
        destruct (save false q db) as [[e|obj'] db'] end; simpl in *; auto.
      by destruct e.
    + match goal with |- context [update_or_create ?x ?f ?u ?t db] =>
        pose proof (update_or_create_hash_derived x f u t db Hdb) as Hs;
        destruct (update_or_create x f u t db) as [[e|[obj ?]] db'] end; auto.
  - match goal with |- context [get_or_create ?x ?f ?t db] =>
      pose proof (get_or_create_hash_derived x f t db Hdb) as Hs;
      destruct (get_or_create x f t db) as [[e|[obj ?]] db'] end; auto.
Qed.

(** C10: a row written by [CatalogQuery.save] carries the digest of the
    filter it is saved with, whatever [content_filter_hash] held before the
    call, and the row is in the table afterwards; every write the resolver
    makes goes through [save], so a table whose rows all carry the digest
    of their filter is still such a table after any resolution. *)
Theorem save_recomputes_content_filter_hash :
  (forall (force_insert : bool) (self : t) (db : table) (q : t) (db' : table),
      save force_insert self db = (inr q, db') ->
      content_filter q = content_filter self
      /\ content_filter_hash q
         = Some (get_content_filter_hash (content_filter self))
      /\ q ∈ rows db')
  /\ (forall (content_filter : json) (catalog_query_uuid query_title : option string)
             (db : table),
         hash_derived (rows db) ->
         hash_derived
           (rows (find_and_modify_catalog_query content_filter
                    catalog_query_uuid query_title db).2)).
Proof.
  split.
  - intros force_insert self db q db' Hs. apply save_ok in Hs. tauto.
  - apply find_and_modify_catalog_query_hash_derived.
Qed.
End ResolverFacts.

Section ResolverClaims.
Context `{Digest}.
Import CatalogQuery.

Lemma filter_has_hash_app (x : string) (rs1 rs2 : list t) :
  List.filter (has_hash x) (rs1 ++ rs2)%list
  = (List.filter (has_hash x) rs1 ++ List.filter (has_hash x) rs2)%list.
Proof. apply List.filter_app. Qed.

Lemma get_by_uuid_elem (u : string) (db : table) (a : t) :
  get_by_uuid u db = Some a -> a ∈ rows db /\ uuid a = u.
Proof.
  unfold get_by_uuid. intros Hf. apply find_some in Hf as [Hin Hu].
  split; [by apply list_elem_of_In|].
  unfold has_uuid in Hu. by apply bool_decide_eq_true in Hu.
Qed.

Lemma hash_taken_by (q b : t) (x : string) (rs : list t) :
  content_filter_hash q = Some x -> b ∈ rs ->
  content_filter_hash b = Some x -> id b <> id q ->
  hash_taken q rs = true.
Proof.
  intros Hq Hb Hbx Hid. unfold hash_taken. rewrite Hq.
  apply existsb_exists. exists b. split; [by apply list_elem_of_In|].
  apply andb_true_intro. split.
  - by apply has_hash_true.
  - apply negb_true_iff. by apply bool_decide_eq_false.
Qed.

Lemma hash_taken_only_self (q : t) (x : string) (r : t) (rs : list t) :
  content_filter_hash q = Some x -> List.filter (has_hash x) rs = [r] ->
  id r = id q -> hash_taken q rs = false.
Proof.
  intros Hq Hf Hid. unfold hash_taken. rewrite Hq.
  apply not_true_is_false. intros Hex.
  apply existsb_exists in Hex as (b & Hb & Hand).
  apply andb_prop in Hand as [Hbx Hne].
  assert (Hin : In b (List.filter (has_hash x) rs)) by (apply filter_In; auto).
  rewrite Hf in Hin. destruct Hin as [<-|[]].
  apply negb_true_iff, bool_decide_eq_false in Hne. contradiction.
Qed.

(** C5: on a table that respects the unique index on the digest,
    resolving a filter with no identifier succeeds, and resolving it again
    (under any title) returns the same record and leaves the table exactly
    as the first resolution left it: no row is added. *)
Theorem resolve_without_identifier_idempotent (content_filter : json)
    (title1 title2 : option string) (db : table) :
  unique_hashes (rows db) ->
  exists (q : t) (db1 : table),
    find_and_modify_catalog_query content_filter None title1 db = (inr q, db1)
    /\ find_and_modify_catalog_query content_filter None title2 db1 = (inr q, db1).
Proof.
  intros Hu. unfold find_and_modify_catalog_query. simpl.
  set (x := get_content_filter_hash content_filter).
  unfold get_or_create.
  destruct (get_by_hash_cases x db Hu) as [(r & Hr & Hx & Hg)|[Hnone Hg]].
  - exists r, db. by rewrite Hg.
  - rewrite Hg. unfold create_object_from_params, create, save, Model_save. simpl.
    match goal with |- context [hash_taken ?q (rows db)] =>
      rewrite (hash_taken_absent q x (rows db) eq_refl Hnone); set (new := q) end.
    exists new, (Table (rows db ++ [new]) (S (next_id db))). split; [done|].
    unfold get_by_hash. simpl. rewrite filter_has_hash_app, Hnone. simpl.
    replace (has_hash x new) with true; [done|].
    symmetry. by apply has_hash_true.
Qed.

(** C1 (amended): when no row carries the identifier but a row already
    holds the filter's digest, that row is not returned as it was: it
    receives the filter, the identifier and the title of the call, is
    saved in place under its own primary key, and is returned so
    updated. *)
Theorem resolve_unknown_identifier_updates_match (content_filter : json)
    (u : string) (query_title : option string) (db : table) (r : t) (pk : nat) :
  unique_hashes (rows db) ->
  u <> "" -> get_by_uuid u db = None ->
  r ∈ rows db -> id r = Some pk ->
  content_filter_hash r = Some (get_content_filter_hash content_filter) ->
  let r' := Build (Some pk) u query_title content_filter
              (Some (get_content_filter_hash content_filter)) in
  find_and_modify_catalog_query content_filter (Some u) query_title db
  = (inr r', Table (replace_row pk r' (rows db)) (next_id db)).
Proof.
  intros Hu Hne Hnone Hr Hid Hx r'.
  unfold find_and_modify_catalog_query, uuid_given.
  replace (String.eqb u "") with false
    by (symmetry; by apply String.eqb_neq).
  rewrite Hnone. unfold update_or_create.
  rewrite (get_by_hash_found _ r db Hu Hr Hx).
  unfold save, Model_save. simpl. rewrite Hid. simpl.
  rewrite (existsb_has_pk pk r (rows db) Hr Hid).
  rewrite (hash_taken_only_self _ (get_content_filter_hash content_filter) r).
  - unfold set_content_filter_hash, set_title, set_uuid, set_content_filter.
    simpl. by rewrite Hid.
  - reflexivity.
  - by apply filter_has_hash_unique.
  - done.
Qed.

(** C4: when the identifier names a stored row and the filter's digest is
    held by a row with another primary key, the resolution fails with a
    validation error tagged [catalog_query] whose detail is built from the
    violated column, with status 422, and the table is left exactly as it
    was. *)
Theorem resolve_conflicting_hash_rejected (content_filter : json)
    (u : string) (query_title : option string) (db : table) (a b : t) (pk : nat) :
  u <> "" -> get_by_uuid u db = Some a -> id a = Some pk ->
  b ∈ rows db ->
  content_filter_hash b = Some (get_content_filter_hash content_filter) ->
  id b <> Some pk ->
  find_and_modify_catalog_query content_filter (Some u) query_title db
  = (inl (ValidationError "catalog_query"
            (searched_column "content_filter_hash" ++ " is not unique")%string
            HTTP_422_UNPROCESSABLE_ENTITY), db).
Proof.
  intros Hne Ha Hid Hb Hbx Hbid.
  unfold find_and_modify_catalog_query, uuid_given.
  replace (String.eqb u "") with false
    by (symmetry; by apply String.eqb_neq).
  rewrite Ha. apply get_by_uuid_elem in Ha as [Hin _].
  unfold save, Model_save. simpl. rewrite Hid. simpl.
  rewrite (existsb_has_pk pk a (rows db) Hin Hid).
  rewrite (hash_taken_by _ b (get_content_filter_hash content_filter));
    [done|done|done|done|].
  simpl. by rewrite Hid.
Qed.
End ResolverClaims.

(** * The resolver on a small table *)

Lemma two_rows_unique_hashes :
  unique_hashes (CatalogQuery.rows two_rows).
Proof.
  unfold unique_hashes. simpl. apply (bool_decide_unpack _). by vm_compute.
Qed.

Lemma save_recomputes_content_filter_hash_witness :
  let stale := CatalogQuery.set_content_filter_hash (Some "stale")
                 (CatalogQuery.set_content_filter program_filter row_b) in
  exists db',
    CatalogQuery.save (H := example_digest) false stale
      (CatalogQuery.Table [row_b] 2)
    = (inr (CatalogQuery.Build (Some 1) "uuid-b" (Some "courses") program_filter
              (Some (json_dumps program_filter))), db')
    /\ CatalogQuery.content_filter_hash
         (CatalogQuery.Build (Some 1) "uuid-b" (Some "courses") program_filter
            (Some (json_dumps program_filter)))
       = Some (json_dumps program_filter).
Proof.
  intros stale. eexists. split; [by vm_compute|].
  refine (proj1 (proj2 (proj1 (save_recomputes_content_filter_hash
                                 (H := example_digest))
                          false stale (CatalogQuery.Table [row_b] 2) _ _ _))).
  by vm_compute.
Defined.

Lemma resolve_without_identifier_idempotent_witness :
  unique_hashes (CatalogQuery.rows two_rows)
  /\ exists q db1,
       find_and_modify_catalog_query (H := example_digest)
         (JObj [("level", JNum 3)]) None (Some "first") two_rows = (inr q, db1)
       /\ find_and_modify_catalog_query (H := example_digest)
            (JObj [("level", JNum 3)]) None (Some "second") db1 = (inr q, db1).
Proof.
  split; [exact two_rows_unique_hashes|].
  exact (resolve_without_identifier_idempotent (H := example_digest)
           (JObj [("level", JNum 3)]) (Some "first") (Some "second") two_rows
           two_rows_unique_hashes).
Defined.

Lemma resolve_unknown_identifier_updates_match_witness :
  find_and_modify_catalog_query (H := example_digest) course_filter
    (Some "uuid-c") (Some "renamed") two_rows
  = (inr (CatalogQuery.Build (Some 1) "uuid-c" (Some "renamed") course_filter
            (Some (json_dumps course_filter))),
     CatalogQuery.Table
       (CatalogQuery.replace_row 1
          (CatalogQuery.Build (Some 1) "uuid-c" (Some "renamed") course_filter
             (Some (json_dumps course_filter)))
          (CatalogQuery.rows two_rows))
       (CatalogQuery.next_id two_rows)).
Proof.
  apply (resolve_unknown_identifier_updates_match (H := example_digest)
           course_filter "uuid-c" (Some "renamed") two_rows row_b 1).
  - exact two_rows_unique_hashes.
  - discriminate.
  - reflexivity.
  - apply list_elem_of_In. simpl. auto.
  - reflexivity.
  - reflexivity.
Defined.

(** C1 (as stated) fails: no row carries the identifier "uuid-c", [row_b]
    holds the digest of the filter, and the call returns a record whose
    identifier and title are those of the call, not those of [row_b]; the
    table no longer holds [row_b] as it was. *)
Lemma resolve_unknown_identifier_overwrites_match :
  CatalogQuery.get_by_uuid "uuid-c" two_rows = None
  /\ row_b ∈ CatalogQuery.rows two_rows
  /\ CatalogQuery.content_filter_hash row_b
     = Some (get_content_filter_hash (Digest := example_digest) course_filter)
  /\ exists q db',
       find_and_modify_catalog_query (H := example_digest) course_filter
         (Some "uuid-c") (Some "renamed") two_rows = (inr q, db')
       /\ CatalogQuery.uuid q <> CatalogQuery.uuid row_b
       /\ CatalogQuery.title q <> CatalogQuery.title row_b
       /\ row_b ∉ CatalogQuery.rows db'.
Proof.
  split; [reflexivity|]. split; [apply list_elem_of_In; simpl; auto|].
  split; [reflexivity|]. eexists _, _. split; [by vm_compute|].
  split; [discriminate|]. split; [discriminate|].
  rewrite list_elem_of_In. simpl. intros [Heq|[Heq|[]]]; discriminate.
Qed.

Lemma resolve_conflicting_hash_rejected_witness :
  find_and_modify_catalog_query (H := example_digest) course_filter
    (Some "uuid-a") (Some "renamed") two_rows
  = (inl (ValidationError "catalog_query" "content_filter_hash is not unique"
            HTTP_422_UNPROCESSABLE_ENTITY), two_rows).
Proof.
  apply (resolve_conflicting_hash_rejected (H := example_digest)
           course_filter "uuid-a" (Some "renamed") two_rows row_a row_b 2).
  - discriminate.
  - reflexivity.
  - reflexivity.
  - apply list_elem_of_In. simpl. auto.
  - reflexivity.
  - discriminate.
Defined.

(** * The discovery sync *)

Lemma json_eqb_eq : forall a b : json, json_eqb a b = true -> a = b.
Proof.
  fix IH 1. intros a b. destruct a, b; simpl; try discriminate.
  - reflexivity.
  - intros Hb. apply Bool.eqb_prop in Hb. by subst.
  - intros Hn. apply Z.eqb_eq in Hn. by subst.
  - intros Hs. apply String.eqb_eq in Hs. by subst.
  - revert xs0. induction xs as [|x xs IHxs]; intros [|y ys]; try discriminate.
    + reflexivity.
    + intros Hand. apply andb_prop in Hand as [Hx Hrest].
      apply IH in Hx. apply IHxs in Hrest. congruence.
  - revert kvs0. induction kvs as [|[k x] kvs IHkvs]; intros [|[k' y] ys];
      try discriminate.
    + reflexivity.
    + intros Hand. apply andb_prop in Hand as [Hand Hrest].
      apply andb_prop in Hand as [Hk Hx].
      apply String.eqb_eq in Hk. apply IH in Hx. apply IHkvs in Hrest. congruence.
Qed.


Lemma json_eqb_neq (a b : json) : a <> b -> json_eqb a b = false.
Proof.
  intros Hne. apply not_true_is_false. intros Heq. by apply Hne, json_eqb_eq.
Qed.

Section SyncFacts.
Context `{Discovery}.
Import ContentMetadata.

Lemma filter_has_payload_absent (entry : json) (rs : list t) :
  Forall (fun r => json_metadata r <> entry) rs ->
  List.filter (has_payload entry) rs = [].
Proof.
  induction 1 as [|r rs Hr _ IH]; [reflexivity|].
  simpl. unfold has_payload at 1. by rewrite (json_eqb_neq _ _ Hr).
Qed.

Lemma key_taken_fresh (m : t) (n : nat) (rs : list t) :
  Forall (fun r => id r <> Some n) rs ->
  key_taken (set_id n m) rs
  = existsb (fun r => String.eqb (content_key r) (content_key m)) rs.
Proof.
  unfold key_taken. simpl. induction 1 as [|r rs Hr _ IH]; [reflexivity|].
  simpl. rewrite IH. f_equal.
  replace (bool_decide (id r = Some n)) with false.
  - simpl. apply andb_true_r.
  - symmetry. by apply bool_decide_eq_false.
Qed.

(** C3 (amended): the upsert looks rows up by the whole payload, never by
    the content key.  For an entry whose payload differs from every stored
    payload, no stored row is updated: the sync tries to insert a row for
    it.  The insert is refused by the unique index on [content_key] when a
    row already holds the entry's key, and the table stays as it was; only
    when no row holds the key is a new row added. *)
Theorem sync_entry_changed_payload (entry : json) (k : string) (db : table) :
  entry_key entry = inr (Some k) ->
  Forall (fun r => json_metadata r <> entry) (rows db) ->
  Forall (fun r => id r <> Some (next_id db)) (rows db) ->
  sync_entry entry db
  = if existsb (fun r => String.eqb (content_key r) k) (rows db)
    then (inl (IntegrityError "content_key"), db)
    else (inr tt,
          Table (rows db ++ [Build (Some (next_id db)) k "" None entry])
                (S (next_id db))).
Proof.
  intros Hk Hpayload Hfresh. unfold sync_entry. rewrite Hk.
  unfold update_or_create, get_by_payload.
  rewrite (filter_has_payload_absent entry (rows db) Hpayload).
  unfold save_with_key, save. simpl.
  rewrite (key_taken_fresh _ (next_id db) (rows db) Hfresh). simpl.
  destruct (existsb _ (rows db)); [|reflexivity].
  by rewrite (filter_has_payload_absent entry (rows db) Hpayload).
Qed.
End SyncFacts.

Lemma sync_entry_changed_payload_witness :
  sync_entry (H := example_discovery) other_course one_course
  = (inr tt,
     ContentMetadata.Table
       (ContentMetadata.rows one_course
        ++ [ContentMetadata.Build (Some 2) "edX+Other" "" None other_course])
       3).
Proof.
  apply (sync_entry_changed_payload (H := example_discovery)
           other_course "edX+Other" one_course).
  - reflexivity.
  - repeat constructor. discriminate.
  - repeat constructor. discriminate.
Defined.

(** C3 (as stated) fails: the payload of the stored course has changed
    upstream, and the sync neither updates the stored row nor produces a new
    one; it stops on the unique index of [content_key] and the table is what
    it was. *)
Lemma sync_changed_payload_adds_no_row :
  fresh_course <> stored_course
  /\ update_contentmetadata_from_discovery (H := example_discovery) "catalog-1"
       [demo_catalog] two_rows one_course
     = (inl (IntegrityError "content_key"), one_course).
Proof. split; [discriminate|by vm_compute]. Qed.

(** * The projector *)

Section HeapFacts.

Lemma dict_get_set_eq (k : string) (v : val) (items : list (string * val)) :
  dict_get k (dict_set k v items) = Some v.
Proof.
  induction items as [|[k' v'] items IH]; simpl.
  - by rewrite String.eqb_refl.
  - destruct (String.eqb k k') eqn:Hk; simpl.
    + by rewrite String.eqb_refl.
    + by rewrite Hk.
Qed.

Lemma dict_get_set_ne (k k' : string) (v : val) (items : list (string * val)) :
  String.eqb k' k = false ->
  dict_get k' (dict_set k v items) = dict_get k' items.
Proof.
  intros Hne. induction items as [|[k0 v0] items IH]; simpl.
  - by rewrite Hne.
  - destruct (String.eqb k k0) eqn:Hk; simpl.
    + apply String.eqb_eq in Hk. subst k0. by rewrite Hne.
    + by rewrite IH.
Qed.

Lemma heap_lookup_fresh (h tail : heap) (o : obj) :
  (h ++ o :: tail)%list !! List.length h = Some o.
Proof. by apply list_lookup_middle. Qed.

Lemma heap_insert_fresh (h tail : heap) (o o' : obj) :
  <[List.length h := o']> (h ++ o :: tail)%list = (h ++ o' :: tail)%list.
Proof.
  rewrite insert_app_r_alt by lia. by rewrite Nat.sub_diag.
Qed.

Lemma setitem_fresh (h tail : heap) (items : list (string * val))
    (k : string) (v : val) :
  setitem (VRef (List.length h)) k v (h ++ ODict items :: tail)%list
  = (inr tt, (h ++ ODict (dict_set k v items) :: tail)%list).
Proof.
  unfold setitem. by rewrite heap_lookup_fresh, heap_insert_fresh.
Qed.

Lemma getattr_get_fresh (h tail : heap) (items : list (string * val))
    (k : string) (dflt : val) :
  getattr_get (VRef (List.length h)) k dflt (h ++ ODict items :: tail)%list
  = inr (default dflt (dict_get k items)).
Proof. unfold getattr_get. by rewrite heap_lookup_fresh. Qed.

Lemma is_dict_ref_insert (h : heap) (l : loc) (items : list (string * val))
    (v : val) :
  is_dict_ref h v = true -> is_dict_ref (<[l := ODict items]> h) v = true.
Proof.
  destruct v as [| | | | |l']; simpl; try done.
  destruct (h !! l') as [[its|]|] eqn:Hl; try done. intros _.
  destruct (decide (l = l')) as [->|Hne].
  - rewrite list_lookup_insert_eq; [done|]. by eapply lookup_lt_Some.
  - rewrite list_lookup_insert_ne by done. by rewrite Hl.
Qed.

Lemma iter_val_app (h tail : heap) (v : val) (runs : list val) :
  iter_val h v = Some runs -> iter_val (h ++ tail)%list v = Some runs.
Proof.
  destruct v as [| | | | |l]; simpl; try done.
  destruct (h !! l) as [o|] eqn:Hl; [|done].
  by rewrite (lookup_app_l_Some _ _ _ _ Hl).
Qed.
End HeapFacts.

Section ProjectorFacts.
Context `{ProjectorEnv}.

(** The loop over the nested runs succeeds on dictionaries, writes only into
    the stored part of the heap and keeps its size. *)
Lemma enroll_course_runs_ok (enterprise_catalog : EnterpriseCatalog.t)
    (content_key : val) (runs : list val) :
  forall (h : heap),
    forallb (is_dict_ref h) runs = true ->
    exists h' : heap,
      (forall tail : heap,
          enroll_course_runs enterprise_catalog content_key runs (h ++ tail)
          = (inr tt, h' ++ tail))
      /\ List.length h' = List.length h.
Proof.
  induction runs as [|run runs IH]; intros h Hruns.
  - by exists h.
  - simpl in Hruns. apply andb_prop in Hruns as [Hrun Hruns].
    destruct run as [| | | | |l]; simpl in Hrun; try done.
    destruct (h !! l) as [[its|]|] eqn:Hl; try done.
    set (url := get_content_enrollment_url enterprise_catalog COURSE
                  (default VNone (dict_get "key" its)) content_key).
    destruct (IH (<[l := ODict (dict_set "enrollment_url" url its)]> h))
      as (h' & Hloop & Hlen).
    + apply forallb_forall. intros v Hv.
      apply is_dict_ref_insert. by eapply forallb_forall in Hruns.
    + exists h'. split; [|by rewrite Hlen, length_insert].
      intros tail. simpl. rewrite (lookup_app_l_Some _ _ _ _ Hl).
      rewrite insert_app_l by (by eapply lookup_lt_Some).
      apply Hloop.
Qed.
End ProjectorFacts.

Section ProjectorShapeFacts.
Context `{ProjectorEnv}.

Lemma dict_get_marketed (enterprise_catalog : EnterpriseCatalog.t)
    (inst : instance) (h : heap) (items : list (string * val)) (k : string) :
  String.eqb k "content_last_modified" = false ->
  String.eqb k "marketing_url" = false ->
  dict_get k (marketed_items enterprise_catalog inst h items) = dict_get k items.
Proof.
  intros H1 H2. unfold marketed_items, dated_items.
  destruct (truthy _ _); by rewrite ?dict_get_set_ne.
Qed.

(** What the projector returns for a record that is not a course. *)
Lemma to_representation_other (enterprise_catalog : EnterpriseCatalog.t)
    (inst : instance) (h : heap) (l0 : loc) (items : list (string * val)) :
  json_metadata inst = VRef l0 -> h !! l0 = Some (ODict items) ->
  String.eqb (content_type inst) COURSE = false ->
  to_representation enterprise_catalog inst h
  = (inr (VRef (List.length h)),
     h ++ [ODict
             (if String.eqb (content_type inst) COURSE_RUN
              then enrolled_items enterprise_catalog inst h items
              else if String.eqb (content_type inst) PROGRAM
              then dict_set "enrollment_url"
                     (get_content_enrollment_url enterprise_catalog PROGRAM
                        (default VNone (dict_get "key" items))
                        (get_parent_content_key (h ++ [ODict items])
                           (VRef (List.length h))))
                     (marketed_items enterprise_catalog inst h items)
              else marketed_items enterprise_catalog inst h items)]).
Proof.
  intros Hmd Hl Hcourse. unfold to_representation, copy, alloc.
  rewrite Hmd, Hl, !getattr_get_fresh, setitem_fresh.
  fold (dated_items enterprise_catalog inst items).
  assert (Hmk :
    (if truthy (h ++ [ODict (dated_items enterprise_catalog inst items)])
          (default VNone (dict_get "marketing_url" items))
     then setitem (VRef (List.length h)) "marketing_url"
            (update_query_parameters (default VNone (dict_get "marketing_url" items))
               (get_enterprise_utm_context
                  (EnterpriseCatalog.enterprise_name enterprise_catalog)))
            (h ++ [ODict (dated_items enterprise_catalog inst items)])
     else (inr tt, h ++ [ODict (dated_items enterprise_catalog inst items)]))
    = (inr tt, h ++ [ODict (marketed_items enterprise_catalog inst h items)])).
  { unfold marketed_items. cbv zeta. destruct (truthy _ _); [|done].
    by rewrite setitem_fresh. }
  rewrite Hmk, Hcourse. cbn [orb].
  destruct (String.eqb (content_type inst) COURSE_RUN).
  - by rewrite !setitem_fresh.
  - destruct (String.eqb (content_type inst) PROGRAM); [|done].
    by rewrite setitem_fresh.
Qed.
End ProjectorShapeFacts.

Section ProjectorCourseFacts.
Context `{ProjectorEnv}.

Lemma dict_get_enrolled (enterprise_catalog : EnterpriseCatalog.t)
    (inst : instance) (h : heap) (items : list (string * val)) (k : string) :
  String.eqb k "content_last_modified" = false ->
  String.eqb k "marketing_url" = false ->
  String.eqb k "enrollment_url" = false ->
  String.eqb k "xapi_activity_id" = false ->
  dict_get k (enrolled_items enterprise_catalog inst h items) = dict_get k items.
Proof.
  intros H1 H2 H3 H4. unfold enrolled_items.
  rewrite !dict_get_set_ne by done. by apply dict_get_marketed.
Qed.

(** What the projector returns for a course: the stored part of the heap
    keeps its size, the projected dictionary and the default list of the
    [get] follow it. *)
Lemma to_representation_course (enterprise_catalog : EnterpriseCatalog.t)
    (inst : instance) (h : heap) (l0 : loc) (items : list (string * val))
    (runs : list val) :
  json_metadata inst = VRef l0 -> h !! l0 = Some (ODict items) ->
  String.eqb (content_type inst) COURSE = true ->
  nested_course_runs h items = Some runs ->
  forallb (is_dict_ref h) runs = true ->
  let enrolled := enrolled_items enterprise_catalog inst h items in
  exists h' : heap,
    to_representation enterprise_catalog inst h
    = (inr (VRef (List.length h)),
       h' ++ [ODict (dict_set "active"
                       (VBool (is_any_course_run_active
                                 (h ++ [ODict enrolled; OList []]) runs))
                       enrolled);
              OList []])
    /\ List.length h' = List.length h
    /\ enroll_course_runs enterprise_catalog
         (default VNone (dict_get "key" items)) runs h = (inr tt, h').
Proof.
  intros Hmd Hl Hcourse Hruns Hdicts enrolled.
  unfold to_representation, copy, alloc.
  rewrite Hmd, Hl, !getattr_get_fresh, setitem_fresh.
  fold (dated_items enterprise_catalog inst items).
  assert (Hmk :
    (if truthy (h ++ [ODict (dated_items enterprise_catalog inst items)])
          (default VNone (dict_get "marketing_url" items))
     then setitem (VRef (List.length h)) "marketing_url"
            (update_query_parameters (default VNone (dict_get "marketing_url" items))
               (get_enterprise_utm_context
                  (EnterpriseCatalog.enterprise_name enterprise_catalog)))
            (h ++ [ODict (dated_items enterprise_catalog inst items)])
     else (inr tt, h ++ [ODict (dated_items enterprise_catalog inst items)]))
    = (inr tt, h ++ [ODict (marketed_items enterprise_catalog inst h items)])).
  { unfold marketed_items. cbv zeta. destruct (truthy _ _); [|done].
    by rewrite setitem_fresh. }
  rewrite Hmk, Hcourse. cbn [orb].
  rewrite !setitem_fresh.
  fold (enrolled_items enterprise_catalog inst h items). fold enrolled.
  rewrite <- app_assoc. cbn [app].
  rewrite getattr_get_fresh.
  assert (Hget : dict_get "course_runs" enrolled = dict_get "course_runs" items)
    by (by apply dict_get_enrolled).
  assert (Hiter :
    iter_val (h ++ [ODict enrolled; OList []])
      (default (VRef (List.length (h ++ [ODict enrolled])))
         (dict_get "course_runs" enrolled)) = Some runs).
  { rewrite Hget. unfold nested_course_runs in Hruns.
    destruct (dict_get "course_runs" items) as [v|]; simpl.
    - by apply iter_val_app.
    - injection Hruns as <-.
      replace (h ++ [ODict enrolled; OList []])
        with ((h ++ [ODict enrolled]) ++ [OList []])
        by (by rewrite <- app_assoc).
      by rewrite heap_lookup_fresh. }
  rewrite Hiter, setitem_fresh.
  destruct (enroll_course_runs_ok enterprise_catalog
              (default VNone (dict_get "key" items)) runs h Hdicts)
    as (h' & Hloop & Hlen).
  exists h'. rewrite Hloop. split; [done|]. split; [done|].
  specialize (Hloop []). by rewrite !app_nil_r in Hloop.
Qed.
End ProjectorCourseFacts.

Section ProjectorClaims.
Context `{ProjectorEnv}.

Lemma field_fresh (h tail : heap) (items : list (string * val)) (k : string) :
  field (h ++ ODict items :: tail) (VRef (List.length h)) k = dict_get k items.
Proof. unfold field. by rewrite heap_lookup_fresh. Qed.

Lemma field_at (h tail : heap) (items : list (string * val)) (k : string)
    (n : nat) :
  List.length h = n ->
  field (h ++ ODict items :: tail) (VRef n) k = dict_get k items.
Proof. intros <-. apply field_fresh. Qed.

Lemma projectable_inv (h : heap) (inst : instance) :
  projectable h inst = true ->
  exists (l0 : loc) (items : list (string * val)),
    json_metadata inst = VRef l0 /\ h !! l0 = Some (ODict items)
    /\ (String.eqb (content_type inst) COURSE = false
        \/ String.eqb (content_type inst) COURSE = true
           /\ exists runs, nested_course_runs h items = Some runs
                           /\ forallb (is_dict_ref h) runs = true).
Proof.
  unfold projectable. destruct (json_metadata inst) as [| | | | |l0]; try done.
  destruct (h !! l0) as [[items|]|] eqn:Hl; try done.
  intros Hp. exists l0, items. split; [done|]. split; [done|].
  destruct (String.eqb (content_type inst) COURSE); [right|by left].
  split; [done|]. destruct (nested_course_runs h items) as [runs|]; [|done].
  by exists runs.
Qed.

Lemma dict_get_dated (enterprise_catalog : EnterpriseCatalog.t)
    (inst : instance) (h : heap) (items : list (string * val)) :
  dict_get "content_last_modified"
    (marketed_items enterprise_catalog inst h items)
  = Some (VTime (get_most_recent_modified_time (modified inst)
                   (EnterpriseCatalog.modified enterprise_catalog)
                   (EnterpriseCatalog.enterprise_customer_last_modified_date
                      enterprise_catalog))).
Proof.
  unfold marketed_items, dated_items. cbv zeta.
  destruct (truthy _ _); rewrite ?dict_get_set_ne by done;
    apply dict_get_set_eq.
Qed.

(** C8: a record the projector accepts is projected, and the
    [content_last_modified] of the result is the latest of the record's
    [modified], the catalog's [modified] and the customer's
    [last_modified_date]; nothing written later replaces it. *)
Theorem content_last_modified_is_latest (enterprise_catalog : EnterpriseCatalog.t)
    (inst : instance) (h : heap) :
  projectable h inst = true ->
  exists (out : val) (h' : heap),
    to_representation enterprise_catalog inst h = (inr out, h')
    /\ field h' out "content_last_modified"
       = Some (VTime
                 (Z.max (modified inst)
                    (Z.max (EnterpriseCatalog.modified enterprise_catalog)
                       (EnterpriseCatalog.enterprise_customer_last_modified_date
                          enterprise_catalog)))).
Proof.
  intros Hp. apply projectable_inv in Hp
    as (l0 & items & Hmd & Hl & [Hother|(Hcourse & runs & Hruns & Hdicts)]).
  - eexists _, _. split.
    + by apply (to_representation_other enterprise_catalog inst h l0 items).
    + rewrite field_fresh.
      destruct (String.eqb (content_type inst) COURSE_RUN);
        [|destruct (String.eqb (content_type inst) PROGRAM)];
        unfold enrolled_items; rewrite ?dict_get_set_ne by done;
        apply dict_get_dated.
  - destruct (to_representation_course enterprise_catalog inst h l0 items runs
                Hmd Hl Hcourse Hruns Hdicts) as (h' & Hrep & Hlen & _).
    eexists _, _. split; [exact Hrep|].
    rewrite (field_at _ _ _ _ _ Hlen). unfold enrolled_items.
    rewrite !dict_get_set_ne by done. apply dict_get_dated.
Qed.

(** C7: for a course whose nested runs are dictionaries, the [active] flag
    of the projection is the disjunction, over the nested runs, of the test
    a single run passes, evaluated on a heap that agrees with the given one
    on every stored object; with no nested run it is false. *)
Theorem course_active_is_any_run_active (enterprise_catalog : EnterpriseCatalog.t)
    (inst : instance) (h : heap) (l0 : loc) (items : list (string * val))
    (runs : list val) :
  json_metadata inst = VRef l0 -> h !! l0 = Some (ODict items) ->
  content_type inst = COURSE ->
  nested_course_runs h items = Some runs ->
  forallb (is_dict_ref h) runs = true ->
  exists (out : val) (h' h_at : heap),
    to_representation enterprise_catalog inst h = (inr out, h')
    /\ (forall l : loc, l < List.length h -> h_at !! l = h !! l)
    /\ field h' out "active"
       = Some (VBool (existsb (is_course_run_active h_at) runs))
    /\ (runs = [] -> field h' out "active" = Some (VBool false)).
Proof.
  intros Hmd Hl Hct Hruns Hdicts.
  assert (Hcourse : String.eqb (content_type inst) COURSE = true)
    by (by apply String.eqb_eq).
  destruct (to_representation_course enterprise_catalog inst h l0 items runs
              Hmd Hl Hcourse Hruns Hdicts) as (h' & Hrep & Hlen & _).
  eexists _, _, _. split; [exact Hrep|]. split; [|split].
  - intros l Hlt. by apply lookup_app_l.
  - rewrite (field_at _ _ _ _ _ Hlen). apply dict_get_set_eq.
  - intros ->. rewrite (field_at _ _ _ _ _ Hlen). apply dict_get_set_eq.
Qed.

(** C6 (amended): for a course or a course run the projector accepts, the
    enrollment URL of the projection is built from the catalog, the fixed
    resource [COURSE] (for a course run too), the content key and the parent
    content key; the xapi activity identifier is built from the catalog, the
    record's own content type and the content key. *)
Theorem enrollment_url_uses_course_resource (enterprise_catalog : EnterpriseCatalog.t)
    (inst : instance) (h : heap) :
  projectable h inst = true ->
  content_type inst = COURSE \/ content_type inst = COURSE_RUN ->
  exists (out : val) (h' : heap) (l0 : loc) (items : list (string * val)),
    json_metadata inst = VRef l0 /\ h !! l0 = Some (ODict items)
    /\ to_representation enterprise_catalog inst h = (inr out, h')
    /\ field h' out "enrollment_url"
       = Some (get_content_enrollment_url enterprise_catalog COURSE
                 (default VNone (dict_get "key" items))
                 (get_parent_content_key (h ++ [ODict items])
                    (VRef (List.length h))))
    /\ field h' out "xapi_activity_id"
       = Some (get_xapi_activity_id enterprise_catalog (content_type inst)
                 (default VNone (dict_get "key" items))).
Proof.
  intros Hp Hct. apply projectable_inv in Hp
    as (l0 & items & Hmd & Hl & [Hother|(Hcourse & runs & Hruns & Hdicts)]).
  - destruct Hct as [Hct|Hct];
      [rewrite Hct in Hother; discriminate|].
    eexists _, _, l0, items. split; [done|]. split; [done|]. split.
    + by apply (to_representation_other enterprise_catalog inst h l0 items).
    + rewrite !field_fresh, Hct. simpl. unfold enrolled_items.
      split.
      * rewrite dict_get_set_ne by done. apply dict_get_set_eq.
      * rewrite Hct. apply dict_get_set_eq.
  - destruct (to_representation_course enterprise_catalog inst h l0 items runs
                Hmd Hl Hcourse Hruns Hdicts) as (h' & Hrep & Hlen & _).
    eexists _, _, l0, items. split; [done|]. split; [done|].
    split; [exact Hrep|].
    rewrite !(field_at _ _ _ _ _ Hlen). unfold enrolled_items. split.
    + rewrite !dict_get_set_ne by done. apply dict_get_set_eq.
    + rewrite dict_get_set_ne by done. apply dict_get_set_eq.
Qed.

(** For a record that is not a course the projector only allocates: every
    stored object is what it was. *)
Lemma to_representation_keeps_stored_objects (enterprise_catalog : EnterpriseCatalog.t)
    (inst : instance) (h : heap) :
  projectable h inst = true ->
  content_type inst <> COURSE ->
  forall l : loc, l < List.length h ->
    (to_representation enterprise_catalog inst h).2 !! l = h !! l.
Proof.
  intros Hp Hct l Hlt. apply projectable_inv in Hp
    as (l0 & items & Hmd & Hl & [Hother|(Hcourse & _)]).
  - rewrite (to_representation_other enterprise_catalog inst h l0 items)
      by done.
    by apply lookup_app_l.
  - by apply String.eqb_eq in Hcourse.
Qed.
End ProjectorClaims.

Lemma content_last_modified_is_latest_witness :
  exists (out : val) (h' : heap),
    to_representation (H := example_projector_env) demo_catalog
      demo_course_instance demo_course_heap = (inr out, h')
    /\ field h' out "content_last_modified" = Some (VTime 120).
Proof.
  exact (content_last_modified_is_latest (H := example_projector_env)
           demo_catalog demo_course_instance demo_course_heap eq_refl).
Defined.

Lemma course_active_is_any_run_active_witness :
  exists (out : val) (h' h_at : heap),
    to_representation (H := example_projector_env) demo_catalog
      demo_course_instance demo_course_heap = (inr out, h')
    /\ (forall l : loc, l < List.length demo_course_heap ->
        h_at !! l = demo_course_heap !! l)
    /\ field h' out "active"
       = Some (VBool (existsb (is_course_run_active
                                 (ProjectorEnv := example_projector_env) h_at)
                        [VRef 0; VRef 1]))
    /\ ([VRef 0; VRef 1] = [] -> field h' out "active" = Some (VBool false)).
Proof.
  exact (course_active_is_any_run_active (H := example_projector_env)
           demo_catalog demo_course_instance demo_course_heap 3
           _ [VRef 0; VRef 1] eq_refl eq_refl eq_refl eq_refl eq_refl).
Defined.

Lemma enrollment_url_uses_course_resource_witness :
  exists (out : val) (h' : heap) (l0 : loc) (items : list (string * val)),
    json_metadata demo_run_instance = VRef l0
    /\ demo_run_heap !! l0 = Some (ODict items)
    /\ to_representation (H := example_projector_env) demo_catalog
         demo_run_instance demo_run_heap = (inr out, h')
    /\ field h' out "enrollment_url"
       = Some (get_content_enrollment_url (ProjectorEnv := example_projector_env)
                 demo_catalog COURSE
                 (default VNone (dict_get "key" items))
                 (get_parent_content_key (ProjectorEnv := example_projector_env)
                    (demo_run_heap ++ [ODict items])
                    (VRef (List.length demo_run_heap))))
    /\ field h' out "xapi_activity_id"
       = Some (get_xapi_activity_id (ProjectorEnv := example_projector_env)
                 demo_catalog (content_type demo_run_instance)
                 (default VNone (dict_get "key" items))).
Proof.
  exact (enrollment_url_uses_course_resource (H := example_projector_env)
           demo_catalog demo_run_instance demo_run_heap eq_refl
           (or_intror eq_refl)).
Defined.

(** C6 (as stated) fails: the enrollment URL projected for a course run is
    built with the resource [course], not with the run's own resource type
    [course_run]. *)
Lemma course_run_enrollment_url_resource :
  exists (out : val) (h' : heap),
    to_representation (H := example_projector_env) demo_catalog
      demo_run_instance demo_run_heap = (inr out, h')
    /\ field h' out "enrollment_url"
       = Some (VStr "/enterprise/enterprise-1/course/course-v1:edX+DemoX+2T/enroll/?catalog=catalog-1&parent=edX+DemoX")
    /\ field h' out "enrollment_url"
       <> Some (get_content_enrollment_url (ProjectorEnv := example_projector_env)
                  demo_catalog (content_type demo_run_instance)
                  (VStr "course-v1:edX+DemoX+2T") (VStr "edX+DemoX")).
Proof.
  eexists _, _. split; [by vm_compute|]. split; [by vm_compute|].
  vm_compute. discriminate.
Qed.

(** C2: the projection of the stored course [demo_course] writes an
    [enrollment_url] into each nested course run of the stored record
    itself: read back after the call, the record's [json_metadata] is no
    longer the value it held before. *)
Theorem to_representation_writes_into_stored_course_runs :
  exists (out : val) (h' : heap) (after : json),
    to_representation (H := example_projector_env) demo_catalog
      demo_course_instance demo_course_heap = (inr out, h')
    /\ dump 4 demo_course_heap (json_metadata demo_course_instance)
       = Some demo_course
    /\ dump 4 h' (json_metadata demo_course_instance) = Some after
    /\ after <> demo_course
    /\ json_lookup "course_runs"
         (match after with JObj kvs => kvs | _ => [] end)
       = Some (JArr
           [JObj [("key", JStr "course-v1:edX+DemoX+1T"); ("status", JStr "archived");
                  ("enrollment_url",
                   JStr "/enterprise/enterprise-1/course/course-v1:edX+DemoX+1T/enroll/?catalog=catalog-1&parent=edX+DemoX")];
            JObj [("key", JStr "course-v1:edX+DemoX+2T"); ("status", JStr "published");
                  ("enrollment_url",
                   JStr "/enterprise/enterprise-1/course/course-v1:edX+DemoX+2T/enroll/?catalog=catalog-1&parent=edX+DemoX")]]).
Proof.
  eexists _, _, _. split; [by vm_compute|]. split; [by vm_compute|].
  split; [by vm_compute|]. split; [discriminate|by vm_compute].
Qed.

(** * The existence-check view *)
Section ContainsContentItemsFacts.
Context `{ViewEnv}.

(** C9: a request that carries neither [course_run_ids] nor [program_uuids]
    is answered with a client error (status 400) and makes no call to the
    existence checker; whenever a request does call the checker, at least
    one of the two parameters was supplied. *)
Theorem contains_content_items_requires_parameter
    (catalogs : list EnterpriseCatalog.t) (uuid : string)
    (query_params : list (string * string)) :
  (getlist "course_run_ids" query_params = []
   /\ getlist "program_uuids" query_params = [] ->
   exists r : response,
     contains_content_items catalogs uuid query_params = (r, [])
     /\ is_client_error r = true)
  /\ ((contains_content_items catalogs uuid query_params).2 <> [] ->
      getlist "course_run_ids" query_params <> []
      \/ getlist "program_uuids" query_params <> []).
Proof.
  unfold contains_content_items, require_at_least_one_query_parameter.
  split.
  - intros [-> ->]. by eexists.
  - destruct (getlist "course_run_ids" query_params) as [|c cs];
      [|intros _; by left].
    destruct (getlist "program_uuids" query_params) as [|p ps];
      [done|intros _; by right].
Qed.
End ContainsContentItemsFacts.

Lemma contains_content_items_requires_parameter_witness :
  (exists r : response,
      contains_content_items (H := example_view_env) [demo_catalog] "catalog-1"
        [("page", "2")] = (r, [])
      /\ is_client_error r = true)
  /\ (getlist "course_run_ids" [("course_run_ids", "course-v1:edX+DemoX+2T")] <> []
      \/ getlist "program_uuids" [("course_run_ids", "course-v1:edX+DemoX+2T")] <> []).
Proof.
  split.
  - exact (proj1 (contains_content_items_requires_parameter
                    (H := example_view_env) [demo_catalog] "catalog-1"
                    [("page", "2")]) (conj eq_refl eq_refl)).
  - apply (proj2 (contains_content_items_requires_parameter
                    (H := example_view_env) [demo_catalog] "catalog-1"
                    [("course_run_ids", "course-v1:edX+DemoX+2T")])).
    vm_compute. discriminate.
Defined.

(** * More on the resolver *)
Section ResolverOutcomes.
Context `{Digest}.
Import CatalogQuery.

Lemma get_by_hash_inr (x : string) (db : table) (r : t) :
  get_by_hash x db = inr r -> r ∈ rows db /\ content_filter_hash r = Some x.
Proof.
  unfold get_by_hash.
  destruct (List.filter (has_hash x) (rows db)) as [|r0 [|r1 l]] eqn:Hf;
    try discriminate.
  intros [= <-].
  assert (Hin : In r0 (List.filter (has_hash x) (rows db)))
    by (rewrite Hf; by left).
  apply filter_In in Hin as [Hin Hh]. split.
  - by apply list_elem_of_In.
  - by apply has_hash_true.
Qed.

Lemma hash_taken_false_of_owner (q : t) (x : string) (rs : list t) :
  content_filter_hash q = Some x ->
  Forall (fun r => content_filter_hash r = Some x -> id r = id q) rs ->
  hash_taken q rs = false.
Proof.
  intros Hq Hrs. unfold hash_taken. rewrite Hq.
  apply not_true_is_false. intros Hex.
  apply existsb_exists in Hex as (b & Hb & Hand).
  apply andb_prop in Hand as [Hbx Hne].
  apply has_hash_true in Hbx.
  apply negb_true_iff, bool_decide_eq_false in Hne.
  apply Hne. rewrite Forall_forall in Hrs. apply Hrs; [|done].
  by apply list_elem_of_In.
Qed.

Lemma filter_has_hash_none (x : string) (rs : list t) :
  Forall (fun r => content_filter_hash r <> Some x) rs ->
  List.filter (has_hash x) rs = [].
Proof.
  induction 1 as [|r rs Hr _ IH]; [reflexivity|].
  simpl. by rewrite (proj2 (has_hash_false x r) Hr).
Qed.

Lemma find_and_modify_known_identifier (content_filter : json)
    (u : string) (query_title : option string) (db : table) (a : t) (pk : nat) :
  u <> "" -> get_by_uuid u db = Some a -> id a = Some pk ->
  Forall (fun r => content_filter_hash r
                   = Some (get_content_filter_hash content_filter) ->
                   id r = Some pk) (rows db) ->
  let a' := Build (Some pk) u query_title content_filter
              (Some (get_content_filter_hash content_filter)) in
  find_and_modify_catalog_query content_filter (Some u) query_title db
  = (inr a', Table (replace_row pk a' (rows db)) (next_id db)).
Proof.
  intros Hne Ha Hid Hfree a'.
  unfold find_and_modify_catalog_query, uuid_given.
  replace (String.eqb u "") with false
    by (symmetry; by apply String.eqb_neq).
  rewrite Ha. apply get_by_uuid_elem in Ha as [Hin Hu].
  unfold save, Model_save. simpl. rewrite Hid. simpl.
  rewrite (existsb_has_pk pk a (rows db) Hin Hid).
  rewrite (hash_taken_false_of_owner _
             (get_content_filter_hash content_filter)).
  - unfold set_content_filter_hash, set_title, set_content_filter. simpl.
    subst a'. by rewrite Hid, Hu.
  - reflexivity.
  - simpl. by rewrite Hid.
Qed.

(** X1: an identifier that names a stored row claims it for editing.  When
    no other row holds the digest of the new filter, the row keeps its
    primary key and identifier, takes the filter, its digest and the title
    of the call, and is written in place; the counter does not move. *)
Theorem resolve_known_identifier_overwrites (content_filter : json)
    (u : string) (query_title : option string) (db : table) (a : t) (pk : nat) :
  u <> "" -> get_by_uuid u db = Some a -> id a = Some pk ->
  Forall (fun r => content_filter_hash r
                   = Some (get_content_filter_hash content_filter) ->
                   id r = Some pk) (rows db) ->
  let a' := Build (Some pk) u query_title content_filter
              (Some (get_content_filter_hash content_filter)) in
  find_and_modify_catalog_query content_filter (Some u) query_title db
  = (inr a', Table (replace_row pk a' (rows db)) (next_id db)).
Proof. apply find_and_modify_known_identifier. Qed.

(** X2: an identifier no row carries, with a filter whose digest no row
    holds, creates a row: it is appended under the next primary key with the
    identifier, filter, digest and title of the call, and the rows already
    stored are left as they were. *)
Theorem resolve_unknown_identifier_creates (content_filter : json)
    (u : string) (query_title : option string) (db : table) :
  u <> "" -> get_by_uuid u db = None ->
  Forall (fun r => content_filter_hash r
                   <> Some (get_content_filter_hash content_filter)) (rows db) ->
  let new := Build (Some (next_id db)) u query_title content_filter
               (Some (get_content_filter_hash content_filter)) in
  find_and_modify_catalog_query content_filter (Some u) query_title db
  = (inr new, Table (rows db ++ [new]) (S (next_id db))).
Proof.
  intros Hne Hnone Hfree new.
  unfold find_and_modify_catalog_query, uuid_given.
  replace (String.eqb u "") with false
    by (symmetry; by apply String.eqb_neq).
  rewrite Hnone. unfold update_or_create, get_by_hash.
  rewrite (filter_has_hash_none _ _ Hfree).
  unfold create_object_from_params, create, save, Model_save. simpl.
  match goal with |- context [hash_taken ?q (rows db)] =>
    rewrite (hash_taken_absent q (get_content_filter_hash content_filter)
               (rows db) eq_refl (filter_has_hash_none _ _ Hfree)) end.
  reflexivity.
Qed.

(** X3: without an identifier (absent or empty), a filter whose digest a
    stored row already holds resolves to that row as it is stored: the title
    of the call is not applied and the table is not written. *)
Theorem resolve_without_identifier_returns_match (content_filter : json)
    (catalog_query_uuid query_title : option string) (db : table) (r : t) :
  catalog_query_uuid = None \/ catalog_query_uuid = Some "" ->
  unique_hashes (rows db) -> r ∈ rows db ->
  content_filter_hash r = Some (get_content_filter_hash content_filter) ->
  find_and_modify_catalog_query content_filter catalog_query_uuid query_title db
  = (inr r, db).
Proof.
  intros Hnone Hu Hr Hx. unfold find_and_modify_catalog_query.
  replace (uuid_given catalog_query_uuid) with (@None string)
    by (by destruct Hnone as [-> | ->]).
  unfold get_or_create. by rewrite (get_by_hash_found _ r db Hu Hr Hx).
Qed.
End ResolverOutcomes.

Section ResolverWrites.
Context `{Digest}.
Import CatalogQuery.

(** Every write of the resolver is one call of [save]: a relation between
    tables that holds of a table and itself and across any [save] holds
    across a resolution. *)
Lemma resolver_writes_through_save (P : table -> table -> Prop) :
  (forall db, P db db) ->
  (forall force_insert self db, P db (save force_insert self db).2) ->
  forall content_filter catalog_query_uuid query_title db,
    P db (find_and_modify_catalog_query content_filter catalog_query_uuid
            query_title db).2.
Proof.
  intros Hrefl Hsave content_filter catalog_query_uuid query_title db.
  assert (Hcreate : forall x u f ttl,
             P db (create_object_from_params x u f ttl db).2).
  { intros x u f ttl. unfold create_object_from_params, create.
    match goal with |- context [save true ?q db] =>
      pose proof (Hsave true q db) as Hs;
      destruct (save true q db) as [[e|obj] db'] end; simpl in *; [|done].
    by destruct (get_by_hash x db') as [[]|]. }
  unfold find_and_modify_catalog_query.
  destruct (uuid_given catalog_query_uuid) as [u|].
  - destruct (get_by_uuid u db) as [a|].
    + match goal with |- context [save false ?q db] =>
        pose proof (Hsave false q db) as Hs;
        destruct (save false q db) as [[e|obj'] db'] end; simpl in *; [|done].
      by destruct e.
    + unfold update_or_create.
      destruct (get_by_hash _ db) as [[]|obj]; simpl; auto.
      * match goal with |- context [create_object_from_params ?x ?u ?f ?t db] =>
          pose proof (Hcreate x u f t) as Hc;
          destruct (create_object_from_params x u f t db) as [[e|[o ?]] db'] end;
          done.
      * match goal with |- context [save false ?q db] =>
          pose proof (Hsave false q db) as Hs;
          destruct (save false q db) as [[e|obj'] db'] end; simpl in *; done.
  - unfold get_or_create.
    destruct (get_by_hash _ db) as [[]|obj]; simpl; auto.
    match goal with |- context [create_object_from_params ?x ?u ?f ?t db] =>
      pose proof (Hcreate x u f t) as Hc;
      destruct (create_object_from_params x u f t db) as [[e|[o ?]] db'] end;
      done.
Qed.

Lemma replace_row_ids (pk : nat) (q : t) (rs : list t) :
  id q = Some pk -> map id (replace_row pk q rs) = map id rs.
Proof.
  intros Hq. unfold replace_row. induction rs as [|r rs IH]; [reflexivity|].
  simpl. rewrite IH. f_equal. unfold has_pk.
  case_bool_decide as Hr; [by rewrite Hq, Hr|done].
Qed.

Lemma replace_row_length (pk : nat) (q : t) (rs : list t) :
  List.length (replace_row pk q rs) = List.length rs.
Proof. unfold replace_row. apply length_map. Qed.

Lemma existsb_has_pk_ids (pk : nat) (rs : list t) :
  existsb (has_pk pk) rs = true <-> Some pk ∈ map id rs.
Proof.
  rewrite existsb_exists, list_elem_of_In, in_map_iff. unfold has_pk.
  split; intros (r & H1 & H2); exists r.
  - by apply bool_decide_eq_true in H2.
  - split; [done|]. by apply bool_decide_eq_true.
Qed.

(** The shape of a table after [save]: the same table, a row replaced under
    its own primary key, or one row appended. *)
Lemma save_shape (force_insert : bool) (self : t) (db : table) :
  let db' := (save force_insert self db).2 in
  db' = db
  \/ (exists (pk : nat) (q : t),
        id q = Some pk /\ rows db' = replace_row pk q (rows db)
        /\ next_id db' = next_id db)
  \/ (exists q : t, rows db' = rows db ++ [q] /\ next_id db <= next_id db').
Proof.
  unfold save, Model_save. simpl. destruct (id self) as [pk|] eqn:Hid.
  - destruct (negb force_insert && existsb (has_pk pk) (rows db)).
    + destruct (hash_taken _ _); simpl; [by left|].
      right. left. eexists pk, _. by repeat split.
    + destruct (existsb (has_pk pk) (rows db)); simpl; [by left|].
      destruct (hash_taken _ _); simpl; [by left|].
      right. right. eexists. split; [done|]. simpl. lia.
  - destruct (hash_taken _ _); simpl; [by left|].
    right. right. eexists. split; [done|]. simpl. lia.
Qed.

(** X4: a resolution never removes a row: every primary key stored before
    the call is stored after it, the table grows by at most one row, and the
    auto-increment counter never goes back. *)
Theorem resolve_never_removes_rows (content_filter : json)
    (catalog_query_uuid query_title : option string) (db : table) :
  let db' := (find_and_modify_catalog_query content_filter catalog_query_uuid
                query_title db).2 in
  (forall pk : nat,
      existsb (has_pk pk) (rows db) = true ->
      existsb (has_pk pk) (rows db') = true)
  /\ List.length (rows db) <= List.length (rows db')
  /\ List.length (rows db') <= S (List.length (rows db))
  /\ next_id db <= next_id db'.
Proof.
  apply (resolver_writes_through_save
           (fun db db' =>
              (forall pk : nat,
                  existsb (has_pk pk) (rows db) = true ->
                  existsb (has_pk pk) (rows db') = true)
              /\ List.length (rows db) <= List.length (rows db')
              /\ List.length (rows db') <= S (List.length (rows db))
              /\ next_id db <= next_id db')).
  - intros db0. repeat split; auto.
  - intros force_insert self db0.
    destruct (save_shape force_insert self db0)
      as [-> | [(pk & q & Hq & -> & ->) | (q & -> & Hnext)]].
    + repeat split; auto.
    + rewrite replace_row_length. repeat split; auto.
      intros pk0. rewrite !existsb_has_pk_ids. by rewrite replace_row_ids.
    + rewrite length_app. simpl. repeat split; try lia.
      intros pk0 Hpk. rewrite existsb_app. by rewrite Hpk.
Qed.
End ResolverWrites.

Section ResolverIntegrity.
Context `{Digest}.
Import CatalogQuery.

Lemma replace_row_absent (pk : nat) (q : t) (rs : list t) :
  Some pk ∉ map id rs -> replace_row pk q rs = rs.
Proof.
  unfold replace_row. induction rs as [|r rs IH]; [reflexivity|].
  simpl. intros Hnot. apply not_elem_of_cons in Hnot as [Hr Hrs].
  rewrite IH by done. unfold has_pk.
  case_bool_decide as Hpk; [|done]. by rewrite Hpk in Hr.
Qed.

Lemma hash_taken_false_inv (q : t) (x : string) (rs : list t) (r : t) :
  hash_taken q rs = false -> content_filter_hash q = Some x ->
  r ∈ rs -> content_filter_hash r = Some x -> id r = id q.
Proof.
  unfold hash_taken. intros Htaken Hq Hr Hx. rewrite Hq in Htaken.
  destruct (decide (id r = id q)) as [|Hne]; [done|].
  assert (existsb (fun r0 => has_hash x r0 && negb (bool_decide (id r0 = id q))) rs
          = true) as Hex; [|by rewrite Hex in Htaken].
  apply existsb_exists. exists r. split; [by apply list_elem_of_In|].
  apply andb_true_intro. split; [by apply has_hash_true|].
  apply negb_true_iff. by apply bool_decide_eq_false.
Qed.

Lemma append_unique_hashes (q : t) (x : string) (rs : list t) :
  unique_hashes rs -> content_filter_hash q = Some x ->
  (forall r, r ∈ rs -> content_filter_hash r <> Some x) ->
  unique_hashes (rs ++ [q]).
Proof.
  unfold unique_hashes. intros Hu Hq Hfree.
  rewrite omap_app. simpl. rewrite Hq. apply NoDup_app. split; [done|].
  split; [|apply NoDup_singleton].
  intros z Hz Hzx. apply list_elem_of_singleton in Hzx as ->.
  apply list_elem_of_omap in Hz as (r & Hr & Hrx). by apply (Hfree r).
Qed.

Lemma replace_row_unique_hashes (pk : nat) (q : t) (x : string) (rs : list t) :
  NoDup (map id rs) -> unique_hashes rs ->
  content_filter_hash q = Some x ->
  (forall r, r ∈ rs -> content_filter_hash r = Some x -> id r = Some pk) ->
  unique_hashes (replace_row pk q rs).
Proof.
  unfold unique_hashes. intros Hids Hu Hq Hown.
  induction rs as [|r rs IH]; [constructor|].
  simpl in Hids. apply NoDup_cons in Hids as [Hr Hids].
  assert (Hown' : forall r0, r0 ∈ rs -> content_filter_hash r0 = Some x ->
                             id r0 = Some pk).
  { intros r0 Hr0. apply Hown. by apply elem_of_cons; right. }
  simpl. unfold has_pk at 1. case_bool_decide as Hpk.
  - fold (replace_row pk q rs). rewrite replace_row_absent by (by rewrite <- Hpk).
    simpl. rewrite Hq. apply NoDup_cons. split.
    + intros Hx. apply list_elem_of_omap in Hx as (r0 & Hr0 & Hr0x).
      apply Hr. rewrite Hpk, <- (Hown' r0 Hr0 Hr0x).
      by apply list_elem_of_fmap_2.
    + simpl in Hu. destruct (content_filter_hash r); [|done].
      by apply NoDup_cons in Hu as [_ Hu].
  - fold (replace_row pk q rs). simpl in *.
    destruct (content_filter_hash r) as [y|] eqn:Hy.
    + apply NoDup_cons in Hu as [Hy' Hu]. apply NoDup_cons. split; [|by apply IH].
      intros Hin. apply list_elem_of_omap in Hin as (r0 & Hr0 & Hr0y).
      apply list_elem_of_In, in_map_iff in Hr0 as (r1 & Hr1 & Hin1).
      apply list_elem_of_In in Hin1.
      destruct (has_pk pk r1); subst r0.
      * assert (y = x) as -> by congruence.
        apply Hpk. apply Hown; [by apply elem_of_cons; left|done].
      * apply Hy'. apply list_elem_of_omap. eauto.
    + by apply IH.
Qed.

Lemma save_keeps_table_ok (force_insert : bool) (self : t) (db : table) :
  catalog_query_table_ok db ->
  catalog_query_table_ok (save force_insert self db).2.
Proof.
  intros (Hu & Hids & Hbound). unfold save, Model_save. simpl.
  set (x := get_content_filter_hash (content_filter self)).
  destruct (id self) as [pk|] eqn:Hid.
  - destruct (negb force_insert && existsb (has_pk pk) (rows db)) eqn:Hupd.
    + destruct (hash_taken _ _) eqn:Htaken; simpl; [done|].
      apply andb_prop in Hupd as [_ Hex].
      split; [|split]; simpl.
      * apply (replace_row_unique_hashes pk _ x); try done.
        intros r Hr Hrx.
        by rewrite (hash_taken_false_inv _ x (rows db) r Htaken eq_refl Hr Hrx).
      * by rewrite replace_row_ids.
      * apply existsb_exists in Hex as (r0 & Hr0 & Hpk0).
        unfold has_pk in Hpk0. apply bool_decide_eq_true in Hpk0.
        rewrite Forall_forall in Hbound.
        destruct (Hbound r0 (proj2 (list_elem_of_In _ _) Hr0))
          as (pk0 & Hpk0' & Hlt).
        assert (pk0 = pk) as -> by congruence.
        unfold replace_row. apply Forall_forall. intros r Hr.
        apply list_elem_of_In, in_map_iff in Hr as (r1 & <- & Hr1).
        destruct (has_pk pk r1); [by exists pk|].
        apply Hbound. by apply list_elem_of_In.
    + destruct (existsb (has_pk pk) (rows db)) eqn:Hex; simpl; [done|].
      destruct (hash_taken _ _) eqn:Htaken; simpl; [done|].
      assert (Hfresh : Some pk ∉ map id (rows db)).
      { intros Hin. apply existsb_has_pk_ids in Hin. congruence. }
      split; [|split]; simpl.
      * apply (append_unique_hashes _ x); try done.
        intros r Hr Hrx. apply Hfresh.
        pose proof (hash_taken_false_inv _ x (rows db) r Htaken eq_refl Hr Hrx)
          as Hrid.
        simpl in Hrid. rewrite Hid in Hrid. rewrite <- Hrid.
        by apply list_elem_of_fmap_2.
      * rewrite map_app. simpl. apply NoDup_app. split; [done|].
        split; [|apply NoDup_singleton].
        intros z Hz Hzx. apply list_elem_of_singleton in Hzx as ->.
        by rewrite Hid in Hz.
      * apply Forall_app. split.
        -- eapply Forall_impl; [exact Hbound|].
           intros r (pk0 & Hpk0 & Hlt). exists pk0. split; [done|]. lia.
        -- constructor; [|constructor]. exists pk. split; [done|]. lia.
  - destruct (hash_taken _ _) eqn:Htaken; simpl; [done|].
    assert (Hfresh : Some (next_id db) ∉ map id (rows db)).
    { intros Hin. apply list_elem_of_fmap in Hin as (r & Hr & Hin).
      rewrite Forall_forall in Hbound.
      destruct (Hbound r Hin) as (pk0 & Hpk0 & Hlt).
      rewrite Hpk0 in Hr. injection Hr as Heq. lia. }
    split; [|split]; simpl.
    + apply (append_unique_hashes _ x); try done.
      intros r Hr Hrx. apply Hfresh.
      pose proof (hash_taken_false_inv _ x (rows db) r Htaken eq_refl Hr Hrx)
        as Hrid.
      simpl in Hrid. rewrite <- Hrid. by apply list_elem_of_fmap_2.
    + rewrite map_app. simpl. apply NoDup_app. split; [done|].
      split; [|apply NoDup_singleton].
      intros z Hz Hzx. apply list_elem_of_singleton in Hzx as ->. done.
    + apply Forall_app. split.
      * eapply Forall_impl; [exact Hbound|].
        intros r (pk0 & Hpk0 & Hlt). exists pk0. split; [done|]. lia.
      * constructor; [|constructor]. exists (next_id db). split; [done|]. lia.
Qed.

(** X5: the resolver keeps the integrity of the table: from a table whose
    digests are unique and whose primary keys are set, distinct and below
    the counter, every resolution, failed or not, leaves such a table. *)
Theorem resolve_keeps_table_ok (content_filter : json)
    (catalog_query_uuid query_title : option string) (db : table) :
  catalog_query_table_ok db ->
  catalog_query_table_ok
    (find_and_modify_catalog_query content_filter catalog_query_uuid
       query_title db).2.
Proof.
  apply (resolver_writes_through_save
           (fun db db' => catalog_query_table_ok db -> catalog_query_table_ok db')).
  - auto.
  - intros force_insert self db0. apply save_keeps_table_ok.
Qed.
End ResolverIntegrity.

Section ResolverResults.
Context `{Digest}.
Import CatalogQuery.

Lemma create_object_from_params_outcome (u : option string) (f : json)
    (ttl : option string) (db : table) :
  match create_object_from_params (get_content_filter_hash f) u f ttl db with
  | (inl _, db') => db' = db
  | (inr (obj, _), db') =>
      obj ∈ rows db'
      /\ content_filter_hash obj = Some (get_content_filter_hash f)
  end.
Proof.
  unfold create_object_from_params, create.
  match goal with |- context [save true ?q db] =>
    destruct (save true q db) as [[e|obj] db'] eqn:Hs end.
  - apply save_err in Hs as ->.
    destruct (get_by_hash _ db) as [[]|obj] eqn:Hg; try done.
    by apply get_by_hash_inr in Hg.
  - apply save_ok in Hs as (_ & Hh & _ & _ & Hin & _). by split.
Qed.

(** X6: a resolution that fails has written nothing: whatever the error,
    the table is the one the call was given. *)
Theorem resolve_failure_writes_nothing (content_filter : json)
    (catalog_query_uuid query_title : option string) (db : table)
    (e : exn) (db' : table) :
  find_and_modify_catalog_query content_filter catalog_query_uuid query_title db
  = (inl e, db') ->
  db' = db.
Proof.
  unfold find_and_modify_catalog_query.
  destruct (uuid_given catalog_query_uuid) as [u|].
  - destruct (get_by_uuid u db) as [a|].
    + match goal with |- context [save false ?q db] =>
        destruct (save false q db) as [[e0|obj] db0] eqn:Hs end;
        [|discriminate].
      apply save_err in Hs as ->. destruct e0; by intros [= _ <-].
    + unfold update_or_create.
      destruct (get_by_hash _ db) as [[]|obj]; try by intros [= _ <-].
      * pose proof (create_object_from_params_outcome (Some u) content_filter
                      query_title db) as Hc.
        destruct (create_object_from_params _ _ _ _ db) as [[e0|[o c]] db0];
          [|discriminate].
        subst db0. by intros [= _ <-].
      * match goal with |- context [save false ?q db] =>
          destruct (save false q db) as [[e0|obj'] db0] eqn:Hs end;
          [|discriminate].
        apply save_err in Hs as ->. by intros [= _ <-].
  - unfold get_or_create.
    destruct (get_by_hash _ db) as [[]|obj]; try by intros [= _ <-].
    pose proof (create_object_from_params_outcome None content_filter
                  query_title db) as Hc.
    destruct (create_object_from_params _ _ _ _ db) as [[e0|[o c]] db0];
      [|discriminate].
    subst db0. by intros [= _ <-].
Qed.

Lemma find_and_modify_catalog_query_result (content_filter : json)
    (catalog_query_uuid query_title : option string) (db : table)
    (q : t) (db' : table) :
  find_and_modify_catalog_query content_filter catalog_query_uuid query_title db
  = (inr q, db') ->
  q ∈ rows db'
  /\ content_filter_hash q = Some (get_content_filter_hash content_filter).
Proof.
  unfold find_and_modify_catalog_query.
  destruct (uuid_given catalog_query_uuid) as [u|].
  - destruct (get_by_uuid u db) as [a|].
    + match goal with |- context [save false ?q db] =>
        destruct (save false q db) as [[e0|obj] db0] eqn:Hs end.
      * destruct e0; discriminate.
      * intros [= <- <-]. apply save_ok in Hs as (_ & Hh & _ & _ & Hin & _).
        by split.
    + unfold update_or_create.
      destruct (get_by_hash _ db) as [[]|obj]; try discriminate.
      * pose proof (create_object_from_params_outcome (Some u) content_filter
                      query_title db) as Hc.
        destruct (create_object_from_params _ _ _ _ db) as [[e0|[o c]] db0];
          [discriminate|].
        by intros [= <- <-].
      * match goal with |- context [save false ?q db] =>
          destruct (save false q db) as [[e0|obj'] db0] eqn:Hs end;
          [discriminate|].
        intros [= <- <-]. apply save_ok in Hs as (_ & Hh & _ & _ & Hin & _).
        by split.
  - unfold get_or_create.
    destruct (get_by_hash _ db) as [[]|obj] eqn:Hg; try discriminate.
    + pose proof (create_object_from_params_outcome None content_filter
                    query_title db) as Hc.
      destruct (create_object_from_params _ _ _ _ db) as [[e0|[o c]] db0];
        [discriminate|].
      by intros [= <- <-].
    + intros [= <- <-]. by apply get_by_hash_inr in Hg.
Qed.

(** X7: a resolution that succeeds returns a row of the table it leaves, and
    that row carries the digest of the filter that was resolved. *)
Theorem resolve_returns_stored_row (content_filter : json)
    (catalog_query_uuid query_title : option string) (db : table)
    (q : t) (db' : table) :
  find_and_modify_catalog_query content_filter catalog_query_uuid query_title db
  = (inr q, db') ->
  q ∈ rows db'
  /\ content_filter_hash q = Some (get_content_filter_hash content_filter).
Proof. apply find_and_modify_catalog_query_result. Qed.
End ResolverResults.

(** * More of the resolver on the small table *)
Lemma two_rows_table_ok : catalog_query_table_ok two_rows.
Proof.
  split; [exact two_rows_unique_hashes|]. split.
  - simpl. apply (bool_decide_unpack _). by vm_compute.
  - repeat constructor.
    + exists 1. split; [reflexivity|simpl; lia].
    + exists 2. split; [reflexivity|simpl; lia].
Qed.

Lemma resolve_known_identifier_overwrites_witness :
  find_and_modify_catalog_query (H := example_digest) level_filter
    (Some "uuid-a") (Some "renamed") two_rows
  = (inr (CatalogQuery.Build (Some 2) "uuid-a" (Some "renamed") level_filter
            (Some (json_dumps level_filter))),
     CatalogQuery.Table
       (CatalogQuery.replace_row 2
          (CatalogQuery.Build (Some 2) "uuid-a" (Some "renamed") level_filter
             (Some (json_dumps level_filter)))
          (CatalogQuery.rows two_rows))
       (CatalogQuery.next_id two_rows)).
Proof.
  apply (resolve_known_identifier_overwrites (H := example_digest)
           level_filter "uuid-a" (Some "renamed") two_rows row_a 2).
  - discriminate.
  - reflexivity.
  - reflexivity.
  - repeat constructor; intros Hh; vm_compute in Hh; discriminate.
Defined.

Lemma resolve_unknown_identifier_creates_witness :
  find_and_modify_catalog_query (H := example_digest) level_filter
    (Some "uuid-c") None two_rows
  = (inr (CatalogQuery.Build (Some 3) "uuid-c" None level_filter
            (Some (json_dumps level_filter))),
     CatalogQuery.Table
       (CatalogQuery.rows two_rows
        ++ [CatalogQuery.Build (Some 3) "uuid-c" None level_filter
              (Some (json_dumps level_filter))])
       4).
Proof.
  apply (resolve_unknown_identifier_creates (H := example_digest)
           level_filter "uuid-c" None two_rows).
  - discriminate.
  - reflexivity.
  - repeat constructor; intros Hh; vm_compute in Hh; discriminate.
Defined.

Lemma resolve_without_identifier_returns_match_witness :
  find_and_modify_catalog_query (H := example_digest) course_filter
    (Some "") (Some "another title") two_rows
  = (inr row_b, two_rows).
Proof.
  apply (resolve_without_identifier_returns_match (H := example_digest)
           course_filter (Some "") (Some "another title") two_rows row_b).
  - by right.
  - exact two_rows_unique_hashes.
  - apply list_elem_of_In. simpl. auto.
  - reflexivity.
Defined.

Lemma resolve_keeps_table_ok_witness :
  catalog_query_table_ok
    (find_and_modify_catalog_query (H := example_digest) level_filter
       None (Some "levels") two_rows).2.
Proof.
  exact (resolve_keeps_table_ok (H := example_digest) level_filter None
           (Some "levels") two_rows two_rows_table_ok).
Defined.

Lemma resolve_failure_writes_nothing_witness :
  exists (e : exn) (db' : CatalogQuery.table),
    find_and_modify_catalog_query (H := example_digest) course_filter
      (Some "uuid-a") (Some "renamed") two_rows = (inl e, db')
    /\ db' = two_rows.
Proof.
  eexists _, _. split; [by vm_compute|].
  apply (resolve_failure_writes_nothing (H := example_digest) course_filter
           (Some "uuid-a") (Some "renamed") two_rows
           (ValidationError "catalog_query" "content_filter_hash is not unique"
              HTTP_422_UNPROCESSABLE_ENTITY)).
  by vm_compute.
Defined.

Lemma resolve_returns_stored_row_witness :
  exists (q : CatalogQuery.t) (db' : CatalogQuery.table),
    find_and_modify_catalog_query (H := example_digest) level_filter
      None (Some "levels") two_rows = (inr q, db')
    /\ q ∈ CatalogQuery.rows db'
    /\ CatalogQuery.content_filter_hash q = Some (json_dumps level_filter).
Proof.
  eexists _, _. split; [by vm_compute|].
  apply (resolve_returns_stored_row (H := example_digest) level_filter
           None (Some "levels") two_rows).
  by vm_compute.
Defined.

(** * More on the projector *)
Section ProjectorOutput.
Context `{ProjectorEnv}.

Lemma dict_get_set_neq (k k' : string) (v : val) (items : list (string * val)) :
  k' <> k -> dict_get k' (dict_set k v items) = dict_get k' items.
Proof. intros Hne. apply dict_get_set_ne. by apply String.eqb_neq. Qed.

(** The items of the projected dictionary, whatever the content type. *)
Lemma to_representation_items (enterprise_catalog : EnterpriseCatalog.t)
    (inst : instance) (h : heap) (l0 : loc) (items : list (string * val)) :
  json_metadata inst = VRef l0 -> h !! l0 = Some (ODict items) ->
  projectable h inst = true ->
  exists (h' : heap) (out_items : list (string * val)),
    to_representation enterprise_catalog inst h
    = (inr (VRef (List.length h)), h')
    /\ h' !! List.length h = Some (ODict out_items)
    /\ (out_items = marketed_items enterprise_catalog inst h items
        \/ out_items
           = dict_set "enrollment_url"
               (get_content_enrollment_url enterprise_catalog PROGRAM
                  (default VNone (dict_get "key" items))
                  (get_parent_content_key (h ++ [ODict items])
                     (VRef (List.length h))))
               (marketed_items enterprise_catalog inst h items)
        \/ out_items = enrolled_items enterprise_catalog inst h items
        \/ exists b : bool,
             out_items
             = dict_set "active" (VBool b)
                 (enrolled_items enterprise_catalog inst h items)).
Proof.
  intros Hmd Hl Hp. apply projectable_inv in Hp
    as (l1 & items1 & Hmd1 & Hl1 & Hcases).
  assert (l1 = l0) as -> by congruence.
  assert (items1 = items) as -> by congruence.
  destruct Hcases as [Hother|(Hcourse & runs & Hruns & Hdicts)].
  - eexists _, _. split.
    + by apply (to_representation_other enterprise_catalog inst h l0 items).
    + split; [apply heap_lookup_fresh|].
      destruct (String.eqb (content_type inst) COURSE_RUN); [auto|].
      destruct (String.eqb (content_type inst) PROGRAM); auto.
  - destruct (to_representation_course enterprise_catalog inst h l0 items runs
                Hmd Hl Hcourse Hruns Hdicts) as (h' & Hrep & Hlen & _).
    eexists _, _. split; [exact Hrep|]. split.
    + rewrite <- Hlen. apply heap_lookup_fresh.
    + right. right. right. by eexists.
Qed.

(** X8: the projection adds or replaces five keys and nothing else: every
    other key of the stored metadata has in the projection the value it has
    in the record, and a key the record lacks stays absent. *)
Theorem projection_keeps_other_keys (enterprise_catalog : EnterpriseCatalog.t)
    (inst : instance) (h : heap) (l0 : loc) (items : list (string * val))
    (k : string) :
  json_metadata inst = VRef l0 -> h !! l0 = Some (ODict items) ->
  projectable h inst = true ->
  k ∉ ["content_last_modified"; "marketing_url"; "enrollment_url";
       "xapi_activity_id"; "active"] ->
  exists (out : val) (h' : heap),
    to_representation enterprise_catalog inst h = (inr out, h')
    /\ field h' out k = dict_get k items.
Proof.
  intros Hmd Hl Hp Hk.
  repeat (apply not_elem_of_cons in Hk as [? Hk]).
  destruct (to_representation_items enterprise_catalog inst h l0 items
              Hmd Hl Hp) as (h' & out_items & Hrep & Hout & Hitems).
  eexists _, _. split; [exact Hrep|]. unfold field. rewrite Hout.
  assert (Hm : dict_get k (marketed_items enterprise_catalog inst h items)
               = dict_get k items).
  { unfold marketed_items, dated_items. cbv zeta.
    destruct (truthy _ _); by rewrite ?dict_get_set_neq. }
  destruct Hitems as [-> | [-> | [-> | [b ->]]]]; unfold enrolled_items;
    by rewrite ?dict_get_set_neq.
Qed.

(** X9: a marketing URL that is a non-empty string is replaced, in the
    projection, by [update_query_parameters] of it and the UTM context of
    the enterprise name; when the record has no marketing URL, or a null or
    empty one, the projection has under that key what the record has. *)
Theorem projection_marketing_url (enterprise_catalog : EnterpriseCatalog.t)
    (inst : instance) (h : heap) (l0 : loc) (items : list (string * val)) :
  json_metadata inst = VRef l0 -> h !! l0 = Some (ODict items) ->
  projectable h inst = true ->
  exists (out : val) (h' : heap),
    to_representation enterprise_catalog inst h = (inr out, h')
    /\ (forall url : string,
           dict_get "marketing_url" items = Some (VStr url) -> url <> "" ->
           field h' out "marketing_url"
           = Some (update_query_parameters (VStr url)
                     (get_enterprise_utm_context
                        (EnterpriseCatalog.enterprise_name enterprise_catalog))))
    /\ (dict_get "marketing_url" items = None
        \/ dict_get "marketing_url" items = Some VNone
        \/ dict_get "marketing_url" items = Some (VStr "") ->
        field h' out "marketing_url" = dict_get "marketing_url" items).
Proof.
  intros Hmd Hl Hp.
  destruct (to_representation_items enterprise_catalog inst h l0 items
              Hmd Hl Hp) as (h' & out_items & Hrep & Hout & Hitems).
  eexists _, _. split; [exact Hrep|]. unfold field. rewrite Hout.
  assert (Hsame : dict_get "marketing_url" out_items
                  = dict_get "marketing_url"
                      (marketed_items enterprise_catalog inst h items)).
  { destruct Hitems as [-> | [-> | [-> | [b ->]]]]; unfold enrolled_items;
      by rewrite ?dict_get_set_ne. }
  rewrite Hsame. unfold marketed_items, dated_items. cbv zeta. split.
  - intros url Hurl Hne. rewrite Hurl. simpl.
    replace (String.eqb url "") with false
      by (symmetry; by apply String.eqb_neq).
    simpl. apply dict_get_set_eq.
  - intros [Hnone | [Hnone | Hnone]]; rewrite Hnone; simpl;
      by rewrite dict_get_set_ne.
Qed.

(** X10: for a program the enrollment URL of the projection is built with
    the resource [PROGRAM], from the record's [key] (or [None] when the
    metadata has none) and its parent key; no activity identifier and no
    active flag are added, and the stored objects are left as they were. *)
Theorem projection_of_program (enterprise_catalog : EnterpriseCatalog.t)
    (inst : instance) (h : heap) (l0 : loc) (items : list (string * val)) :
  json_metadata inst = VRef l0 -> h !! l0 = Some (ODict items) ->
  content_type inst = PROGRAM ->
  exists (out : val) (h' : heap),
    to_representation enterprise_catalog inst h = (inr out, h')
    /\ field h' out "enrollment_url"
       = Some (get_content_enrollment_url enterprise_catalog PROGRAM
                 (default VNone (dict_get "key" items))
                 (get_parent_content_key (h ++ [ODict items])
                    (VRef (List.length h))))
    /\ field h' out "xapi_activity_id" = dict_get "xapi_activity_id" items
    /\ field h' out "active" = dict_get "active" items
    /\ (forall l : loc, l < List.length h -> h' !! l = h !! l).
Proof.
  intros Hmd Hl Hct. eexists _, _. split.
  - apply (to_representation_other enterprise_catalog inst h l0 items Hmd Hl).
    by rewrite Hct.
  - rewrite Hct.
    change (String.eqb PROGRAM COURSE_RUN) with false.
    change (String.eqb PROGRAM PROGRAM) with true.
    cbv iota. rewrite !field_fresh.
    assert (Hm : forall k,
               String.eqb k "content_last_modified" = false ->
               String.eqb k "marketing_url" = false ->
               dict_get k (marketed_items enterprise_catalog inst h items)
               = dict_get k items)
      by (intros k; apply dict_get_marketed).
    split; [apply dict_get_set_eq|].
    split; [by rewrite dict_get_set_ne, Hm|].
    split; [by rewrite dict_get_set_ne, Hm|].
    intros l Hlt. by apply lookup_app_l.
Qed.
End ProjectorOutput.

Section NestedRunsFacts.
Context `{ProjectorEnv}.

Lemma dict_set_set (k : string) (v v' : val) (items : list (string * val)) :
  dict_set k v (dict_set k v' items) = dict_set k v items.
Proof.
  induction items as [|[k0 v0] items IH]; simpl.
  - by rewrite String.eqb_refl.
  - destruct (String.eqb k k0) eqn:Hk; simpl.
    + by rewrite String.eqb_refl.
    + by rewrite Hk, IH.
Qed.

Lemma enroll_course_runs_heap (enterprise_catalog : EnterpriseCatalog.t)
    (course_key : val) (h : heap) (runs : list val) :
  forall (seen : list val) (g : heap),
    (forall l, g !! l = enrolled_object enterprise_catalog course_key seen h l) ->
    forallb (is_dict_ref h) runs = true ->
    exists g' : heap,
      enroll_course_runs enterprise_catalog course_key runs g = (inr tt, g')
      /\ forall l, g' !! l
                   = enrolled_object enterprise_catalog course_key
                       (seen ++ runs) h l.
Proof.
  induction runs as [|run runs IH]; intros seen g Hg Hruns.
  - exists g. split; [done|]. by rewrite app_nil_r.
  - simpl in Hruns. apply andb_prop in Hruns as [Hrun Hruns].
    destruct run as [| | | | |l0]; simpl in Hrun; try done.
    destruct (h !! l0) as [[its|]|] eqn:Hl0; try done.
    set (url := get_content_enrollment_url enterprise_catalog COURSE
                  (default VNone (dict_get "key" its)) course_key).
    assert (Hg0 : exists its', g !! l0 = Some (ODict its')
                   /\ dict_get "key" its' = dict_get "key" its
                   /\ dict_set "enrollment_url" url its'
                      = dict_set "enrollment_url" url its).
    { rewrite Hg. unfold enrolled_object. rewrite Hl0.
      destruct (existsb (refers_to l0) seen); eexists; split; try done.
      split; [by rewrite dict_get_set_ne|]. apply dict_set_set. }
    destruct Hg0 as (its' & Hgl0 & Hkey & Hset).
    destruct (IH (seen ++ [VRef l0])
                 (<[l0 := ODict (dict_set "enrollment_url" url its)]> g))
      as (g' & Hloop & Hg'); [|done|].
    + intros l. unfold enrolled_object.
      rewrite existsb_app. simpl. rewrite orb_false_r.
      destruct (Nat.eqb l l0) eqn:Hll0.
      * apply Nat.eqb_eq in Hll0 as ->.
        rewrite list_lookup_insert_eq by (by eapply lookup_lt_Some).
        by rewrite Hl0, orb_true_r.
      * apply Nat.eqb_neq in Hll0.
        rewrite list_lookup_insert_ne by done.
        rewrite orb_false_r. apply Hg.
    + exists g'. split.
      * simpl. rewrite Hgl0. simpl. rewrite Hkey. fold url. by rewrite Hset.
      * intros l. rewrite Hg'. by rewrite <- app_assoc.
Qed.

Lemma enrolled_object_nil (enterprise_catalog : EnterpriseCatalog.t)
    (course_key : val) (h : heap) (l : loc) :
  enrolled_object enterprise_catalog course_key [] h l = h !! l.
Proof.
  unfold enrolled_object. by destruct (h !! l) as [[]|].
Qed.

(** The heap a course is projected into, location by location. *)
Lemma to_representation_course_heap (enterprise_catalog : EnterpriseCatalog.t)
    (inst : instance) (h : heap) (l0 : loc) (items : list (string * val))
    (runs : list val) :
  json_metadata inst = VRef l0 -> h !! l0 = Some (ODict items) ->
  content_type inst = COURSE ->
  nested_course_runs h items = Some runs ->
  forallb (is_dict_ref h) runs = true ->
  exists (out : val) (h' : heap),
    to_representation enterprise_catalog inst h = (inr out, h')
    /\ forall l : loc, l < List.length h ->
         h' !! l
         = enrolled_object enterprise_catalog
             (default VNone (dict_get "key" items)) runs h l.
Proof.
  intros Hmd Hl Hct Hruns Hdicts.
  assert (Hcourse : String.eqb (content_type inst) COURSE = true)
    by (by apply String.eqb_eq).
  destruct (to_representation_course enterprise_catalog inst h l0 items runs
              Hmd Hl Hcourse Hruns Hdicts) as (h1 & Hrep & Hlen & Hloop).
  destruct (enroll_course_runs_heap enterprise_catalog
              (default VNone (dict_get "key" items)) h runs [] h)
    as (g' & Hloop' & Hg'); [|done|].
  { intros l. by rewrite enrolled_object_nil. }
  assert (g' = h1) as -> by congruence.
  eexists _, _. split; [exact Hrep|].
  intros l Hlt. rewrite lookup_app_l by lia. apply Hg'.
Qed.

Lemma existsb_refers_to (l : loc) (runs : list val) :
  existsb (refers_to l) runs = true <-> VRef l ∈ runs.
Proof.
  rewrite existsb_exists, list_elem_of_In. split.
  - intros (v & Hv & Hr). destruct v; simpl in Hr; try done.
    apply Nat.eqb_eq in Hr. by subst.
  - intros Hin. exists (VRef l). split; [done|]. simpl. apply Nat.eqb_refl.
Qed.

(** X11: projecting a course writes into the stored record: every nested
    run of the course carries, after the call, an enrollment URL built with
    the resource [COURSE] from the run's own [key] and parented to the key
    of the course. *)
Theorem projection_enrolls_nested_runs (enterprise_catalog : EnterpriseCatalog.t)
    (inst : instance) (h : heap) (l0 : loc) (items : list (string * val))
    (runs : list val) :
  json_metadata inst = VRef l0 -> h !! l0 = Some (ODict items) ->
  content_type inst = COURSE ->
  nested_course_runs h items = Some runs ->
  forallb (is_dict_ref h) runs = true ->
  exists (out : val) (h' : heap),
    to_representation enterprise_catalog inst h = (inr out, h')
    /\ forall (l : loc) (its : list (string * val)),
         VRef l ∈ runs -> h !! l = Some (ODict its) ->
         field h' (VRef l) "enrollment_url"
         = Some (get_content_enrollment_url enterprise_catalog COURSE
                   (default VNone (dict_get "key" its))
                   (default VNone (dict_get "key" items))).
Proof.
  intros Hmd Hl Hct Hruns Hdicts.
  destruct (to_representation_course_heap enterprise_catalog inst h l0 items
              runs Hmd Hl Hct Hruns Hdicts) as (out & h' & Hrep & Hheap).
  exists out, h'. split; [done|]. intros l its Hin Hlits.
  unfold field. rewrite Hheap by (by eapply lookup_lt_Some).
  unfold enrolled_object. rewrite Hlits.
  rewrite (proj2 (existsb_refers_to l runs) Hin). apply dict_get_set_eq.
Qed.

(** X12: projecting a course changes nothing else in the stored heap: an
    object that is not one of the nested runs is what it was, and in a
    nested run every key other than [enrollment_url] keeps its value. *)
Theorem projection_frame_on_stored_objects
    (enterprise_catalog : EnterpriseCatalog.t)
    (inst : instance) (h : heap) (l0 : loc) (items : list (string * val))
    (runs : list val) :
  json_metadata inst = VRef l0 -> h !! l0 = Some (ODict items) ->
  content_type inst = COURSE ->
  nested_course_runs h items = Some runs ->
  forallb (is_dict_ref h) runs = true ->
  exists (out : val) (h' : heap),
    to_representation enterprise_catalog inst h = (inr out, h')
    /\ forall l : loc, l < List.length h ->
         (VRef l ∉ runs -> h' !! l = h !! l)
         /\ (forall k : string, k <> "enrollment_url" ->
             field h' (VRef l) k = field h (VRef l) k).
Proof.
  intros Hmd Hl Hct Hruns Hdicts.
  destruct (to_representation_course_heap enterprise_catalog inst h l0 items
              runs Hmd Hl Hct Hruns Hdicts) as (out & h' & Hrep & Hheap).
  exists out, h'. split; [done|]. intros l Hlt. split.
  - intros Hnot. rewrite Hheap by done. unfold enrolled_object.
    destruct (existsb (refers_to l) runs) eqn:Hex.
    + by apply existsb_refers_to in Hex.
    + by destruct (h !! l) as [[]|].
  - intros k Hk. unfold field. rewrite Hheap by done. unfold enrolled_object.
    destruct (h !! l) as [[its|]|]; try done.
    destruct (existsb (refers_to l) runs); [|done].
    by rewrite dict_get_set_neq.
Qed.
End NestedRunsFacts.

Section ProjectorFailure.
Context `{ProjectorEnv}.

(** X13: a record whose [json_metadata] is not a dictionary (the column is
    nullable) cannot be projected: the call raises AttributeError, whatever
    the content type, and the stored objects are left as they were. *)
Theorem projection_rejects_non_dict_metadata
    (enterprise_catalog : EnterpriseCatalog.t) (inst : instance) (h : heap) :
  is_dict_ref h (json_metadata inst) = false ->
  exists h' : heap,
    to_representation enterprise_catalog inst h = (inl AttributeError, h')
    /\ forall l : loc, l < List.length h -> h' !! l = h !! l.
Proof.
  intros Hnot. unfold to_representation, copy, alloc.
  destruct (json_metadata inst) as [| | | | |l0]; try by exists h.
  simpl in Hnot. destruct (h !! l0) as [[items|elems]|] eqn:Hl0;
    [done| |by exists h].
  exists (h ++ [OList elems]). split.
  - unfold getattr_get. by rewrite heap_lookup_fresh.
  - intros l Hlt. by apply lookup_app_l.
Qed.
End ProjectorFailure.

(** * More of the projector on the small heap *)

Lemma projection_keeps_other_keys_witness :
  exists (out : val) (h' : heap),
    to_representation (H := example_projector_env) demo_catalog
      demo_run_instance demo_run_heap = (inr out, h')
    /\ field h' out "course" = Some (VStr "edX+DemoX").
Proof.
  apply (projection_keeps_other_keys (H := example_projector_env) demo_catalog
           demo_run_instance demo_run_heap 0 _ "course" eq_refl eq_refl eq_refl).
  apply not_elem_of_cons. split; [discriminate|].
  apply not_elem_of_cons. split; [discriminate|].
  apply not_elem_of_cons. split; [discriminate|].
  apply not_elem_of_cons. split; [discriminate|].
  apply not_elem_of_cons. split; [discriminate|].
  apply not_elem_of_nil.
Defined.

Lemma projection_marketing_url_witness :
  exists (out : val) (h' : heap),
    to_representation (H := example_projector_env) demo_catalog
      demo_course_instance demo_course_heap = (inr out, h')
    /\ field h' out "marketing_url"
       = Some (VStr "https://example.com/course?ref=1&utm_medium=enterprise&utm_source=Acme").
Proof.
  destruct (projection_marketing_url (H := example_projector_env) demo_catalog
              demo_course_instance demo_course_heap 3 _ eq_refl eq_refl eq_refl)
    as (out & h' & Hrep & Hurl & _).
  exists out, h'. split; [exact Hrep|].
  apply (Hurl "https://example.com/course?ref=1"); [reflexivity|discriminate].
Defined.

Lemma projection_of_program_witness :
  exists (out : val) (h' : heap),
    to_representation (H := example_projector_env) demo_catalog
      (Instance PROGRAM (VRef 0) 70) [ODict [("title", VStr "A program")]]
    = (inr out, h')
    /\ field h' out "enrollment_url"
       = Some (VStr "/enterprise/enterprise-1/program//enroll/?catalog=catalog-1&parent=")
    /\ field h' out "xapi_activity_id" = None
    /\ field h' out "active" = None
    /\ (forall l : loc, l < 1 ->
        h' !! l = [ODict [("title", VStr "A program")]] !! l).
Proof.
  exact (projection_of_program (H := example_projector_env) demo_catalog
           (Instance PROGRAM (VRef 0) 70) [ODict [("title", VStr "A program")]]
           0 _ eq_refl eq_refl eq_refl).
Defined.

Lemma projection_enrolls_nested_runs_witness :
  exists (out : val) (h' : heap),
    to_representation (H := example_projector_env) demo_catalog
      demo_course_instance demo_course_heap = (inr out, h')
    /\ field h' (VRef 1) "enrollment_url"
       = Some (VStr "/enterprise/enterprise-1/course/course-v1:edX+DemoX+2T/enroll/?catalog=catalog-1&parent=edX+DemoX").
Proof.
  destruct (projection_enrolls_nested_runs (H := example_projector_env)
              demo_catalog demo_course_instance demo_course_heap 3 _
              [VRef 0; VRef 1] eq_refl eq_refl eq_refl eq_refl eq_refl)
    as (out & h' & Hrep & Hruns).
  exists out, h'. split; [exact Hrep|].
  apply (Hruns 1 [("key", VStr "course-v1:edX+DemoX+2T");
                  ("status", VStr "published")]); [|reflexivity].
  apply list_elem_of_In. simpl. auto.
Defined.

Lemma projection_frame_on_stored_objects_witness :
  exists (out : val) (h' : heap),
    to_representation (H := example_projector_env) demo_catalog
      demo_course_instance demo_course_heap = (inr out, h')
    /\ h' !! 3 = demo_course_heap !! 3
    /\ field h' (VRef 1) "status" = Some (VStr "published").
Proof.
  destruct (projection_frame_on_stored_objects (H := example_projector_env)
              demo_catalog demo_course_instance demo_course_heap 3 _
              [VRef 0; VRef 1] eq_refl eq_refl eq_refl eq_refl eq_refl)
    as (out & h' & Hrep & Hframe).
  exists out, h'. split; [exact Hrep|]. split.
  - apply (Hframe 3); [simpl; lia|].
    rewrite list_elem_of_In. simpl. intros [Heq|[Heq|[]]]; discriminate.
  - rewrite (proj2 (Hframe 1 ltac:(simpl; lia)) "status"); [reflexivity|].
    discriminate.
Defined.

Lemma projection_rejects_non_dict_metadata_witness :
  exists h' : heap,
    to_representation (H := example_projector_env) demo_catalog
      (Instance COURSE VNone 70) [] = (inl AttributeError, h')
    /\ forall l : loc, l < 0 -> h' !! l = ([] : heap) !! l.
Proof.
  exact (projection_rejects_non_dict_metadata (H := example_projector_env)
           demo_catalog (Instance COURSE VNone 70) [] eq_refl).
Defined.

(** * More on the discovery sync *)
Section SyncTable.
Import ContentMetadata.

Lemma cm_replace_row_split (pk : nat) (q : t) (rs : list t) (obj : t) :
  NoDup (map id rs) -> obj ∈ rs -> id obj = Some pk ->
  exists l1 l2 : list t,
    rs = l1 ++ obj :: l2 /\ replace_row pk q rs = l1 ++ q :: l2
    /\ Forall (fun r => id r <> Some pk) (l1 ++ l2).
Proof.
  intros Hnd Hin Hid. apply list_elem_of_split in Hin as (l1 & l2 & ->).
  exists l1, l2. split; [done|].
  rewrite map_app in Hnd. simpl in Hnd.
  apply NoDup_app in Hnd as (Hnd1 & Hdisj & Hnd2).
  apply NoDup_cons in Hnd2 as [Hnot2 _].
  assert (H1 : Forall (fun r => id r <> Some pk) l1).
  { apply Forall_forall. intros r Hr Hrpk.
    apply (Hdisj (id r)); [by apply list_elem_of_fmap_2|].
    rewrite Hrpk, <- Hid. by left. }
  assert (H2 : Forall (fun r => id r <> Some pk) l2).
  { apply Forall_forall. intros r Hr Hrpk. apply Hnot2.
    rewrite Hid, <- Hrpk. by apply list_elem_of_fmap_2. }
  assert (Hsame : forall l, Forall (fun r => id r <> Some pk) l ->
                            replace_row pk q l = l).
  { intros l Hl. unfold replace_row. induction Hl as [|r l Hr _ IH]; [done|].
    simpl. rewrite IH. unfold has_pk.
    by rewrite (proj2 (bool_decide_eq_false _) Hr). }
  split; [|by apply Forall_app].
  unfold replace_row in *. rewrite map_app. simpl.
  rewrite (Hsame l1 H1), (Hsame l2 H2). unfold has_pk.
  by rewrite (proj2 (bool_decide_eq_true _) Hid).
Qed.

Lemma cm_get_by_payload_inr (entry : json) (db : table) (obj : t) :
  get_by_payload entry db = inr obj ->
  List.filter (has_payload entry) (rows db) = [obj]
  /\ obj ∈ rows db /\ json_metadata obj = entry.
Proof.
  unfold get_by_payload.
  destruct (List.filter (has_payload entry) (rows db)) as [|r0 [|r1 l]] eqn:Hf;
    try discriminate.
  intros [= <-]. split; [done|].
  assert (Hin : In r0 (List.filter (has_payload entry) (rows db)))
    by (rewrite Hf; by left).
  apply filter_In in Hin as [Hin Hp]. split; [by apply list_elem_of_In|].
  by apply json_eqb_eq.
Qed.

Lemma cm_get_by_payload_none (entry : json) (db : table) :
  get_by_payload entry db = inl DoesNotExist ->
  List.filter (has_payload entry) (rows db) = [].
Proof.
  unfold get_by_payload.
  by destruct (List.filter (has_payload entry) (rows db)) as [|r0 [|r1 l]].
Qed.

Lemma cm_table_ok_pk (db : table) (r : t) :
  content_metadata_table_ok db -> r ∈ rows db ->
  exists pk : nat, id r = Some pk /\ pk < next_id db.
Proof.
  intros (_ & _ & Hb) Hr. rewrite Forall_forall in Hb. by apply Hb.
Qed.

Lemma cm_key_taken_false (m : t) (rs : list t) :
  key_taken m rs = false ->
  forall r, r ∈ rs -> content_key r = content_key m -> id r = id m.
Proof.
  unfold key_taken. intros Ht r Hr Hk.
  destruct (decide (id r = id m)) as [|Hne]; [done|].
  assert (existsb (fun r0 => String.eqb (content_key r0) (content_key m)
                             && negb (bool_decide (id r0 = id m))) rs = true)
    as Hex; [|by rewrite Hex in Ht].
  apply existsb_exists. exists r. split; [by apply list_elem_of_In|].
  apply andb_true_intro. split; [by apply String.eqb_eq|].
  apply negb_true_iff. by apply bool_decide_eq_false.
Qed.

End SyncTable.

Section SyncIntegrity.
Import ContentMetadata.

Lemma cm_append_ok (q : t) (pk : nat) (db : table) (n : nat) :
  content_metadata_table_ok db -> id q = Some pk ->
  Some pk ∉ map id (rows db) -> key_taken q (rows db) = false ->
  pk < n -> next_id db <= n ->
  content_metadata_table_ok (Table (rows db ++ [q]) n).
Proof.
  intros (Hk & Hi & Hb) Hq Hfresh Htaken Hpk Hn. split; [|split]; simpl.
  - rewrite map_app. simpl. apply NoDup_app. split; [done|].
    split; [|apply NoDup_singleton].
    intros z Hz Hzq. apply list_elem_of_singleton in Hzq as ->.
    apply list_elem_of_fmap in Hz as (r & Hr & Hin).
    apply Hfresh. rewrite <- Hq.
    rewrite <- (cm_key_taken_false q (rows db) Htaken r Hin (eq_sym Hr)).
    by apply list_elem_of_fmap_2.
  - rewrite map_app. simpl. apply NoDup_app. split; [done|].
    split; [|apply NoDup_singleton].
    intros z Hz Hzq. apply list_elem_of_singleton in Hzq as ->.
    by rewrite Hq in Hz.
  - apply Forall_app. split.
    + eapply Forall_impl; [exact Hb|].
      intros r (pk0 & Hpk0 & Hlt). exists pk0. split; [done|]. lia.
    + constructor; [|constructor]. by exists pk.
Qed.

Lemma cm_replace_ok (q : t) (pk : nat) (db : table) :
  content_metadata_table_ok db -> id q = Some pk ->
  existsb (has_pk pk) (rows db) = true -> key_taken q (rows db) = false ->
  content_metadata_table_ok (Table (replace_row pk q (rows db)) (next_id db)).
Proof.
  intros (Hk & Hi & Hb) Hq Hex Htaken.
  apply existsb_exists in Hex as (obj & Hobj & Hpk).
  apply list_elem_of_In in Hobj.
  unfold has_pk in Hpk. apply bool_decide_eq_true in Hpk.
  destruct (cm_replace_row_split pk q (rows db) obj Hi Hobj Hpk)
    as (l1 & l2 & Hrows & Hrep & Hothers).
  rewrite Forall_forall in Hb.
  destruct (Hb obj Hobj) as (pk0 & Hpk0 & Hlt).
  assert (pk0 = pk) as -> by congruence.
  split; [|split]; simpl; rewrite Hrep.
  - rewrite Hrows in Hk. rewrite map_app in *. simpl in *.
    apply NoDup_app in Hk as (Hk1 & Hdisj & Hk2).
    apply NoDup_cons in Hk2 as [_ Hk2].
    assert (Hfree : forall r, r ∈ l1 ++ l2 -> content_key r <> content_key q).
    { intros r Hr Hrk. rewrite Forall_forall in Hothers.
      apply (Hothers r Hr). rewrite <- Hq.
      apply (cm_key_taken_false q (rows db) Htaken r); [|done].
      rewrite Hrows. apply elem_of_app in Hr as [Hr|Hr];
        apply elem_of_app; [by left|right; by right]. }
    apply NoDup_app. split; [done|]. split.
    + intros z Hz Hzin. apply elem_of_cons in Hzin as [->|Hzin].
      * apply list_elem_of_fmap in Hz as (r & Hr & Hin).
        apply (Hfree r); [apply elem_of_app; by left|done].
      * apply (Hdisj z Hz). by right.
    + apply NoDup_cons. split; [|done].
      intros Hz. apply list_elem_of_fmap in Hz as (r & Hr & Hin).
      apply (Hfree r); [apply elem_of_app; by right|done].
  - rewrite Hrows in Hi. rewrite map_app in *. simpl in *.
    by rewrite Hq, <- Hpk.
  - apply Forall_forall. intros r Hr.
    apply elem_of_app in Hr as [Hr|Hr].
    + apply Hb. rewrite Hrows. apply elem_of_app. by left.
    + apply elem_of_cons in Hr as [->|Hr]; [by exists pk|].
      apply Hb. rewrite Hrows. apply elem_of_app. right. by right.
Qed.

Lemma cm_fresh_counter (db : table) :
  content_metadata_table_ok db -> Some (next_id db) ∉ map id (rows db).
Proof.
  intros (_ & _ & Hb) Hin. apply list_elem_of_fmap in Hin as (r & Hr & Hin).
  rewrite Forall_forall in Hb. destruct (Hb r Hin) as (pk0 & Hpk0 & Hlt).
  rewrite Hpk0 in Hr. injection Hr as Heq. lia.
Qed.

Lemma cm_existsb_has_pk_ids (pk : nat) (rs : list t) :
  existsb (has_pk pk) rs = true <-> Some pk ∈ map id rs.
Proof.
  rewrite existsb_exists, list_elem_of_In, in_map_iff. unfold has_pk.
  split; intros (r & H1 & H2); exists r.
  - by apply bool_decide_eq_true in H2.
  - split; [done|]. by apply bool_decide_eq_true.
Qed.

Lemma cm_save_keeps_table_ok (force_insert : bool) (self : t) (db : table) :
  content_metadata_table_ok db ->
  content_metadata_table_ok (save force_insert self db).2.
Proof.
  intros Hok. unfold save. destruct (id self) as [pk|] eqn:Hid.
  - destruct (negb force_insert && existsb (has_pk pk) (rows db)) eqn:Hupd.
    + destruct (key_taken _ _) eqn:Htaken; simpl; [done|].
      apply andb_prop in Hupd as [_ Hex]. by apply (cm_replace_ok self pk).
    + destruct (existsb (has_pk pk) (rows db)) eqn:Hex; simpl; [done|].
      destruct (key_taken _ _) eqn:Htaken; simpl; [done|].
      apply (cm_append_ok self pk); try done; try lia.
      intros Hin. apply cm_existsb_has_pk_ids in Hin. congruence.
  - destruct (key_taken _ _) eqn:Htaken; simpl; [done|].
    apply (cm_append_ok _ (next_id db)); try done; try lia.
    by apply cm_fresh_counter.
Qed.
End SyncIntegrity.

Section SyncSteps.
Context `{Discovery}.
Import ContentMetadata.

(** One turn of the loop, case by case: a failure writes nothing; a success
    either rewrites the key of the one row holding the payload or appends a
    row for it. *)
Lemma sync_entry_cases (entry : json) (db : table) :
  content_metadata_table_ok db ->
  match sync_entry entry db with
  | (inl _, db') => db' = db
  | (inr _, db') =>
      exists k : string,
        entry_key entry = inr (Some k)
        /\ ((exists (obj : t) (pk : nat),
               List.filter (has_payload entry) (rows db) = [obj]
               /\ id obj = Some pk
               /\ key_taken (set_content_key k obj) (rows db) = false
               /\ db' = Table (replace_row pk (set_content_key k obj) (rows db))
                          (next_id db))
            \/ (List.filter (has_payload entry) (rows db) = []
                /\ key_taken (Build (Some (next_id db)) k "" None entry) (rows db)
                   = false
                /\ db' = Table (rows db ++ [Build (Some (next_id db)) k "" None entry])
                           (S (next_id db))))
  end.
Proof.
  intros Hok. unfold sync_entry.
  destruct (entry_key entry) as [e|[k|]] eqn:Hkey; [done| |].
  - unfold update_or_create.
    destruct (get_by_payload entry db) as [e|obj] eqn:Hget.
    + destruct e; try done.
      apply cm_get_by_payload_none in Hget.
      unfold save_with_key, save. simpl.
      destruct (key_taken _ _) eqn:Htaken.
      * unfold get_by_payload. by rewrite Hget.
      * exists k. split; [done|]. right. by repeat split.
    + apply cm_get_by_payload_inr in Hget as (Hf & Hin & Hpay).
      destruct (cm_table_ok_pk db obj Hok Hin) as (pk & Hpk & Hlt).
      unfold save_with_key, save. simpl. rewrite Hpk. simpl.
      assert (Hex : existsb (has_pk pk) (rows db) = true).
      { apply cm_existsb_has_pk_ids. rewrite <- Hpk.
        by apply list_elem_of_fmap_2. }
      rewrite Hex.
      destruct (key_taken _ _) eqn:Htaken; [done|].
      exists k. split; [done|]. left. exists obj, pk. by repeat split.
  - unfold update_or_create, save_with_key.
    destruct (get_by_payload entry db) as [e|obj] eqn:Hget.
    + by destruct e.
    + done.
Qed.

Lemma sync_entry_keeps_table_ok (entry : json) (db : table) :
  content_metadata_table_ok db ->
  content_metadata_table_ok (sync_entry entry db).2.
Proof.
  intros Hok. pose proof (sync_entry_cases entry db Hok) as Hc.
  destruct (sync_entry entry db) as [[e|[]] db']; simpl.
  - by subst.
  - destruct Hc as (k & _ & [(obj & pk & Hf & Hpk & Htaken & ->)
                            |(Hf & Htaken & ->)]).
    + apply (cm_replace_ok _ pk); try done.
      apply cm_existsb_has_pk_ids. rewrite <- Hpk.
      apply list_elem_of_fmap_2.
      assert (Hin : In obj (List.filter (has_payload entry) (rows db)))
        by (rewrite Hf; by left).
      apply filter_In in Hin as [Hin _]. by apply list_elem_of_In.
    + apply (cm_append_ok _ (next_id db)); try done; try lia.
      by apply cm_fresh_counter.
Qed.

Lemma sync_entries_keeps_table_ok (entries : list json) :
  forall db : table,
    content_metadata_table_ok db ->
    content_metadata_table_ok (sync_entries entries db).2.
Proof.
  induction entries as [|entry entries IH]; intros db Hok; [done|].
  simpl. pose proof (sync_entry_keeps_table_ok entry db Hok) as Hstep.
  destruct (sync_entry entry db) as [[e|[]] db']; simpl in *; [done|].
  by apply IH.
Qed.

End SyncSteps.

Section SyncIdempotence.
Context `{Discovery}.
Import ContentMetadata.



Lemma filter_in_rows (entry : json) (rs : list t) (obj : t) :
  List.filter (has_payload entry) rs = [obj] -> obj ∈ rs.
Proof.
  intros Hf.
  assert (Hin : In obj (List.filter (has_payload entry) rs))
    by (rewrite Hf; by left).
  apply filter_In in Hin as [Hin _]. by apply list_elem_of_In.
Qed.







End SyncIdempotence.

Section SyncJob.
Context `{Discovery}.
Import ContentMetadata.

Lemma same_but_key_refl (r : t) : same_but_key r r.
Proof. by repeat split. Qed.

Lemma same_but_key_trans (r1 r2 r3 : t) :
  same_but_key r1 r2 -> same_but_key r2 r3 -> same_but_key r1 r3.
Proof.
  intros (A1 & A2 & A3 & A4) (B1 & B2 & B3 & B4).
  repeat split; congruence.
Qed.

Lemma Forall2_same_but_key_refl (rs : list t) : Forall2 same_but_key rs rs.
Proof. induction rs; constructor; auto using same_but_key_refl. Qed.

Lemma grown_from_refl (db : table) : grown_from db db.
Proof.
  exists (rows db), []. split; [by rewrite app_nil_r|].
  apply Forall2_same_but_key_refl.
Qed.

Lemma grown_from_trans (db1 db2 db3 : table) :
  grown_from db1 db2 -> grown_from db2 db3 -> grown_from db1 db3.
Proof.
  intros (u1 & a1 & Hr2 & H12) (u2 & a2 & Hr3 & H23).
  rewrite Hr2 in H23. apply Forall2_app_inv_l in H23 as (k1 & k2 & Hk1 & Hk2 & ->).
  exists k1, (k2 ++ a2). split; [by rewrite Hr3, app_assoc|].
  eapply Forall2_trans; [|exact H12|exact Hk1].
  apply same_but_key_trans.
Qed.

Lemma sync_entry_grows (entry : json) (db : table) :
  content_metadata_table_ok db -> grown_from db (sync_entry entry db).2.
Proof.
  intros Hok. pose proof (sync_entry_cases entry db Hok) as Hc.
  destruct (sync_entry entry db) as [[e|[]] db']; simpl.
  - subst. apply grown_from_refl.
  - destruct Hc as (k & Hk & [(obj & pk & Hf & Hpk & Htaken & ->)
                             |(Hf & Htaken & ->)]).
    + destruct Hok as (_ & Hids & _).
      destruct (cm_replace_row_split pk (set_content_key k obj) (rows db) obj
                  Hids (filter_in_rows _ _ _ Hf) Hpk)
        as (l1 & l2 & Hrows & Hrep & _).
      exists (l1 ++ set_content_key k obj :: l2), [].
      split; [simpl; by rewrite Hrep, app_nil_r|].
      rewrite Hrows. apply Forall2_app; [apply Forall2_same_but_key_refl|].
      constructor; [by repeat split|apply Forall2_same_but_key_refl].
    + eexists (rows db), [_]. split; [done|].
      apply Forall2_same_but_key_refl.
Qed.

Lemma sync_entries_grows (entries : list json) :
  forall db : table,
    content_metadata_table_ok db -> grown_from db (sync_entries entries db).2.
Proof.
  induction entries as [|entry entries IH]; intros db Hok.
  - apply grown_from_refl.
  - simpl. pose proof (sync_entry_grows entry db Hok) as Hstep.
    pose proof (sync_entry_keeps_table_ok entry db Hok) as Hok1.
    destruct (sync_entry entry db) as [[e|[]] db']; simpl in *; [done|].
    eapply grown_from_trans; [exact Hstep|]. by apply IH.
Qed.

(** The job is the loop, once the catalog, its query and the answer of the
    discovery service have been read; none of these reads the table. *)
Lemma update_contentmetadata_from_discovery_loop (catalog_uuid : string)
    (catalogs : list EnterpriseCatalog.t) (queries : CatalogQuery.table) :
  (exists e : exn,
      forall db : table,
        update_contentmetadata_from_discovery catalog_uuid catalogs queries db
        = (inl e, db))
  \/ (exists entries : list json,
        forall db : table,
          update_contentmetadata_from_discovery catalog_uuid catalogs queries db
          = sync_entries entries db).
Proof.
  unfold update_contentmetadata_from_discovery.
  destruct (EnterpriseCatalog.get catalog_uuid catalogs) as [e|catalog];
    [left; by exists e|].
  destruct (EnterpriseCatalog.catalog_query catalog) as [fk|];
    [|left; by eexists].
  destruct (List.find _ _) as [query|]; [|left; by eexists].
  destruct (get_metadata_by_query _) as [e|metadata]; [left; by exists e|].
  destruct (results_of metadata) as [e|entries]; [left; by exists e|].
  right. by exists entries.
Qed.


(** X17: the sync keeps the integrity of the ContentMetadata table: content
    keys stay unique and primary keys set, distinct and below the counter,
    whether the job succeeds or stops on an error part-way. *)
Theorem sync_keeps_table_ok (catalog_uuid : string)
    (catalogs : list EnterpriseCatalog.t) (queries : CatalogQuery.table)
    (db : table) :
  content_metadata_table_ok db ->
  content_metadata_table_ok
    (update_contentmetadata_from_discovery catalog_uuid catalogs queries db).2.
Proof.
  intros Hok.
  destruct (update_contentmetadata_from_discovery_loop catalog_uuid catalogs
              queries) as [(e & He)|(entries & Hloop)].
  - by rewrite He.
  - rewrite Hloop. by apply sync_entries_keeps_table_ok.
Qed.

(** X18: the sync never deletes a row and never rewrites a stored payload:
    the table it leaves is the given table, row for row and in the same
    order, with at most the content keys changed, followed by the rows it
    added. *)
Theorem sync_only_appends (catalog_uuid : string)
    (catalogs : list EnterpriseCatalog.t) (queries : CatalogQuery.table)
    (db : table) :
  content_metadata_table_ok db ->
  grown_from db
    (update_contentmetadata_from_discovery catalog_uuid catalogs queries db).2.
Proof.
  intros Hok.
  destruct (update_contentmetadata_from_discovery_loop catalog_uuid catalogs
              queries) as [(e & He)|(entries & Hloop)].
  - rewrite He. apply grown_from_refl.
  - rewrite Hloop. by apply sync_entries_grows.
Qed.
End SyncJob.

(** * The sync on small tables *)

Lemma one_course_table_ok : content_metadata_table_ok one_course.
Proof.
  split; [|split]; simpl.
  - apply NoDup_singleton.
  - apply NoDup_singleton.
  - repeat constructor. exists 1. split; [reflexivity|simpl; lia].
Qed.

Lemma no_content_table_ok : content_metadata_table_ok no_content.
Proof. split; [|split]; simpl; constructor. Qed.



Lemma sync_keeps_table_ok_witness :
  content_metadata_table_ok
    (update_contentmetadata_from_discovery (H := example_discovery) "catalog-1"
       [demo_catalog] two_rows no_content).2.
Proof.
  exact (sync_keeps_table_ok (H := example_discovery) "catalog-1"
           [demo_catalog] two_rows no_content no_content_table_ok).
Defined.

Lemma sync_only_appends_witness :
  grown_from one_course
    (update_contentmetadata_from_discovery (H := example_discovery) "catalog-1"
       [demo_catalog] two_rows one_course).2.
Proof.
  exact (sync_only_appends (H := example_discovery) "catalog-1"
           [demo_catalog] two_rows one_course one_course_table_ok).
Defined.

(** * The admin form *)
Section FormFacts.
Context `{Digest}.

Lemma isinstance_list (x : json) :
  isinstance x TyList = true -> exists elems, x = JArr elems.
Proof. destruct x; try discriminate. by eexists. Qed.

Lemma validate_field_ok (kvs : list (string * json)) (key : string)
    (value : field_type) :
  validate_field kvs key value = inr tt <-> field_ok kvs (key, value) = true.
Proof.
  unfold validate_field, field_ok. simpl.
  destruct (json_lookup key kvs) as [x|]; [|done].
  destruct (isinstance x (declared_type value)) eqn:Hinst; simpl; [|done].
  destruct (pytype_eqb (declared_type value) TyList) eqn:Hlist; simpl; [|done].
  assert (Hx : exists elems, x = JArr elems).
  { apply isinstance_list. by destruct (declared_type value). }
  destruct Hx as (elems & ->).
  destruct (declared_subtype value) as [sub|].
  - destruct elems as [|e elems]; [done|].
    by destruct (forallb _ (e :: elems)).
  - by destruct elems.
Qed.

Lemma validate_fields_ok (cftypes : list (string * field_type))
    (kvs : list (string * json)) :
  validate_fields cftypes kvs = inr tt <-> forallb (field_ok kvs) cftypes = true.
Proof.
  induction cftypes as [|[key value] cftypes IH]; simpl; [done|].
  pose proof (validate_field_ok kvs key value) as Hf.
  destruct (validate_field kvs key value) as [e|[]].
  - destruct (field_ok kvs (key, value)); [|done].
    split; [done|]. intros _. by apply Hf.
  - rewrite (proj1 Hf eq_refl). simpl. apply IH.
Qed.

(** X19: the form's field validation accepts a content filter exactly when
    every declared field that the filter mentions holds a value of the
    declared class and, for a list, only elements of exactly the declared
    subtype; fields that are not declared are never looked at. *)
Theorem validate_content_filter_fields_accepts (cftypes : list (string * field_type))
    (kvs : list (string * json)) :
  validate_content_filter_fields cftypes (JObj kvs) = inr tt
  <-> forallb (field_ok kvs) cftypes = true.
Proof.
  unfold validate_content_filter_fields.
  destruct cftypes as [|decl cftypes]; [done|]. apply validate_fields_ok.
Qed.

Lemma existsb_has_hash_false (x : string) (rs : list CatalogQuery.t) :
  existsb (CatalogQuery.has_hash x) rs = false ->
  Forall (fun r => CatalogQuery.content_filter_hash r <> Some x) rs.
Proof.
  intros Hex. apply Forall_forall. intros r Hr Hrx.
  assert (existsb (CatalogQuery.has_hash x) rs = true) as Hex';
    [|by rewrite Hex' in Hex].
  apply existsb_exists. exists r. split; [by apply list_elem_of_In|].
  by apply has_hash_true.
Qed.

(** X20: a filter the form accepts is returned as it is, and it is new to
    the table: no row holds its digest, so resolving it without an
    identifier appends one row for it, under the next primary key and a
    fresh identifier, with the filter, its digest and the title given. *)
Theorem clean_content_filter_accepts_new (cftypes : list (string * field_type))
    (content_filter cleaned : json) (query_title : option string)
    (db : CatalogQuery.table) :
  clean_content_filter cftypes content_filter db = inr cleaned ->
  cleaned = content_filter
  /\ Forall (fun r => CatalogQuery.content_filter_hash r
                      <> Some (get_content_filter_hash content_filter))
       (CatalogQuery.rows db)
  /\ let new := CatalogQuery.Build (Some (CatalogQuery.next_id db))
                  (uuid4 (CatalogQuery.next_id db)) query_title content_filter
                  (Some (get_content_filter_hash content_filter)) in
     find_and_modify_catalog_query content_filter None query_title db
     = (inr new,
        CatalogQuery.Table (CatalogQuery.rows db ++ [new])
          (S (CatalogQuery.next_id db))).
Proof.
  unfold clean_content_filter.
  destruct (validate_content_filter_fields cftypes content_filter) as [e|[]];
    [done|].
  destruct (existsb _ _) eqn:Hex; [done|]. intros [= <-].
  apply existsb_has_hash_false in Hex. split; [done|]. split; [done|].
  unfold find_and_modify_catalog_query, uuid_given.
  unfold CatalogQuery.get_or_create, CatalogQuery.get_by_hash.
  rewrite (filter_has_hash_none _ _ Hex).
  unfold CatalogQuery.create_object_from_params, CatalogQuery.create,
    CatalogQuery.save, CatalogQuery.Model_save. simpl.
  match goal with |- context [CatalogQuery.hash_taken ?q (CatalogQuery.rows db)] =>
    rewrite (hash_taken_absent q (get_content_filter_hash content_filter)
               (CatalogQuery.rows db) eq_refl (filter_has_hash_none _ _ Hex)) end.
  reflexivity.
Qed.

(** X21: once a filter has been resolved, the form refuses it: on the table
    a successful resolution leaves, a filter that passes the field
    validation is rejected as already existing. *)
Theorem clean_content_filter_rejects_resolved
    (cftypes : list (string * field_type)) (content_filter : json)
    (catalog_query_uuid query_title : option string)
    (db : CatalogQuery.table) (q : CatalogQuery.t) (db' : CatalogQuery.table) :
  find_and_modify_catalog_query content_filter catalog_query_uuid query_title db
  = (inr q, db') ->
  validate_content_filter_fields cftypes content_filter = inr tt ->
  clean_content_filter cftypes content_filter db'
  = inl (FormValidationError
           "Catalog Query with this Content filter already exists.").
Proof.
  intros Hres Hval. unfold clean_content_filter. rewrite Hval.
  apply find_and_modify_catalog_query_result in Hres as [Hin Hh].
  replace (existsb _ _) with true; [done|].
  symmetry. apply existsb_exists. exists q.
  split; [by apply list_elem_of_In|]. by apply has_hash_true.
Qed.
End FormFacts.

Lemma clean_content_filter_accepts_new_witness :
  JObj [("key", JArr [JStr "edX+DemoX"])] = JObj [("key", JArr [JStr "edX+DemoX"])]
  /\ Forall (fun r => CatalogQuery.content_filter_hash r
                      <> Some (json_dumps (JObj [("key", JArr [JStr "edX+DemoX"])])))
       (CatalogQuery.rows two_rows)
  /\ find_and_modify_catalog_query (H := example_digest)
       (JObj [("key", JArr [JStr "edX+DemoX"])]) None (Some "demo") two_rows
     = (inr (CatalogQuery.Build (Some 3) "uuid-3" (Some "demo")
               (JObj [("key", JArr [JStr "edX+DemoX"])])
               (Some (json_dumps (JObj [("key", JArr [JStr "edX+DemoX"])])))),
        CatalogQuery.Table
          (CatalogQuery.rows two_rows
           ++ [CatalogQuery.Build (Some 3) "uuid-3" (Some "demo")
                 (JObj [("key", JArr [JStr "edX+DemoX"])])
                 (Some (json_dumps (JObj [("key", JArr [JStr "edX+DemoX"])])))])
          4).
Proof.
  exact (clean_content_filter_accepts_new (H := example_digest) example_cftypes
           (JObj [("key", JArr [JStr "edX+DemoX"])]) _ (Some "demo") two_rows
           eq_refl).
Defined.

Lemma clean_content_filter_rejects_resolved_witness :
  clean_content_filter (H := example_digest) example_cftypes course_filter
    (find_and_modify_catalog_query (H := example_digest) course_filter None None
       two_rows).2
  = inl (FormValidationError
           "Catalog Query with this Content filter already exists.").
Proof.
  apply (clean_content_filter_rejects_resolved (H := example_digest)
           example_cftypes course_filter None None two_rows row_b).
  - by vm_compute.
  - reflexivity.
Defined.

(** * Creating catalogs *)
Section CreateFacts.
Context `{Digest} `{CatalogEnv}.

Lemma insert_catalog_ok (c c' : EnterpriseCatalog.t)
    (catalogs catalogs' : list EnterpriseCatalog.t) :
  insert_catalog c catalogs = (inr c', catalogs') ->
  c' = c /\ catalogs' = catalogs ++ [c].
Proof.
  unfold insert_catalog. destruct (existsb _ catalogs); [done|].
  destruct (unique_together_taken c catalogs); [done|]. by intros [= <- <-].
Qed.

Lemma create_ok (vd : validated_data) (queries queries' : CatalogQuery.table)
    (catalogs catalogs' : list EnterpriseCatalog.t) (c : EnterpriseCatalog.t) :
  create vd queries catalogs = (inr c, (queries', catalogs')) ->
  exists q : CatalogQuery.t,
    find_and_modify_catalog_query (vd_content_filter vd)
      (vd_catalog_query_uuid vd) (vd_query_title vd) queries
    = (inr q, queries')
    /\ catalogs' = catalogs ++ [c]
    /\ EnterpriseCatalog.catalog_query c = CatalogQuery.id q
    /\ EnterpriseCatalog.enterprise_uuid c = vd_enterprise_uuid vd.
Proof.
  unfold create.
  destruct (find_and_modify_catalog_query _ _ _ queries) as [[e|q] qs];
    [done|].
  match goal with |- context [insert_catalog ?row catalogs] =>
    destruct (insert_catalog row catalogs) as [[e|c0] cs] eqn:Hins end;
    [done|].
  intros [= <- <- <-]. apply insert_catalog_ok in Hins as [-> ->].
  by exists q.
Qed.

Lemma resolve_table_ok (content_filter : json)
    (catalog_query_uuid query_title : option string) (db : CatalogQuery.table) :
  catalog_query_table_ok db ->
  catalog_query_table_ok
    (find_and_modify_catalog_query content_filter catalog_query_uuid
       query_title db).2.
Proof.
  apply (resolver_writes_through_save
           (fun db db' => catalog_query_table_ok db -> catalog_query_table_ok db')).
  - auto.
  - intros force_insert self db0. apply save_keeps_table_ok.
Qed.

Lemma resolve_again_without_identifier (content_filter : json)
    (catalog_query_uuid title1 title2 : option string)
    (db db1 : CatalogQuery.table) (q : CatalogQuery.t) :
  catalog_query_table_ok db ->
  find_and_modify_catalog_query content_filter catalog_query_uuid title1 db
  = (inr q, db1) ->
  find_and_modify_catalog_query content_filter None title2 db1 = (inr q, db1).
Proof.
  intros Hok Hres.
  pose proof (resolve_table_ok content_filter catalog_query_uuid title1 db Hok)
    as (Hu & _).
  rewrite Hres in Hu. simpl in Hu.
  apply find_and_modify_catalog_query_result in Hres as [Hin Hh].
  unfold find_and_modify_catalog_query. simpl.
  unfold CatalogQuery.get_or_create.
  by rewrite (get_by_hash_found _ q db1 Hu Hin Hh).
Qed.

(** X22: a catalog that was created is appended to the catalogs and refers
    to a stored query: the row the resolver returned for the request's
    filter, which is in the CatalogQuery table the call leaves and carries
    the digest of that filter. *)
Theorem create_refers_to_stored_query (vd : validated_data)
    (queries queries' : CatalogQuery.table)
    (catalogs catalogs' : list EnterpriseCatalog.t) (c : EnterpriseCatalog.t) :
  create vd queries catalogs = (inr c, (queries', catalogs')) ->
  catalogs' = catalogs ++ [c]
  /\ exists q : CatalogQuery.t,
       q ∈ CatalogQuery.rows queries'
       /\ EnterpriseCatalog.catalog_query c = CatalogQuery.id q
       /\ CatalogQuery.content_filter_hash q
          = Some (get_content_filter_hash (vd_content_filter vd)).
Proof.
  intros Hc. apply create_ok in Hc as (q & Hres & Hcs & Hfk & _).
  split; [done|]. exists q.
  apply find_and_modify_catalog_query_result in Hres as [Hin Hh].
  by repeat split.
Qed.

(** X23: catalogs share their query: when a catalog has been created for a
    filter and a second request brings the same filter without a query
    identifier, the second catalog refers to the same CatalogQuery row and
    the CatalogQuery table is not written again. *)
Theorem create_shares_query (vd1 vd2 : validated_data)
    (queries queries1 queries2 : CatalogQuery.table)
    (catalogs catalogs1 catalogs2 : list EnterpriseCatalog.t)
    (c1 c2 : EnterpriseCatalog.t) :
  catalog_query_table_ok queries ->
  vd_content_filter vd2 = vd_content_filter vd1 ->
  vd_catalog_query_uuid vd2 = None ->
  create vd1 queries catalogs = (inr c1, (queries1, catalogs1)) ->
  create vd2 queries1 catalogs1 = (inr c2, (queries2, catalogs2)) ->
  EnterpriseCatalog.catalog_query c2 = EnterpriseCatalog.catalog_query c1
  /\ queries2 = queries1.
Proof.
  intros Hok Hf Hnone Hc1 Hc2.
  apply create_ok in Hc1 as (q1 & Hres1 & _ & Hfk1 & _).
  apply create_ok in Hc2 as (q2 & Hres2 & _ & Hfk2 & _).
  rewrite Hf, Hnone in Hres2.
  rewrite (resolve_again_without_identifier _ _ _ (vd_query_title vd2)
             queries queries1 q1 Hok Hres1) in Hres2.
  injection Hres2 as <- <-. split; [congruence|done].
Qed.

(** X24: an enterprise cannot register the same query twice: after a
    catalog has been created for an enterprise and a filter, a second
    request of the same enterprise with the same filter and no query
    identifier fails with the IntegrityError of the INSERT, raised as it is;
    no catalog is added and the CatalogQuery table is left as it was. *)
Theorem create_twice_for_one_enterprise (vd1 vd2 : validated_data)
    (queries queries1 : CatalogQuery.table)
    (catalogs catalogs1 : list EnterpriseCatalog.t) (c1 : EnterpriseCatalog.t) :
  catalog_query_table_ok queries ->
  vd_content_filter vd2 = vd_content_filter vd1 ->
  vd_catalog_query_uuid vd2 = None ->
  vd_enterprise_uuid vd2 = vd_enterprise_uuid vd1 ->
  create vd1 queries catalogs = (inr c1, (queries1, catalogs1)) ->
  exists column : string,
    create vd2 queries1 catalogs1
    = (inl (IntegrityError column), (queries1, catalogs1)).
Proof.
  intros Hok Hf Hnone He Hc1.
  apply create_ok in Hc1 as (q1 & Hres1 & Hcs & Hfk1 & He1).
  pose proof (resolve_table_ok (vd_content_filter vd1)
                (vd_catalog_query_uuid vd1) (vd_query_title vd1) queries Hok)
    as Hok1.
  rewrite Hres1 in Hok1. simpl in Hok1.
  pose proof Hres1 as Hq1.
  apply find_and_modify_catalog_query_result in Hq1 as [Hin _].
  destruct Hok1 as (_ & _ & Hb). rewrite Forall_forall in Hb.
  destruct (Hb q1 Hin) as (fk & Hid & _).
  unfold create. rewrite Hf, Hnone.
  rewrite (resolve_again_without_identifier _ _ _ (vd_query_title vd2)
             queries queries1 q1 Hok Hres1).
  unfold insert_catalog.
  destruct (existsb _ catalogs1) eqn:Hpk; [by eexists|].
  replace (unique_together_taken _ catalogs1) with true; [by eexists|].
  symmetry. unfold unique_together_taken. simpl. rewrite Hid.
  apply existsb_exists. exists c1. split.
  - rewrite Hcs. apply in_or_app. right. by left.
  - apply andb_true_intro. split.
    + apply String.eqb_eq. congruence.
    + apply bool_decide_eq_true. congruence.
Qed.
End CreateFacts.

Lemma create_refers_to_stored_query_witness :
  exists (c : EnterpriseCatalog.t) (queries' : CatalogQuery.table)
         (catalogs' : list EnterpriseCatalog.t),
    create (H := example_digest) (H0 := example_catalog_env) acme_request
      two_rows [] = (inr c, (queries', catalogs'))
    /\ catalogs' = [] ++ [c]
    /\ exists q : CatalogQuery.t,
         q ∈ CatalogQuery.rows queries'
         /\ EnterpriseCatalog.catalog_query c = CatalogQuery.id q
         /\ CatalogQuery.content_filter_hash q = Some (json_dumps course_filter).
Proof.
  eexists _, _, _. split; [by vm_compute|].
  eapply (create_refers_to_stored_query (H := example_digest)
            (H0 := example_catalog_env) acme_request two_rows _ []).
  by vm_compute.
Defined.

Lemma create_shares_query_witness :
  exists (c1 c2 : EnterpriseCatalog.t) (queries1 queries2 : CatalogQuery.table)
         (catalogs1 catalogs2 : list EnterpriseCatalog.t),
    create (H := example_digest) (H0 := example_catalog_env) acme_request
      two_rows [] = (inr c1, (queries1, catalogs1))
    /\ create (H := example_digest) (H0 := example_catalog_env) globex_request
         queries1 catalogs1 = (inr c2, (queries2, catalogs2))
    /\ EnterpriseCatalog.catalog_query c2 = EnterpriseCatalog.catalog_query c1
    /\ queries2 = queries1.
Proof.
  eexists _, _, _, _, _, _. split; [by vm_compute|]. split; [by vm_compute|].
  eapply (create_shares_query (H := example_digest) (H0 := example_catalog_env)
            acme_request globex_request two_rows _ _ []).
  - exact two_rows_table_ok.
  - reflexivity.
  - reflexivity.
  - by vm_compute.
  - by vm_compute.
Defined.

Lemma create_twice_for_one_enterprise_witness :
  exists (c1 : EnterpriseCatalog.t) (queries1 : CatalogQuery.table)
         (catalogs1 : list EnterpriseCatalog.t),
    create (H := example_digest) (H0 := example_catalog_env) acme_request
      two_rows [] = (inr c1, (queries1, catalogs1))
    /\ exists column : string,
         create (H := example_digest) (H0 := example_catalog_env) acme_request
           queries1 catalogs1
         = (inl (IntegrityError column), (queries1, catalogs1)).
Proof.
  eexists _, _, _. split; [by vm_compute|].
  eapply (create_twice_for_one_enterprise (H := example_digest)
            (H0 := example_catalog_env) acme_request acme_request two_rows
            _ []).
  - exact two_rows_table_ok.
  - reflexivity.
  - reflexivity.
  - reflexivity.
  - by vm_compute.
Defined.

(** * Updating catalogs *)
Section UpdateFacts.
Context `{Digest} `{ModelSerializer}.

Lemma cq_replace_row_same (pk : nat) (a : CatalogQuery.t)
    (rs : list CatalogQuery.t) :
  NoDup (map CatalogQuery.id rs) -> a ∈ rs -> CatalogQuery.id a = Some pk ->
  CatalogQuery.replace_row pk a rs = rs.
Proof.
  intros Hnd Hin Hid. unfold CatalogQuery.replace_row.
  induction rs as [|r rs IH]; [done|].
  simpl in Hnd. apply NoDup_cons in Hnd as [Hnot Hnd]. simpl.
  unfold CatalogQuery.has_pk at 1. case_bool_decide as Hr.
  - assert (r = a) as ->.
    { apply elem_of_cons in Hin as [->|Hin]; [done|].
      exfalso. apply Hnot. rewrite Hr, <- Hid. by apply list_elem_of_fmap_2. }
    f_equal. apply (replace_row_absent pk a rs). by rewrite <- Hid.
  - f_equal. apply IH; [done|].
    apply elem_of_cons in Hin as [->|Hin]; [by rewrite Hid in Hr|done].
Qed.

Lemma unique_hash_owner (x : string) (a r : CatalogQuery.t)
    (rs : list CatalogQuery.t) :
  unique_hashes rs -> a ∈ rs -> CatalogQuery.content_filter_hash a = Some x ->
  r ∈ rs -> CatalogQuery.content_filter_hash r = Some x -> r = a.
Proof.
  intros Hu Ha Hax Hr Hrx.
  pose proof (filter_has_hash_unique x a rs Hu Ha Hax) as Hf.
  assert (Hin : In r (List.filter (CatalogQuery.has_hash x) rs)).
  { apply filter_In. split; [by apply list_elem_of_In|by apply has_hash_true]. }
  rewrite Hf in Hin. by destruct Hin as [<-|[]].
Qed.

Lemma catalog_query_of_elem (instance : EnterpriseCatalog.t)
    (queries : CatalogQuery.table) (a : CatalogQuery.t) :
  catalog_query_of instance queries = Some a ->
  a ∈ CatalogQuery.rows queries
  /\ EnterpriseCatalog.catalog_query instance = CatalogQuery.id a.
Proof.
  unfold catalog_query_of.
  destruct (EnterpriseCatalog.catalog_query instance) as [fk|]; [|done].
  intros Hf. apply find_some in Hf as [Hin Hpk].
  split; [by apply list_elem_of_In|].
  unfold CatalogQuery.has_pk in Hpk. by apply bool_decide_eq_true in Hpk.
Qed.

Lemma set_catalog_query_same (instance : EnterpriseCatalog.t) :
  set_catalog_query (EnterpriseCatalog.catalog_query instance) instance
  = instance.
Proof. by destruct instance. Qed.

(** X25: an update that brings no filter, no query identifier and no query
    title resolves the catalog's own query with its own values: the
    CatalogQuery table is left exactly as it was, the catalog keeps its
    query, and the rest of the update is what [super().update] makes of
    the unchanged instance. *)
Theorem update_without_query_fields (instance : EnterpriseCatalog.t)
    (vd : update_data) (queries : CatalogQuery.table)
    (catalogs : list EnterpriseCatalog.t) (a : CatalogQuery.t) :
  catalog_query_table_ok queries ->
  catalog_query_of instance queries = Some a ->
  CatalogQuery.uuid a <> "" ->
  CatalogQuery.get_by_uuid (CatalogQuery.uuid a) queries = Some a ->
  CatalogQuery.content_filter_hash a
  = Some (get_content_filter_hash (CatalogQuery.content_filter a)) ->
  ud_content_filter vd = None -> ud_query_title vd = None ->
  ud_catalog_query_uuid vd = None ->
  update instance vd queries catalogs
  = ((model_serializer_update instance (pop_catalog_query_uuid vd) catalogs).1,
     (queries,
      (model_serializer_update instance (pop_catalog_query_uuid vd) catalogs).2)).
Proof.
  intros (Hu & Hids & Hb) Hcur Hne Hget Hhash Hf Ht Hq.
  pose proof (catalog_query_of_elem instance queries a Hcur) as [Hin Hfk].
  rewrite Forall_forall in Hb. destruct (Hb a Hin) as (pk & Hid & _).
  unfold update, update_arguments. rewrite Hcur, Hf, Ht, Hq. simpl.
  rewrite (find_and_modify_known_identifier (CatalogQuery.content_filter a)
             (CatalogQuery.uuid a) (CatalogQuery.title a) queries a pk
             Hne Hget Hid).
  - assert (Hsame : CatalogQuery.Build (Some pk) (CatalogQuery.uuid a)
                      (CatalogQuery.title a) (CatalogQuery.content_filter a)
                      (Some (get_content_filter_hash (CatalogQuery.content_filter a)))
                    = a).
    { rewrite <- Hid, <- Hhash. by destruct a. }
    rewrite Hsame, (cq_replace_row_same pk a _ Hids Hin Hid).
    rewrite <- Hfk, set_catalog_query_same.
    destruct (model_serializer_update _ _ _) as [r cs]. simpl.
    by destruct queries.
  - apply Forall_forall. intros r Hr Hrx.
    by rewrite (unique_hash_owner _ a r _ Hu Hin Hhash Hr Hrx).
Qed.

(** X26: an update that brings only a new filter edits the catalog's query
    in place: when no row holds the digest of the new filter, the row the
    catalog refers to keeps its primary key, identifier and title and takes
    the new filter and digest, so every catalog that shares the row is
    moved to the new filter; no row is added. *)
Theorem update_with_new_filter (instance : EnterpriseCatalog.t)
    (vd : update_data) (queries : CatalogQuery.table)
    (catalogs : list EnterpriseCatalog.t) (a : CatalogQuery.t) (pk : nat)
    (content_filter : json) :
  catalog_query_of instance queries = Some a ->
  CatalogQuery.id a = Some pk ->
  CatalogQuery.uuid a <> "" ->
  CatalogQuery.get_by_uuid (CatalogQuery.uuid a) queries = Some a ->
  Forall (fun r => CatalogQuery.content_filter_hash r
                   <> Some (get_content_filter_hash content_filter))
    (CatalogQuery.rows queries) ->
  ud_content_filter vd = Some content_filter -> ud_query_title vd = None ->
  ud_catalog_query_uuid vd = None ->
  (update instance vd queries catalogs).2.1
  = CatalogQuery.Table
      (CatalogQuery.replace_row pk
         (CatalogQuery.Build (Some pk) (CatalogQuery.uuid a)
            (CatalogQuery.title a) content_filter
            (Some (get_content_filter_hash content_filter)))
         (CatalogQuery.rows queries))
      (CatalogQuery.next_id queries).
Proof.
  intros Hcur Hid Hne Hget Hfree Hf Ht Hq.
  unfold update, update_arguments. rewrite Hcur, Hf, Ht, Hq. simpl.
  rewrite (find_and_modify_known_identifier content_filter
             (CatalogQuery.uuid a) (CatalogQuery.title a) queries a pk
             Hne Hget Hid).
  - by destruct (model_serializer_update _ _ _).
  - eapply Forall_impl; [exact Hfree|]. intros r Hr Hrx. by destruct Hr.
Qed.
End UpdateFacts.

Lemma update_without_query_fields_witness :
  update (H := example_digest) (H0 := example_model_serializer) demo_catalog
    no_changes two_rows [demo_catalog]
  = (inr demo_catalog, (two_rows, [demo_catalog])).
Proof.
  apply (update_without_query_fields (H := example_digest)
           (H0 := example_model_serializer) demo_catalog no_changes two_rows
           [demo_catalog] row_b two_rows_table_ok);
    (reflexivity || discriminate).
Defined.

Lemma update_with_new_filter_witness :
  (update (H := example_digest) (H0 := example_model_serializer) demo_catalog
     (UpdateData (Some level_filter) None None None None None None None None)
     two_rows [demo_catalog]).2.1
  = CatalogQuery.Table
      (CatalogQuery.replace_row 1
         (CatalogQuery.Build (Some 1) "uuid-b" (Some "courses") level_filter
            (Some (json_dumps level_filter)))
         (CatalogQuery.rows two_rows))
      3.
Proof.
  apply (update_with_new_filter (H := example_digest)
           (H0 := example_model_serializer) demo_catalog
           (UpdateData (Some level_filter) None None None None None None None None)
           two_rows [demo_catalog] row_b 1 level_filter);
    try (reflexivity || discriminate).
  repeat constructor; intros Hh; vm_compute in Hh; discriminate.
Defined.
